(** * Opportunity lifecycle pipeline of the Polygon arbitrage monitor

    A shallow embedding of the TypeScript sources
      - class [SafetyChecker]       (Safety Validator),
      - class [SimulationEngine]    (Simulation Engine),
      - class [PoolAnalyzer]        (Pool State Store, Detector),
      - [decodeCalldata] and its helpers (calldata decoder),
      - class [ArbitrageExecutor]   (Executor),
      - class [TransactionListener] (stream listener),
      - the two entry points of [index.ts] (arbitrage monitor and
        copy-trading bot),
      - the types of [types/index.ts],
    followed by the properties the specification states about them and
    by further properties read off the code.

    Conventions of the embedding.
      - [bigint] is [Z]; bigint division is [Z.quot] and division by [0n]
        raises a [RangeError].
      - A JavaScript [number] and a decimal.js [Decimal] are both read as
        an extended exact rational ([number] below): [NaN], the two
        infinities, or a finite rational.  The rounding of IEEE doubles and
        of decimal.js to its working precision is not modelled, and zero
        carries no sign.
      - A string is a [string] whose characters stand for code units
        below 256.
      - Code that can throw lives in the error monad [Exc]; [try]/[catch]
        is [catch].  Logging has no effect on any result and is omitted,
        except in the listener where the log line is the only trace of
        giving up.
      - [process.env], [Date.now()], [Math.random()] and the replies of
        remote services are explicit arguments. *)

From Stdlib Require Import ZArith QArith Qabs Qfield Bool List String Ascii Lia Lqa.
From Stdlib Require Import Sorting.Sorted Sorting.Permutation.
Import ListNotations.

Local Open Scope string_scope.
Local Open Scope list_scope.
Local Open Scope Z_scope.

(* ================================================================== *)
(** * JavaScript values *)
(* ================================================================== *)

Module Js.

(** ** Numbers *)

Inductive number : Type :=
| NaN
| PInf
| NInf
| Fin (q : Q).

Definition ofZ (z : Z) : number := Fin (inject_Z z).

Definition Qltb (x y : Q) : bool :=
  (Qnum x * QDen y <? Qnum y * QDen x)%Z.

Definition Qeqb (x y : Q) : bool :=
  (Qnum x * QDen y =? Qnum y * QDen x)%Z.

(** [a < b]; any comparison with [NaN] is [false]. *)
Definition lt (a b : number) : bool :=
  match a, b with
  | Fin x, Fin y => Qltb x y
  | NInf, Fin _ | NInf, PInf | Fin _, PInf => true
  | _, _ => false
  end.

Definition gt (a b : number) : bool := lt b a.

(** [a <= b]. *)
Definition le (a b : number) : bool :=
  match a, b with
  | Fin x, Fin y => negb (Qltb y x)
  | NInf, Fin _ | NInf, PInf | Fin _, PInf => true
  | NInf, NInf | PInf, PInf => true
  | _, _ => false
  end.

Definition ge (a b : number) : bool := le b a.

Definition neg (a : number) : number :=
  match a with
  | NaN => NaN
  | PInf => NInf
  | NInf => PInf
  | Fin x => Fin (- x)
  end.

Definition add (a b : number) : number :=
  match a, b with
  | NaN, _ | _, NaN => NaN
  | PInf, NInf | NInf, PInf => NaN
  | PInf, _ | _, PInf => PInf
  | NInf, _ | _, NInf => NInf
  | Fin x, Fin y => Fin (x + y)
  end.

Definition sub (a b : number) : number := add a (neg b).

(** The infinity whose sign is the product of the signs of [x] and of
    the flag [negative]; [NaN] when [x] is zero. *)
Definition signedInf (x : Q) (negative : bool) : number :=
  if Qeqb x 0 then NaN
  else if xorb (Qltb x 0) negative then NInf else PInf.

Definition mul (a b : number) : number :=
  match a, b with
  | NaN, _ | _, NaN => NaN
  | Fin x, Fin y => Fin (x * y)
  | PInf, PInf | NInf, NInf => PInf
  | PInf, NInf | NInf, PInf => NInf
  | Fin x, PInf | PInf, Fin x => signedInf x false
  | Fin x, NInf | NInf, Fin x => signedInf x true
  end.

Definition div (a b : number) : number :=
  match a, b with
  | NaN, _ | _, NaN => NaN
  | Fin x, Fin y =>
      if Qeqb y 0 then signedInf x false else Fin (x / y)
  | Fin _, PInf | Fin _, NInf => Fin 0
  | PInf, Fin y => if Qltb y 0 then NInf else PInf
  | NInf, Fin y => if Qltb y 0 then PInf else NInf
  | _, _ => NaN
  end.

Definition abs (a : number) : number :=
  match a with
  | NaN => NaN
  | PInf | NInf => PInf
  | Fin x => Fin (Qabs x)
  end.

(** Equality of numbers as values (fractions are compared, not their
    representation). *)
Definition eqv (a b : number) : Prop :=
  match a, b with
  | NaN, NaN | PInf, PInf | NInf, NInf => True
  | Fin x, Fin y => x == y
  | _, _ => False
  end.

(** ** Strings *)

Definition code (c : ascii) : N := N_of_ascii c.

Definition lowerChar (c : ascii) : ascii :=
  let n := code c in
  if ((65 <=? n) && (n <=? 90))%N then ascii_of_N (n + 32)
  else if ((192 <=? n) && (n <=? 222) && negb (n =? 215))%N
       then ascii_of_N (n + 32)
  else c.

Fixpoint toLowerCase (s : string) : string :=
  match s with
  | EmptyString => EmptyString
  | String c r => String (lowerChar c) (toLowerCase r)
  end.

(** [s.slice(a, b)] for [0 <= a <= b]; both ends are clamped. *)
Definition slice (s : string) (a b : nat) : string :=
  substring a (b - a) s.

(** [s.slice(a)]. *)
Definition sliceFrom (s : string) (a : nat) : string :=
  substring a (String.length s) s.

(** A string is truthy unless it is empty; [x || d] on an optional
    string. *)
Definition orElse (x : option string) (d : string) : string :=
  match x with
  | Some (String c r) => String c r
  | _ => d
  end.

Definition truthy (x : option string) : bool :=
  match x with
  | Some (String _ _) => true
  | _ => false
  end.

(** ** [parseInt(s)] without a radix *)

Definition isWhiteSpace (c : ascii) : bool :=
  let n := code c in
  (((9 <=? n) && (n <=? 13)) || (n =? 32) || (n =? 160))%N.

Fixpoint trimStart (s : string) : string :=
  match s with
  | String c r => if isWhiteSpace c then trimStart r else s
  | EmptyString => s
  end.

(** Value of a digit in the given radix, if it is one. *)
Definition digitValue (radix : Z) (c : ascii) : option Z :=
  let n := Z.of_N (code c) in
  let v :=
    if (48 <=? n) && (n <=? 57) then Some (n - 48)
    else if (97 <=? n) && (n <=? 122) then Some (n - 87)
    else if (65 <=? n) && (n <=? 90) then Some (n - 55)
    else None in
  match v with
  | Some d => if d <? radix then Some d else None
  | None => None
  end.

(** Reads the longest prefix of digits; [acc] is [None] until a digit
    has been seen. *)
Fixpoint readDigits (radix : Z) (s : string) (acc : option Z) : option Z :=
  match s with
  | EmptyString => acc
  | String c r =>
      match digitValue radix c with
      | Some d =>
          readDigits radix r
            (Some (match acc with Some a => a * radix + d | None => d end))
      | None => acc
      end
  end.

Definition stripSign (s : string) : bool * string :=
  match s with
  | String "-"%char r => (true, r)
  | String "+"%char r => (false, r)
  | _ => (false, s)
  end.

Definition stripHexPrefix (s : string) : option string :=
  match s with
  | String "0"%char (String "x"%char r) => Some r
  | String "0"%char (String "X"%char r) => Some r
  | _ => None
  end.

Definition parseInt (s : string) : number :=
  let '(negative, body) := stripSign (trimStart s) in
  let magnitude :=
    match stripHexPrefix body with
    | Some r => readDigits 16 r None
    | None => readDigits 10 body None
    end in
  match magnitude with
  | Some m => ofZ (if negative then - m else m)
  | None => NaN
  end.

(** ** Exceptions *)

(** A thrown value: an [Error] object with its message, or something
    that is not an [Error]. *)
Inductive thrown : Type :=
| ErrorObj (message : string)
| NotAnError.

(** [error instanceof Error ? error.message : fallback]. *)
Definition messageOr (e : thrown) (fallback : string) : string :=
  match e with
  | ErrorObj m => m
  | NotAnError => fallback
  end.

Inductive Exc (A : Type) : Type :=
| Ok (a : A)
| Throw (e : thrown).
Arguments Ok {A} a.
Arguments Throw {A} e.

Definition bind {A B} (m : Exc A) (k : A -> Exc B) : Exc B :=
  match m with
  | Ok a => k a
  | Throw e => Throw e
  end.

(** [try { m } catch (e) { h e }]. *)
Definition catch {A} (m : Exc A) (h : thrown -> Exc A) : Exc A :=
  match m with
  | Ok a => Ok a
  | Throw e => h e
  end.

(** [l[0]] followed by a property access: a [TypeError] on an empty
    array. *)
Definition first {A} (l : list A) : Exc A :=
  match l with
  | x :: _ => Ok x
  | [] => Throw (ErrorObj "Cannot read properties of undefined")
  end.

(** bigint division. *)
Definition bigDiv (a b : Z) : Exc Z :=
  if b =? 0 then Throw (ErrorObj "Division by zero") else Ok (Z.quot a b).

End Js.

Import Js.

Declare Scope exc_scope.
Delimit Scope exc_scope with exc.
Notation "x <- m ;; k" := (bind m (fun x => k))
  (at level 61, m at next level, right associativity) : exc_scope.

(* ================================================================== *)
(** * Data model ([types/index.ts]) *)
(* ================================================================== *)

Inductive DEXType : Type :=
| QuickSwap | Algebra | Uniswap | Balancer | Curve.

Record Token : Type := mkToken {
  token_address : string;
  token_symbol : string;
  token_decimals : number;
  token_priceUSD : option number
}.

Record PoolState : Type := mkPoolState {
  dexType : DEXType;
  pool_address : string;
  token0 : Token;
  token1 : Token;
  reserve0 : Z;
  reserve1 : Z;
  fee : option number;
  liquidity : option Z;
  sqrtPriceX96 : option Z;
  currentTick : option number;
  twapPrice : option number;
  pool_timestamp : number
}.

Inductive TxSource : Type :=
| SrcBloxroute | SrcEden | SrcManifold.

Record PendingTx : Type := mkPendingTx {
  tx_hash : string;
  tx_from : string;
  tx_to : option string;
  tx_value : string;
  tx_data : string;
  tx_gasPrice : string;
  tx_gasLimit : string;
  tx_nonce : number;
  tx_timestamp : number;
  tx_source : TxSource
}.

Inductive OpportunityType : Type :=
| CrossDexArbitrage
| JitLiquidity
| TWAPArbitrage
| TriangleCycle
| StatisticalArbitrage.

Record StateDeviation : Type := mkStateDeviation {
  poolAddress : string;
  expectedState : PoolState;
  actualState : PoolState;
  deviationBPS : number
}.

Record SimulationResult : Type := mkSimulationResult {
  success : bool;
  outputAmount : Z;
  actualProfit : Z;
  actualProfitBPS : number;
  gasCost : Z;
  flashloanFee : Z;
  netProfit : Z;
  netProfitBPS : number;
  deviations : list StateDeviation;
  revertReason : option string
}.

Record ArbitrageOpportunity : Type := mkArbitrageOpportunity {
  opp_id : string;
  opp_type : OpportunityType;
  createdAt : number;
  triggeringTx : option PendingTx;
  pools : list PoolState;
  expectedProfitUSD : number;
  expectedProfitBPS : number;
  profitMargin : number;
  gasEstimate : Z;
  flashloanRequired : bool;
  flashloanAmount : Z;
  path : list string;
  simulation : option SimulationResult;
  confidence : number
}.

Inductive ExecutionStatus : Type :=
| Submitted | Included | Failed | Reverted.

Record ExecutionResult : Type := mkExecutionResult {
  bundleHash : string;
  submittedAt : number;
  includedInBlock : option number;
  profitRealized : option Z;
  txHash : option string;
  status : ExecutionStatus;
  error : option string
}.

Inductive Severity : Type :=
| SevInfo | SevWarning | SevError.

Inductive AuditLogType : Type :=
| opportunity_detected
| simulation_run
| bundle_submitted
| execution_result
| safety_check_failed.

(** The part of [process.env] the modelled code reads. *)
Record Env : Type := mkEnv {
  MIN_PROFIT_BPS : option string;
  EXECUTOR_ADDRESS : option string;
  REVERT_ON_DEVIATION_SLIPPAGE_BPS : option string
}.

(* ================================================================== *)
(** * Safety Validator (class [SafetyChecker]) *)
(* ================================================================== *)

Module SafetyChecker.

Record Checks : Type := mkChecks {
  simulationProfitable : bool;
  noNegativeExternalities : bool;
  noFrontrunning : bool;
  revertOnDeviation : bool;
  auditLogCreated : bool
}.

Record SafetyCheckResult : Type := mkSafetyCheckResult {
  passed : bool;
  checks : Checks;
  failures : list string;
  warnings : list string
}.

Record PoolSummary : Type := mkPoolSummary {
  sum_dex : DEXType;
  sum_address : string;
  sum_token0 : string;
  sum_token1 : string
}.

(** An [AuditLog] record whose [data] payload is the one
    [createAuditLog] builds. *)
Record AuditLog : Type := mkAuditLog {
  log_timestamp : number;
  log_type : AuditLogType;
  log_opportunityId : option string;
  data_opportunityType : OpportunityType;
  data_expectedProfit : number;
  data_checks : Checks;
  data_failures : list string;
  data_pools : list PoolSummary;
  log_severity : Severity
}.

(** State of a [SafetyChecker] object together with the audit file it
    appends to.  [auditLogs] is the in-memory array; [auditFile] holds
    the records as serialised at the time of the write. *)
Record State : Type := mkState {
  auditLogs : list AuditLog;
  auditFile : list AuditLog
}.

(** What the outside world contributes to one run: the clock and
    whether [appendFileSync] succeeds. *)
Record World : Type := mkWorld {
  now : number;
  appendSucceeds : bool
}.

Definition failNotProfitable : string :=
  "Simulation shows no profit after gas costs".
Definition failNotSimulated : string :=
  "Opportunity not simulated before safety check".
Definition failExternalities : string :=
  "Opportunity may negatively impact other users".
Definition failFrontrunning : string :=
  "Opportunity has frontrunning/sandwich attack characteristics".
Definition warnRevertOnDeviation : string :=
  "Revert-on-deviation safety check failed".

Definition checkSimulationProfitable (env : Env) (sim : SimulationResult)
  : bool :=
  if negb (success sim) then false
  else
    let minProfitBPS := parseInt (orElse (MIN_PROFIT_BPS env) "80") in
    if lt (netProfitBPS sim) minProfitBPS then false
    else if (flashloanFee sim >? 0)
            && (actualProfit sim - gasCost sim - flashloanFee sim <=? 0)
         then false
    else true.

Definition isTriggeredByOwnTransaction (env : Env) (tx : PendingTx) : bool :=
  let executorAddress := toLowerCase (orElse (EXECUTOR_ADDRESS env) "") in
  if String.eqb (toLowerCase (tx_from tx)) executorAddress then true
  else true.

(** [Number(reserve0) / Number(reserve1)] is outside [[0.01, 100]]. *)
Definition ratioExtreme (pool : PoolState) : bool :=
  let ratio := div (ofZ (reserve0 pool)) (ofZ (reserve1 pool)) in
  gt ratio (ofZ 100) || lt ratio (Fin (1 # 100)).

Definition poolExtreme (pool : PoolState) : bool :=
  (reserve0 pool >? 0) && (reserve1 pool >? 0) && ratioExtreme pool.

Definition deviationTooLarge (d : StateDeviation) : bool :=
  gt (deviationBPS d) (ofZ 200).

Definition checkNoNegativeExternalities (env : Env)
  (opportunity : ArbitrageOpportunity) : bool :=
  let thirdParty :=
    match triggeringTx opportunity with
    | Some tx => negb (isTriggeredByOwnTransaction env tx)
    | None => false
    end in
  if thirdParty then false
  else if existsb poolExtreme (pools opportunity) then false
  else
    match simulation opportunity with
    | Some sim => negb (existsb deviationTooLarge (deviations sim))
    | None => true
    end.

Definition checkNoFrontrunning (opportunity : ArbitrageOpportunity) : bool :=
  match triggeringTx opportunity with
  | Some tx =>
      let callDataSize :=
        div (ofZ (Z.of_nat (String.length (tx_data tx)))) (ofZ 2) in
      if gt callDataSize (ofZ 10000) then false else true
  | None => true
  end.

Definition checkRevertOnDeviation (env : Env) : bool :=
  match REVERT_ON_DEVIATION_SLIPPAGE_BPS env with
  | Some (String c r) =>
      let threshold := parseInt (String c r) in
      if gt threshold (ofZ 500) then false else true
  | _ => false
  end.

Definition summarise (p : PoolState) : PoolSummary :=
  {| sum_dex := dexType p;
     sum_address := pool_address p;
     sum_token0 := token_symbol (token0 p);
     sum_token1 := token_symbol (token1 p) |}.

Definition buildLog (w : World) (opportunity : ArbitrageOpportunity)
  (cs : Checks) (fs : list string) : AuditLog :=
  {| log_timestamp := now w;
     log_type := safety_check_failed;
     log_opportunityId := Some (opp_id opportunity);
     data_opportunityType := opp_type opportunity;
     data_expectedProfit := expectedProfitBPS opportunity;
     data_checks := cs;
     data_failures := fs;
     data_pools := map summarise (pools opportunity);
     log_severity := match fs with [] => SevInfo | _ => SevWarning end |}.

Definition setAuditLogCreated (cs : Checks) : Checks :=
  {| simulationProfitable := simulationProfitable cs;
     noNegativeExternalities := noNegativeExternalities cs;
     noFrontrunning := noFrontrunning cs;
     revertOnDeviation := revertOnDeviation cs;
     auditLogCreated := true |}.

(** [createAuditLog] followed by [checks.auditLogCreated = true].  The
    log object keeps a reference to [checks], so the in-memory entry
    shows the flag set afterwards, while the line in the file was
    serialised before.  Nothing in it throws, so it returns [true]. *)
Definition createAuditLog (w : World) (st : State)
  (opportunity : ArbitrageOpportunity) (cs : Checks) (fs : list string)
  : bool * State :=
  let written := buildLog w opportunity cs fs in
  let kept := buildLog w opportunity (setAuditLogCreated cs) fs in
  (true,
   {| auditLogs := auditLogs st ++ [kept];
      auditFile := if appendSucceeds w then auditFile st ++ [written]
                   else auditFile st |}).

(** The body of the [try] block.  None of its steps throws on values
    of the declared types (the audit-log write has its own handler), so
    the [catch] block is never entered and is not modelled. *)
Definition checkOpportunitySafety (env : Env) (w : World) (st : State)
  (opportunity : ArbitrageOpportunity) : SafetyCheckResult * State :=
  (* 1. simulation profitability *)
  let '(c1, f1) :=
    match simulation opportunity with
    | Some sim =>
        if checkSimulationProfitable env sim then (true, [])
        else (false, [failNotProfitable])
    | None => (false, [failNotSimulated])
    end in
  (* 2. negative externalities *)
  let '(c2, f2) :=
    if checkNoNegativeExternalities env opportunity then (true, f1)
    else (false, f1 ++ [failExternalities]) in
  (* 3. frontrunning *)
  let '(c3, f3) :=
    if checkNoFrontrunning opportunity then (true, f2)
    else (false, f2 ++ [failFrontrunning]) in
  (* 4. revert-on-deviation: a warning, not a failure *)
  let '(c4, ws) :=
    if checkRevertOnDeviation env then (true, [])
    else (false, [warnRevertOnDeviation]) in
  let cs := {| simulationProfitable := c1;
               noNegativeExternalities := c2;
               noFrontrunning := c3;
               revertOnDeviation := c4;
               auditLogCreated := false |} in
  (* 5. audit log *)
  let '(created, st') := createAuditLog w st opportunity cs f3 in
  let cs' := if created then setAuditLogCreated cs else cs in
  ({| passed := match f3 with [] => true | _ => false end && c1;
      checks := cs';
      failures := f3;
      warnings := ws |},
   st').

Definition isCompliant (env : Env) (opportunity : ArbitrageOpportunity)
  : bool :=
  match simulation opportunity with
  | Some sim =>
      success sim
      && ge (netProfitBPS sim) (parseInt (orElse (MIN_PROFIT_BPS env) "80"))
  | None => false
  end.

End SafetyChecker.

(* ================================================================== *)
(** * Simulation Engine (class [SimulationEngine]) *)
(* ================================================================== *)

Module SimulationEngine.

(** The fields of a Tenderly reply the engine reads; gas figures are
    integers. *)
Record TraceEntry : Type := mkTraceEntry {
  gas_used : option Z;
  output : option string
}.

Record TenderlyError : Type := mkTenderlyError {
  error_code : string;
  error_message : string
}.

Record TenderlySim : Type := mkTenderlySim {
  sim_status : string;
  sim_error : option TenderlyError;
  sim_trace : list TraceEntry;
  sim_gas_price : string
}.

(** Outcome of [axios.post]: it throws, or it answers with a body whose
    [simulation] member may be missing. *)
Inductive TenderlyReply : Type :=
| PostThrows (e : thrown)
| Reply (simulation : option TenderlySim).

(** Outcomes of the three calls made on the local fork. *)
Record AnvilReply : Type := mkAnvilReply {
  callResult : Exc string;
  estimateGas : Exc Z;
  getGasPrice : Exc Z
}.

Record World : Type := mkWorld {
  tenderly : TenderlyReply;
  anvil : AnvilReply
}.

(** The engine after construction: which providers it holds. *)
Record Engine : Type := mkEngine {
  tenderlyClient : bool;
  anvilProvider : bool
}.

Record TransactionRequest : Type := mkTransactionRequest {
  req_to : string;
  req_value : string;
  req_gasLimit : Z;
  req_data : string
}.

(** The result both failure paths return. *)
Definition failure (reason : string) : SimulationResult :=
  {| success := false;
     outputAmount := 0;
     actualProfit := 0;
     actualProfitBPS := ofZ 0;
     gasCost := 0;
     flashloanFee := 0;
     netProfit := 0;
     netProfitBPS := ofZ 0;
     deviations := [];
     revertReason := Some reason |}.

Definition buildArbitrageTransaction (opportunity : ArbitrageOpportunity)
  : Exc TransactionRequest :=
  (p <- first (pools opportunity) ;;
   Ok {| req_to := pool_address p;
         req_value := "0";
         req_gasLimit := gasEstimate opportunity;
         req_data := "0x" |})%exc.

Definition checkStateDeviations (opportunity : ArbitrageOpportunity)
  : list StateDeviation := [].

Section WithBigInt.

(** [BigInt(s)] on a string: the parsed integer, or a [SyntaxError]. *)
Variable BigInt : string -> Exc Z.

(** The successful result built from an output amount and a gas cost,
    shared by both providers up to [deviations]. *)
Definition profitResult (opportunity : ArbitrageOpportunity)
  (out gas : Z) (devs : list StateDeviation) : Exc SimulationResult :=
  (p <- first (pools opportunity) ;;
   let inputValue := reserve0 p in
   let profit := if out >? inputValue then out - inputValue else 0 in
   profitBPS <-
     (if profit >? 0
      then q <- bigDiv (profit * 10000) inputValue ;; Ok (ofZ q)
      else Ok (ofZ 0)) ;;
   gasBPS <- bigDiv (gas * 10000) inputValue ;;
   Ok {| success := true;
         outputAmount := out;
         actualProfit := profit;
         actualProfitBPS := profitBPS;
         gasCost := gas;
         flashloanFee :=
           if flashloanRequired opportunity
           then Z.quot (flashloanAmount opportunity) 1000 else 0;
         netProfit := if profit >? gas then profit - gas else 0;
         netProfitBPS := sub profitBPS (ofZ gasBPS);
         deviations := devs;
         revertReason := None |})%exc.

Definition isReverted (sim : TenderlySim) : bool :=
  match sim_error sim with
  | Some _ => true
  | None => negb (String.eqb (sim_status sim) "true")
  end.

Definition tenderlyBody (eng : Engine) (w : World)
  (tx : TransactionRequest) (opportunity : ArbitrageOpportunity)
  : Exc (option SimulationResult) :=
  if negb (tenderlyClient eng) then Ok None
  else
    match tenderly w with
    | PostThrows e => Throw e
    | Reply None => Throw (ErrorObj "Cannot read properties of undefined")
    | Reply (Some sim) =>
        if isReverted sim then
          Ok (Some (failure
                (orElse (option_map error_message (sim_error sim))
                        "Unknown revert")))
        else
          (let gasUsed :=
             fold_left
               (fun sum t => sum + match gas_used t with
                                   | Some g => g
                                   | None => 0
                                   end)
               (sim_trace sim) 0 in
           gasPrice <- BigInt (sim_gas_price sim) ;;
           let gas := gasUsed * gasPrice in
           out <- BigInt (orElse
                            match last (map Some (sim_trace sim)) None with
                            | Some t => output t
                            | None => None
                            end "0") ;;
           r <- profitResult opportunity out gas [] ;;
           Ok (Some r))%exc
    end.

(** The [catch] of [simulateWithTenderly] turns every failure into
    [null]. *)
Definition simulateWithTenderly (eng : Engine) (w : World)
  (tx : TransactionRequest) (opportunity : ArbitrageOpportunity)
  : Exc (option SimulationResult) :=
  catch (tenderlyBody eng w tx opportunity) (fun _ => Ok None).

(** The [catch] of [simulateWithAnvil] logs and rethrows. *)
Definition simulateWithAnvil (eng : Engine) (w : World)
  (tx : TransactionRequest) (opportunity : ArbitrageOpportunity)
  : Exc SimulationResult :=
  catch
    (if negb (anvilProvider eng)
     then Throw (ErrorObj "Anvil provider not initialized")
     else
       (result <- callResult (anvil w) ;;
        out <- BigInt (orElse (Some result) "0") ;;
        p <- first (pools opportunity) ;;
        let inputValue := reserve0 p in
        let profit := if out >? inputValue then out - inputValue else 0 in
        _ <- (if profit >? 0
              then bigDiv (profit * 10000) inputValue else Ok 0) ;;
        gasEstimate <- estimateGas (anvil w) ;;
        gasPrice <- getGasPrice (anvil w) ;;
        profitResult opportunity out (gasEstimate * gasPrice)
          (checkStateDeviations opportunity))%exc)
    (fun e => Throw e).

Definition simulateBody (eng : Engine) (w : World)
  (opportunity : ArbitrageOpportunity) : Exc SimulationResult :=
  (arbTx <- buildArbitrageTransaction opportunity ;;
   viaTenderly <-
     (if tenderlyClient eng
      then simulateWithTenderly eng w arbTx opportunity
      else Ok None) ;;
   match viaTenderly with
   | Some result => Ok result
   | None =>
       if anvilProvider eng
       then simulateWithAnvil eng w arbTx opportunity
       else Throw (ErrorObj "No simulation provider available")
   end)%exc.

Definition simulate (eng : Engine) (w : World)
  (opportunity : ArbitrageOpportunity) : Exc SimulationResult :=
  catch (simulateBody eng w opportunity)
        (fun e => Ok (failure (messageOr e "Unknown error"))).

End WithBigInt.

(** The callback of [filterProfitable]. *)
Definition keepProfitable (minNetProfitBPS maxGasSpendBPS : number)
  (opp : ArbitrageOpportunity) : Exc bool :=
  match simulation opp with
  | None => Ok false
  | Some sim =>
      if lt (netProfitBPS sim) minNetProfitBPS then Ok false
      else
        (p <- first (pools opp) ;;
         let inputValue := reserve0 p in
         gasBPS <-
           (if gasCost sim >? 0
            then q <- bigDiv (gasCost sim * 10000) inputValue ;; Ok (ofZ q)
            else Ok (ofZ 0)) ;;
         if gt gasBPS maxGasSpendBPS then Ok false
         else if existsb (fun d => gt (deviationBPS d) (ofZ 200))
                         (deviations sim)
              then Ok false
         else Ok true)%exc
  end.

(** [Array.prototype.filter] with a callback that may throw. *)
Fixpoint filterExc {A} (f : A -> Exc bool) (l : list A) : Exc (list A) :=
  match l with
  | [] => Ok []
  | x :: r =>
      (keep <- f x ;;
       rest <- filterExc f r ;;
       Ok (if keep then x :: rest else rest))%exc
  end.

Definition filterProfitable (opportunities : list ArbitrageOpportunity)
  (minNetProfitBPS maxGasSpendBPS : number)
  : Exc (list ArbitrageOpportunity) :=
  filterExc (keepProfitable minNetProfitBPS maxGasSpendBPS) opportunities.

End SimulationEngine.

(* ================================================================== *)
(** * Calldata decoder ([decodeCalldata]) *)
(* ================================================================== *)

Module CalldataDecoder.

(** The [type] member of a [DecodedCall].  [no_type] stands for the
    [undefined] read off an object that is not a signature entry. *)
Inductive CallType : Type :=
| swap | liquidity_call | flash_loan | governance | unknown | no_type.

Record DecodedCall : Type := mkDecodedCall {
  call_to : string;
  call_function : string;
  call_args : list (string * string);
  call_type : CallType
}.

Record Signature : Type := mkSignature {
  sig_name : string;
  sig_type : CallType
}.

Definition FUNCTION_SIGNATURES : list (string * Signature) :=
  [ ("0x38ed1739", mkSignature "swapExactTokensForTokens" swap);
    ("0x8803dbee", mkSignature "swapTokensForExactTokens" swap);
    ("0x1f00ca16", mkSignature "exactInputSingle" swap);
    ("0x414bf389", mkSignature "exactOutputSingle" swap);
    ("0xc04b8d59", mkSignature "swap" swap);
    ("0x00878796", mkSignature "swap" swap);
    ("0xe8e33700", mkSignature "addLiquidity" liquidity_call);
    ("0x5b0d5984", mkSignature "addLiquidityETH" liquidity_call);
    ("0x83800a8e", mkSignature "addLiquidityOneToken" liquidity_call);
    ("0x2e1a7d4d", mkSignature "withdraw" liquidity_call);
    ("0x5b8c41e6", mkSignature "mint" liquidity_call);
    ("0x0c49ccbe", mkSignature "decreaseLiquidity" liquidity_call);
    ("0xab9c4b5d", mkSignature "flashLoan" flash_loan);
    ("0x23e30c8b", mkSignature "flashLoan" flash_loan);
    ("0xd14d7cc1", mkSignature "flashLoan" flash_loan) ].

(** The table is a plain object, so a lookup also finds what it
    inherits from [Object.prototype]: each name with the [name] of the
    value found there. *)
Definition inheritedKeys : list (string * string) :=
  [ ("constructor", "Object");
    ("toString", "toString");
    ("toLocaleString", "toLocaleString");
    ("valueOf", "valueOf");
    ("hasOwnProperty", "hasOwnProperty");
    ("isPrototypeOf", "isPrototypeOf");
    ("propertyIsEnumerable", "propertyIsEnumerable");
    ("__defineGetter__", "__defineGetter__");
    ("__defineSetter__", "__defineSetter__");
    ("__lookupGetter__", "__lookupGetter__");
    ("__lookupSetter__", "__lookupSetter__");
    ("__proto__", "") ].

Fixpoint assoc {A} (key : string) (l : list (string * A)) : option A :=
  match l with
  | [] => None
  | (k, v) :: r => if String.eqb k key then Some v else assoc key r
  end.

(** [FUNCTION_SIGNATURES[selector]]. *)
Definition lookupSignature (selector : string) : option Signature :=
  match assoc selector FUNCTION_SIGNATURES with
  | Some s => Some s
  | None =>
      match assoc selector inheritedKeys with
      | Some name => Some (mkSignature name no_type)
      | None => None
      end
  end.

Definition getFunctionSelector (data : string) : string :=
  if (String.length data <? 10)%nat then "" else slice data 0 10.

(** [`0x${params.slice(a, b)}`]. *)
Definition hexSlice (params : string) (a b : nat) : string :=
  ("0x" ++ slice params a b)%string.

Definition digit (i : nat) : string :=
  String (ascii_of_nat (48 + i)) "".

(** The loop of the [default] case, from counter [i], with [fuel]
    bounding the iterations still allowed. *)
Fixpoint genericParams (fuel i : nat) (params : string)
  : list (string * string) :=
  match fuel with
  | O => []
  | S fuel' =>
      if ((i * 64 <? String.length params) && (i <? 10))%nat
      then (("param" ++ digit i)%string, hexSlice params (i * 64) ((i + 1) * 64))
             :: genericParams fuel' (S i) params
      else []
  end.

Definition decodeParameters (selector data : string)
  : list (string * string) :=
  let params := sliceFrom data 10 in
  if String.eqb selector "0x38ed1739" then
    [ ("amountIn", hexSlice params 0 64);
      ("amountOutMin", hexSlice params 64 128);
      ("path_offset", hexSlice params 128 192);
      ("to", hexSlice params (192 + 24) (192 + 64));
      ("deadline", hexSlice params (192 + 64) (192 + 128)) ]
  else if String.eqb selector "0x1f00ca16" then
    [ ("tokenIn", hexSlice params 24 64);
      ("tokenOut", hexSlice params 88 128);
      ("fee", hexSlice params 128 192);
      ("recipient", hexSlice params 216 256);
      ("deadline", hexSlice params 256 320);
      ("amountIn", hexSlice params 320 384);
      ("amountOutMinimum", hexSlice params 384 448) ]
  else if String.eqb selector "0xc04b8d59" then
    [ ("poolId", hexSlice params 0 64);
      ("tokenIn", hexSlice params (64 + 24) (128 + 24));
      ("tokenOut", hexSlice params (128 + 24) (192 + 24));
      ("amount", hexSlice params 192 256) ]
  else if String.eqb selector "0x5b0d5984" then
    [ ("token", hexSlice params 24 64);
      ("amountTokenDesired", hexSlice params 64 128);
      ("amountTokenMin", hexSlice params 128 192);
      ("amountETHMin", hexSlice params 192 256);
      ("to", hexSlice params (256 + 24) (320 + 24));
      ("deadline", hexSlice params 320 384) ]
  else if String.eqb selector "0xab9c4b5d"
          || String.eqb selector "0x23e30c8b" then
    [ ("receiver", hexSlice params 24 64);
      ("token", hexSlice params (64 + 24) (128 + 24));
      ("amount", hexSlice params 128 192) ]
  else if String.eqb selector "0xd14d7cc1" then
    [ ("receiver", hexSlice params 24 64);
      ("tokens_offset", hexSlice params 64 128);
      ("amounts_offset", hexSlice params 128 192) ]
  else genericParams 10 0 params.

Definition unknownCall (to : string) : DecodedCall :=
  {| call_to := to;
     call_function := "unknown";
     call_args := [];
     call_type := unknown |}.

(** [null] is [None]; the [catch] block returns it. *)
Definition decodeCalldata (to data : string) : Exc (option DecodedCall) :=
  catch
    (let selector := getFunctionSelector data in
     match lookupSignature selector with
     | None => Ok (Some (unknownCall to))
     | Some signature =>
         let decodedArgs := decodeParameters selector data in
         Ok (Some {| call_to := to;
                     call_function := sig_name signature;
                     call_args := decodedArgs;
                     call_type := sig_type signature |})
     end)
    (fun _ => Ok None).

(** The test of [handleIncomingTransaction] that drops a transaction. *)
Definition dropped (decoded : option DecodedCall) : bool :=
  match decoded with
  | None => true
  | Some c => match call_type c with unknown => true | _ => false end
  end.

End CalldataDecoder.

(* ================================================================== *)
(** * Stream listener (class [TransactionListener]) *)
(* ================================================================== *)

Module TransactionListener.

Definition maxReconnectAttempts : Z := 5.
Definition reconnectDelay : Z := 1000.

Record State : Type := mkState {
  reconnectAttempts : Z;
  ws : bool
}.

(** A freshly constructed listener. *)
Definition initial : State :=
  {| reconnectAttempts := 0; ws := false |}.

(** What the listener does to the outside.  [Emit] is the only way it
    reaches whoever registered a handler on it. *)
Inductive Action : Type :=
| SetTimeoutStart (delay : Z)
| Emit (event : string) (tx : PendingTx)
| SendSubscription
| CloseSocket
| LogError (message : string)
| LogInfo (message : string).

(** What happens to the listener: [start()] runs (and the socket
    constructor throws or not), or the socket raises one of its
    events, or [stop()] is called.  A message carries the result of
    [parseTx] on it. *)
Inductive Event : Type :=
| Start (constructorThrows : bool)
| WsOpen
| WsMessage (parsed : option PendingTx)
| WsError
| WsClose
| Stop.

Definition msgMaxReached : string := "Max reconnection attempts reached".

Definition attemptReconnect (st : State) : State * list Action :=
  if reconnectAttempts st >=? maxReconnectAttempts then
    (st, [LogError msgMaxReached])
  else
    let attempts := reconnectAttempts st + 1 in
    let delay := reconnectDelay * 2 ^ (attempts - 1) in
    ({| reconnectAttempts := attempts; ws := ws st |},
     [LogInfo "Attempting to reconnect"; SetTimeoutStart delay]).

Definition step (st : State) (ev : Event) : State * list Action :=
  match ev with
  | Start true =>
      let '(st', acts) := attemptReconnect st in
      (st', LogError "Failed to start listener" :: acts)
  | Start false =>
      ({| reconnectAttempts := reconnectAttempts st; ws := true |}, [])
  | WsOpen =>
      ({| reconnectAttempts := 0; ws := ws st |}, [SendSubscription])
  | WsMessage (Some tx) => (st, [Emit "tx" tx])
  | WsMessage None => (st, [])
  | WsError => (st, [LogError "WebSocket error"])
  | WsClose => attemptReconnect st
  | Stop =>
      if ws st
      then ({| reconnectAttempts := reconnectAttempts st; ws := false |},
            [CloseSocket])
      else (st, [])
  end.

Fixpoint run (st : State) (evs : list Event) : State * list Action :=
  match evs with
  | [] => (st, [])
  | ev :: rest =>
      let '(st1, a1) := step st ev in
      let '(st2, a2) := run st1 rest in
      (st2, a1 ++ a2)
  end.

Definition scheduled (a : Action) : list Z :=
  match a with
  | SetTimeoutStart d => [d]
  | _ => []
  end.

(** The delays of the reconnections scheduled in a trace, in order. *)
Definition delays (tr : list Action) : list Z := flat_map scheduled tr.

Definition reachesOrchestrator (a : Action) : bool :=
  match a with
  | Emit _ _ => true
  | _ => false
  end.

(** A failed connection attempt: the socket closes, or its constructor
    throws. *)
Definition isFailure (ev : Event) : bool :=
  match ev with
  | WsClose | Start true => true
  | _ => false
  end.

(** Events of a period in which no connection is established. *)
Definition offline (ev : Event) : bool :=
  match ev with
  | WsOpen | WsMessage _ => false
  | _ => true
  end.

Definition failures (evs : list Event) : nat :=
  List.length (filter isFailure evs).

End TransactionListener.

(* ================================================================== *)
(** * Pool State Store and Detector (class [PoolAnalyzer]) *)
(* ================================================================== *)

Module PoolAnalyzer.

(** An optional bigint under a truthiness test: [undefined] and [0n]
    are falsy. *)
Definition truthyBig (x : option Z) : option Z :=
  match x with
  | Some z => if z =? 0 then None else Some z
  | None => None
  end.

Definition calculateSpotPrice (pool : PoolState) : number :=
  match truthyBig (sqrtPriceX96 pool) with
  | Some s =>
      let sqrtPrice := ofZ s in
      div (mul sqrtPrice sqrtPrice) (ofZ (2 ^ 192))
  | None =>
      if reserve0 pool =? 0 then ofZ 0
      else div (ofZ (reserve1 pool)) (ofZ (reserve0 pool))
  end.

(** [[a.toLowerCase(), b.toLowerCase()].sort().join('-')]. *)
Definition pairKey (pool : PoolState) : string :=
  let a := toLowerCase (token_address (token0 pool)) in
  let b := toLowerCase (token_address (token1 pool)) in
  if String.ltb b a then (b ++ "-" ++ a)%string else (a ++ "-" ++ b)%string.

(** [pairMap] is an insertion-ordered [Map]: a pool joins the list
    under its key, a new key goes last. *)
Fixpoint addToPair (key : string) (pool : PoolState)
  (pairMap : list (string * list PoolState))
  : list (string * list PoolState) :=
  match pairMap with
  | [] => [(key, [pool])]
  | (k, l) :: rest =>
      if String.eqb k key then (k, l ++ [pool]) :: rest
      else (k, l) :: addToPair key pool rest
  end.

Definition groupByPair (pools : list (string * PoolState))
  : list (string * list PoolState) :=
  fold_left (fun pairMap entry => addToPair (pairKey (snd entry)) (snd entry) pairMap)
            pools [].

(** [a.comparedTo(b)]: [-1], [0], [1], or [NaN]. *)
Definition comparedTo (a b : number) : number :=
  match a, b with
  | NaN, _ | _, NaN => NaN
  | _, _ => if lt a b then ofZ (-1) else if lt b a then ofZ 1 else ofZ 0
  end.

Definition Priced : Type := (PoolState * number)%type.

(** The comparator of the sort puts [b] strictly before [a]. *)
Definition after (a b : Priced) : bool :=
  gt (comparedTo (snd a) (snd b)) (ofZ 0).

(** [Array.prototype.sort] is stable; it is modelled by a stable
    insertion sort. *)
Fixpoint insertPriced (x : Priced) (l : list Priced) : list Priced :=
  match l with
  | [] => [x]
  | y :: r => if after x y then y :: insertPriced x r else x :: y :: r
  end.

Fixpoint sortByPrice (l : list Priced) : list Priced :=
  match l with
  | [] => []
  | x :: r => insertPriced x (sortByPrice r)
  end.

(** What [Date.now()] and [Math.random()] contribute to an emitted
    opportunity. *)
Record Stamp : Type := mkStamp {
  stamp_id : string;
  stamp_createdAt : number
}.

Definition slippageBuffer : number := ofZ 100.

(** The body of the loop over [pairMap] for one pair. *)
Definition detectPair (minProfitBPS : number) (stamp : Stamp)
  (poolList : list PoolState) : option ArbitrageOpportunity :=
  if (List.length poolList <? 2)%nat then None
  else
    let priceMap :=
      sortByPrice (map (fun p => (p, calculateSpotPrice p)) poolList) in
    match priceMap with
    | [] => None
    | lowPricePool :: _ =>
        let highPricePool := last priceMap lowPricePool in
        let priceDiff := sub (snd highPricePool) (snd lowPricePool) in
        let profitBPS :=
          mul (div priceDiff (snd lowPricePool)) (ofZ 10000) in
        if gt profitBPS (add minProfitBPS slippageBuffer) then
          Some {| opp_id := stamp_id stamp;
                  opp_type := CrossDexArbitrage;
                  createdAt := stamp_createdAt stamp;
                  triggeringTx := None;
                  pools := [fst lowPricePool; fst highPricePool];
                  expectedProfitBPS := sub profitBPS slippageBuffer;
                  expectedProfitUSD := ofZ 0;
                  profitMargin :=
                    sub (div profitBPS (ofZ 10000)) (Fin (1 # 100));
                  gasEstimate := 150000;
                  flashloanRequired := false;
                  flashloanAmount := 0;
                  path := [token_address (token0 (fst lowPricePool));
                           token_address (token1 (fst lowPricePool))];
                  simulation := None;
                  confidence := Fin (7 # 10) |}
        else None
    end.

(** [stampOf n] stamps the opportunity emitted when [n] have been
    emitted before it. *)
Definition detectCrossArbitrage (stampOf : nat -> Stamp)
  (pools : list (string * PoolState)) (minProfitBPS : number)
  : list ArbitrageOpportunity :=
  fold_left
    (fun opportunities entry =>
       match detectPair minProfitBPS
               (stampOf (List.length opportunities)) (snd entry) with
       | Some opportunity => opportunities ++ [opportunity]
       | None => opportunities
       end)
    (groupByPair pools) [].

Definition estimateSwapSlippage (pool : PoolState) (tokenInAmount : Z)
  : number :=
  match truthyBig (sqrtPriceX96 pool) with
  | Some _ =>
      let liq := match truthyBig (liquidity pool) with
                 | Some l => l
                 | None => 1
                 end in
      let impact := div (ofZ tokenInAmount) (mul (ofZ liq) (ofZ 2)) in
      mul impact (ofZ 10000)
  | None =>
      let r0 := ofZ (reserve0 pool) in
      let amountIn := ofZ tokenInAmount in
      let k := mul r0 (ofZ (reserve1 pool)) in
      let newReserve0 := add r0 amountIn in
      let newReserve1 := div k newReserve0 in
      let amountOut := sub (ofZ (reserve1 pool)) newReserve1 in
      let spotPrice := div (ofZ (reserve1 pool)) r0 in
      let effectivePrice := div amountOut amountIn in
      mul (div (sub spotPrice effectivePrice) spotPrice) (ofZ 10000)
  end.

(** The pool takes the reserves branch of the price and slippage
    computations. *)
Definition constantProduct (pool : PoolState) : Prop :=
  truthyBig (sqrtPriceX96 pool) = None.

End PoolAnalyzer.

(* ================================================================== *)
(** * Executor (class [ArbitrageExecutor]) *)
(* ================================================================== *)

Module ArbitrageExecutor.

Inductive FlashloanProvider : Type :=
| aave | balancer | custom.

Record FlashloanConfig : Type := mkFlashloanConfig {
  fl_provider : FlashloanProvider;
  fl_address : string;
  maxFeePercent : number
}.

(** The executor after construction; [wallet] tells whether a wallet
    was created. *)
Record Executor : Type := mkExecutor {
  wallet : bool;
  flashloanConfig : FlashloanConfig;
  dryRunMode : bool
}.

(** [wallet] is created only with a private key and outside dry-run
    mode (the key is taken to be one the wallet accepts). *)
Definition construct (cfg : FlashloanConfig) (dryRun : bool)
  (privateKey : option string) : Executor :=
  {| wallet := truthy privateKey && negb dryRun;
     flashloanConfig := cfg;
     dryRunMode := dryRun |}.

Record TransactionRequest : Type := mkTransactionRequest {
  req_to : string;
  req_value : string;
  req_gasLimit : Z;
  req_data : string;
  req_chainId : Z
}.

(** Arguments handed to the ABI encoder. *)
Inductive AbiValue : Type :=
| VAddress (a : string)
| VUint (n : Z)
| VBytes (b : string)
| VAddresses (l : list string)
| VUints (l : list Z).

(** What the outside contributes to one call of [execute]. *)
(** [randomDigits] is [Math.random().toString(16).slice(2)]. *)
Record World : Type := mkWorld {
  now : number;
  randomDigits : string;
  sendTransaction : TransactionRequest -> Exc string
}.

Fixpoint zeros (n : nat) : string :=
  match n with
  | O => ""
  | S k => String "0"%char (zeros k)
  end.

(** [s.padEnd(width, '0')]. *)
Definition padEnd (s : string) (width : nat) : string :=
  (s ++ zeros (width - String.length s))%string.

Definition zeroAddress : string :=
  "0x0000000000000000000000000000000000000000".

Definition msgNoWallet : string := "Wallet not configured for execution".
Definition msgNotProfitable : string := "Opportunity no longer profitable".

Section WithEncoder.

Variable env : Env.

(** [new ethers.Interface(abi).encodeFunctionData(name, args)] and
    [ethers.solidityPacked(['string'], [s])]; either may throw. *)
Variable encodeFunctionData : string -> list AbiValue -> Exc string.
Variable solidityPacked : string -> Exc string.

Definition executorAddress : string :=
  orElse (EXECUTOR_ADDRESS env) zeroAddress.

Definition encodeSwapCalldata (poolAddress tokenIn tokenOut : string)
  (amountIn : Z) : Exc string :=
  encodeFunctionData "swap"
    [VAddress tokenIn; VAddress tokenOut; VUint amountIn; VUint 0;
     VAddress executorAddress].

Definition encodeAaveFlashloan (token : string) (amount : Z)
  (opportunityId : string) : Exc string :=
  (callbackData <- solidityPacked opportunityId ;;
   encodeFunctionData "flashLoanSimple"
     [VAddress executorAddress; VAddress token; VUint amount;
      VBytes callbackData])%exc.

Definition encodeBalancerFlashloan (tokens : list string)
  (amounts : list Z) (opportunityId : string) : Exc string :=
  (callbackData <- solidityPacked opportunityId ;;
   encodeFunctionData "flashLoan"
     [VAddress executorAddress; VAddresses tokens; VUints amounts;
      VBytes callbackData])%exc.

Definition encodeCustomFlashloan (token : string) (amount : Z)
  (opportunityId : string) : Exc string :=
  (callbackData <- solidityPacked opportunityId ;;
   encodeFunctionData "flashLoan"
     [VAddress executorAddress; VAddress token; VUint amount;
      VBytes callbackData])%exc.

(** The destructuring [[cheapPool, expensivePool] = pools] leaves a
    missing pool [undefined], and the log call then reads a property
    of both. *)
Definition buildCrossArbitrageTransaction
  (opportunity : ArbitrageOpportunity) : Exc TransactionRequest :=
  match pools opportunity with
  | cheapPool :: expensivePool :: _ =>
      (swapData <- encodeSwapCalldata (pool_address cheapPool)
                     (token_address (token0 cheapPool))
                     (token_address (token1 cheapPool))
                     (reserve0 cheapPool) ;;
       Ok {| req_to := pool_address cheapPool;
             req_value := "0";
             req_gasLimit := gasEstimate opportunity;
             req_data := swapData;
             req_chainId := 137 |})%exc
  | _ => Throw (ErrorObj "Cannot read properties of undefined")
  end.

Definition buildFlashloanTransaction (ex : Executor)
  (opportunity : ArbitrageOpportunity) : Exc TransactionRequest :=
  (p <- first (pools opportunity) ;;
   let token := token_address (token0 p) in
   let amount := flashloanAmount opportunity in
   calldataPath <-
     match fl_provider (flashloanConfig ex) with
     | aave => encodeAaveFlashloan token amount (opp_id opportunity)
     | balancer =>
         encodeBalancerFlashloan [token] [amount] (opp_id opportunity)
     | custom => encodeCustomFlashloan token amount (opp_id opportunity)
     end ;;
   Ok {| req_to := fl_address (flashloanConfig ex);
         req_value := "0";
         req_gasLimit := gasEstimate opportunity;
         req_data := calldataPath;
         req_chainId := 137 |})%exc.

Definition buildTWAPArbitrageTransaction (ex : Executor)
  (opportunity : ArbitrageOpportunity) : Exc TransactionRequest :=
  if negb (flashloanRequired opportunity)
  then Throw (ErrorObj "TWAP arbitrage requires flashloan")
  else buildFlashloanTransaction ex opportunity.

Definition buildTriangleCycleTransaction
  (opportunity : ArbitrageOpportunity) : Exc TransactionRequest :=
  let gasEstimate := Z.of_nat (List.length (path opportunity)) * 150000 in
  (p <- first (pools opportunity) ;;
   Ok {| req_to := pool_address p;
         req_value := "0";
         req_gasLimit := gasEstimate;
         req_data := "0x";
         req_chainId := 137 |})%exc.

Definition buildJitLiquidityTransaction
  (opportunity : ArbitrageOpportunity) : Exc TransactionRequest :=
  (p <- first (pools opportunity) ;;
   Ok {| req_to := pool_address p;
         req_value := "0";
         req_gasLimit := 300000;
         req_data := "0x";
         req_chainId := 137 |})%exc.

Definition buildTransaction (ex : Executor)
  (opportunity : ArbitrageOpportunity) : Exc TransactionRequest :=
  match opp_type opportunity with
  | CrossDexArbitrage => buildCrossArbitrageTransaction opportunity
  | TWAPArbitrage => buildTWAPArbitrageTransaction ex opportunity
  | TriangleCycle => buildTriangleCycleTransaction opportunity
  | JitLiquidity => buildJitLiquidityTransaction opportunity
  | StatisticalArbitrage =>
      Throw (ErrorObj "Unsupported opportunity type: statistical_arbitrage")
  end.

Definition addSafetyParameters (tx : TransactionRequest)
  (opportunity : ArbitrageOpportunity) : TransactionRequest :=
  {| req_to := req_to tx;
     req_value := req_value tx;
     req_gasLimit := Z.quot (req_gasLimit tx * 120) 100;
     req_data := req_data tx;
     req_chainId := req_chainId tx |}.

Definition simulateExecute (w : World)
  (opportunity : ArbitrageOpportunity) : ExecutionResult :=
  {| bundleHash := ("0x" ++ padEnd (randomDigits w) 64)%string;
     submittedAt := now w;
     includedInBlock := None;
     profitRealized := None;
     txHash := None;
     status := Submitted;
     error := None |}.

Definition failed (w : World) (e : thrown) : ExecutionResult :=
  {| bundleHash := "";
     submittedAt := now w;
     includedInBlock := None;
     profitRealized := None;
     txHash := None;
     status := Failed;
     error := Some (messageOr e "Unknown error") |}.

(** The [try] block of [execute]: validation, building, the safety
    margin, signing and sending. *)
Definition executeBody (ex : Executor) (w : World)
  (opportunity : ArbitrageOpportunity) : Exc ExecutionResult :=
  (_ <- match simulation opportunity with
        | None => Throw (ErrorObj msgNotProfitable)
        | Some sim =>
            if lt (netProfitBPS sim) (ofZ 50)
            then Throw (ErrorObj msgNotProfitable)
            else Ok tt
        end ;;
   tx <- buildTransaction ex opportunity ;;
   let safetyTx := addSafetyParameters tx opportunity in
   hash <- sendTransaction w safetyTx ;;
   Ok {| bundleHash := hash;
         submittedAt := now w;
         includedInBlock := None;
         profitRealized := None;
         txHash := None;
         status := Submitted;
         error := None |})%exc.

Definition execute (ex : Executor) (w : World)
  (opportunity : ArbitrageOpportunity) : Exc ExecutionResult :=
  if dryRunMode ex then Ok (simulateExecute w opportunity)
  else if negb (wallet ex) then Throw (ErrorObj msgNoWallet)
  else catch (executeBody ex w opportunity)
             (fun e => Ok (failed w e)).

End WithEncoder.

End ArbitrageExecutor.

(* ================================================================== *)
(** * Vocabulary of the properties, and sample data *)
(* ================================================================== *)

Module Samples.

Definition token (addr : string) : Token :=
  {| token_address := addr;
     token_symbol := "TKN";
     token_decimals := ofZ 18;
     token_priceUSD := None |}.

(** A constant-product pool of the pair (0xaa, 0xbb). *)
Definition pool (addr : string) (r0 r1 : Z) : PoolState :=
  {| dexType := QuickSwap;
     pool_address := addr;
     token0 := token "0xaa";
     token1 := token "0xbb";
     reserve0 := r0;
     reserve1 := r1;
     fee := Some (ofZ 3000);
     liquidity := None;
     sqrtPriceX96 := None;
     currentTick := None;
     twapPrice := None;
     pool_timestamp := ofZ 0 |}.

Definition venueA : PoolState := pool "0xa1" 1000 2000.
Definition venueB : PoolState := pool "0xb2" 1000 1600.

Definition executorAddr : string :=
  "0x1111111111111111111111111111111111111111".
Definition userAddr : string :=
  "0x2222222222222222222222222222222222222222".

(** A pending swap sent by [sender]. *)
Definition tx (sender : string) : PendingTx :=
  {| tx_hash := "0x01";
     tx_from := sender;
     tx_to := Some "0x3333333333333333333333333333333333333333";
     tx_value := "0";
     tx_data := "0x38ed1739";
     tx_gasPrice := "30000000000";
     tx_gasLimit := "250000";
     tx_nonce := ofZ 7;
     tx_timestamp := ofZ 0;
     tx_source := SrcBloxroute |}.

(** A successful simulation with the given net profit in BPS. *)
Definition goodSimulation (bps : Z) : SimulationResult :=
  {| success := true;
     outputAmount := 1100;
     actualProfit := 100;
     actualProfitBPS := ofZ bps;
     gasCost := 0;
     flashloanFee := 0;
     netProfit := 100;
     netProfitBPS := ofZ bps;
     deviations := [];
     revertReason := None |}.

Definition opportunity (ty : OpportunityType) (trigger : option PendingTx)
  (ps : list PoolState) (sim : option SimulationResult)
  : ArbitrageOpportunity :=
  {| opp_id := "arb-1";
     opp_type := ty;
     createdAt := ofZ 0;
     triggeringTx := trigger;
     pools := ps;
     expectedProfitUSD := ofZ 0;
     expectedProfitBPS := ofZ 100;
     profitMargin := Fin (1 # 100);
     gasEstimate := 150000;
     flashloanRequired := false;
     flashloanAmount := 0;
     path := [];
     simulation := sim;
     confidence := Fin (7 # 10) |}.

(** A cross-venue opportunity from the cheaper venue to the dearer one. *)
Definition crossDex (trigger : option PendingTx)
  (sim : option SimulationResult) : ArbitrageOpportunity :=
  opportunity CrossDexArbitrage trigger [venueB; venueA] sim.

Definition privateKey : string :=
  "0x0123456789abcdef0123456789abcdef0123456789abcdef0123456789abcdef".

Definition env (threshold executor : option string) : Env :=
  {| MIN_PROFIT_BPS := None;
     EXECUTOR_ADDRESS := executor;
     REVERT_ON_DEVIATION_SLIPPAGE_BPS := threshold |}.

Definition flashloan : ArbitrageExecutor.FlashloanConfig :=
  {| ArbitrageExecutor.fl_provider := ArbitrageExecutor.aave;
     ArbitrageExecutor.fl_address :=
       "0x794a61358D6845594F94dc1DB02A252b5b4814aD";
     ArbitrageExecutor.maxFeePercent := Fin (1 # 20) |}.

Definition checkerWorld : SafetyChecker.World :=
  {| SafetyChecker.now := ofZ 0; SafetyChecker.appendSucceeds := true |}.

Definition checkerState : SafetyChecker.State :=
  {| SafetyChecker.auditLogs := []; SafetyChecker.auditFile := [] |}.

End Samples.

Module SafetyVocabulary.
Import SafetyChecker.

(** The same environment with another deviation-guard setting. *)
Definition withThreshold (env : Env) (v : option string) : Env :=
  {| MIN_PROFIT_BPS := MIN_PROFIT_BPS env;
     EXECUTOR_ADDRESS := EXECUTOR_ADDRESS env;
     REVERT_ON_DEVIATION_SLIPPAGE_BPS := v |}.

(** The configured deviation-guard threshold exceeds 500 BPS. *)
Definition thresholdTooHigh (env : Env) : Prop :=
  exists v, REVERT_ON_DEVIATION_SLIPPAGE_BPS env = Some v
            /\ gt (parseInt v) (ofZ 500) = true.

(** The same opportunity without its triggering transaction. *)
Definition withoutTrigger (o : ArbitrageOpportunity) : ArbitrageOpportunity :=
  {| opp_id := opp_id o;
     opp_type := opp_type o;
     createdAt := createdAt o;
     triggeringTx := None;
     pools := pools o;
     expectedProfitUSD := expectedProfitUSD o;
     expectedProfitBPS := expectedProfitBPS o;
     profitMargin := profitMargin o;
     gasEstimate := gasEstimate o;
     flashloanRequired := flashloanRequired o;
     flashloanAmount := flashloanAmount o;
     path := path o;
     simulation := simulation o;
     confidence := confidence o |}.

(** The sender of [tx] is not the configured executor address. *)
Definition thirdParty (env : Env) (tx : PendingTx) : Prop :=
  toLowerCase (tx_from tx)
  <> toLowerCase (orElse (EXECUTOR_ADDRESS env) "").

End SafetyVocabulary.

Module SimulationVocabulary.
Import SimulationEngine.

(** A negative result: not successful, a revert reason present, every
    profit and gas field zero. *)
Definition negative (r : SimulationResult) : Prop :=
  success r = false
  /\ (exists reason, revertReason r = Some reason)
  /\ outputAmount r = 0
  /\ actualProfit r = 0
  /\ gasCost r = 0
  /\ flashloanFee r = 0
  /\ netProfit r = 0
  /\ actualProfitBPS r = ofZ 0
  /\ netProfitBPS r = ofZ 0.



End SimulationVocabulary.

Module ListenerVocabulary.
Import TransactionListener.

(** The reconnection delays, in the order they are used. *)
Definition schedule : list Z := [1000; 2000; 4000; 8000; 16000].

(** Six consecutive failures as the listener sees them: the stream
    closes, and each time the timer fires [start()] the new socket
    reports an error and closes again. *)
Definition repeatedDisconnects : list Event :=
  [ WsClose;
    Start false; WsError; WsClose;
    Start false; WsError; WsClose;
    Start false; WsError; WsClose;
    Start false; WsError; WsClose;
    Start false; WsError; WsClose ].

End ListenerVocabulary.

Module PoolVocabulary.
Import PoolAnalyzer.


(** A priced pool whose price is an ordinary number. *)
Definition finite (x : Priced) : Prop := exists q, snd x = Fin q.

(** [x] need not come after [y] in the sorted array. *)
Definition notAfter (x y : Priced) : Prop := le (snd x) (snd y) = true.

(** The raw divergence the specification calls [D]:
    [(maxPrice - minPrice) / minPrice] in BPS, for the pools [lo] and
    [hi] holding the two prices. *)
Definition divergenceBPS (lo hi : PoolState) : number :=
  mul (div (sub (calculateSpotPrice hi) (calculateSpotPrice lo))
           (calculateSpotPrice lo))
      (ofZ 10000).

(** Reserves as read from the chain are unsigned. *)
Definition unsignedReserves (p : PoolState) : Prop :=
  0 <= reserve0 p /\ 0 <= reserve1 p.

(** Scenario 1: two venues of one pair, at prices 2.0 and 1.6. *)
Definition twoVenues : list (string * PoolState) :=
  [("0xa1", Samples.venueA); ("0xb2", Samples.venueB)].

End PoolVocabulary.

(* ================================================================== *)
(** * Further JavaScript built-ins *)
(* ================================================================== *)

Module JsMore.


Fixpoint revOnto (s acc : string) : string :=
  match s with
  | EmptyString => acc
  | String c r => revOnto r (String c acc)
  end.

Definition trim (s : string) : string :=
  let front := trimStart s in
  revOnto (trimStart (revOnto front "")) "".

(** Every character is a digit of the radix; [acc] is the value read so
    far. *)
Fixpoint allDigits (radix : Z) (s : string) (acc : Z) : option Z :=
  match s with
  | EmptyString => Some acc
  | String c r =>
      match digitValue radix c with
      | Some d => allDigits radix r (acc * radix + d)
      | None => None
      end
  end.

Definition digitsOnly (radix : Z) (s : string) : option Z :=
  match s with
  | EmptyString => None
  | _ => allDigits radix s 0
  end.

Definition syntaxError : thrown := ErrorObj "Cannot convert to a BigInt".

(** [BigInt(s)] on a string: blanks at both ends are dropped, the empty
    string is [0n], a sign is allowed on decimal digits only, and the
    prefixes [0x], [0o] and [0b] select the radix; anything else is a
    [SyntaxError]. *)
Definition BigInt (s : string) : Exc Z :=
  let t := trim s in
  let parsed :=
    match t with
    | EmptyString => Some 0
    | String "0"%char (String x r) =>
        if (Ascii.eqb x "x" || Ascii.eqb x "X")%char then digitsOnly 16 r
        else if (Ascii.eqb x "o" || Ascii.eqb x "O")%char then digitsOnly 8 r
        else if (Ascii.eqb x "b" || Ascii.eqb x "B")%char then digitsOnly 2 r
        else digitsOnly 10 t
    | String "-"%char r => option_map Z.opp (digitsOnly 10 r)
    | String "+"%char r => digitsOnly 10 r
    | _ => digitsOnly 10 t
    end in
  match parsed with
  | Some z => Ok z
  | None => Throw syntaxError
  end.

(** [BigInt(n)] on a number: a [RangeError] unless [n] is an integer. *)
Definition bigIntOfNumber (n : number) : Exc Z :=
  match n with
  | Fin q =>
      if (Zpos (Qden (Qred q)) =? 1)
      then Ok (Qnum (Qred q))
      else Throw (ErrorObj "The number is not an integer")
  | _ => Throw (ErrorObj "The number is not an integer")
  end.

End JsMore.

(* ================================================================== *)
(** * Safety Validator: the audit trail *)
(* ================================================================== *)

Module AuditTrail.
Import SafetyChecker.

Definition getAuditTrail (st : State) (opportunityId : string)
  : list AuditLog :=
  filter (fun log => match log_opportunityId log with
                     | Some i => String.eqb i opportunityId
                     | None => false
                     end)
         (auditLogs st).

End AuditTrail.

(* ================================================================== *)
(** * Calldata decoder: the helpers that read a decoded call *)
(* ================================================================== *)

Module DecodedCalls.
Import CalldataDecoder.

(** [decoded.args.k] as a string; the values [decodeParameters] stores
    are strings, and an argument list has distinct keys. *)
Definition arg (decoded : DecodedCall) (k : string) : option string :=
  assoc k (call_args decoded).

Definition isSwap (decoded : DecodedCall) : bool :=
  match call_type decoded with
  | swap => true
  | _ => false
  end.

(** [x[0]] and [x[x.length - 1]] on a string, as one-character
    strings. *)
Definition firstChar (s : string) : string :=
  match s with
  | String c _ => String c ""
  | EmptyString => ""
  end.

Fixpoint lastChar (s : string) : string :=
  match s with
  | EmptyString => ""
  | String c EmptyString => String c ""
  | String _ r => lastChar r
  end.

Definition extractTokenPair (decoded : DecodedCall)
  : option (string * string) :=
  if isSwap decoded then
    let tokenIn0 := orElse (arg decoded "tokenIn") "" in
    let tokenOut := orElse (arg decoded "tokenOut") "" in
    let tokenIn1 := orElse (arg decoded "token") tokenIn0 in
    let '(tokenIn, tokenOut) :=
      match tokenOut, arg decoded "path" with
      | EmptyString, Some (String c r) =>
          let path := String c r in
          if (2 <=? String.length path)%nat
          then (firstChar path, lastChar path)
          else (tokenIn1, tokenOut)
      | _, _ => (tokenIn1, tokenOut)
      end in
    match tokenIn, tokenOut with
    | String _ _, String _ _ =>
        Some (toLowerCase tokenIn, toLowerCase tokenOut)
    | _, _ => None
    end
  else None.

Definition extractSwapAmount (decoded : DecodedCall)
  : option (string * string) :=
  if negb (isSwap decoded) then None
  else
    let amountIn0 := orElse (arg decoded "amountIn") "" in
    let amountIn := orElse (arg decoded "amount") amountIn0 in
    let min0 := orElse (arg decoded "amountOutMinimum") "" in
    let minAmountOut := orElse (arg decoded "amountOutMin") min0 in
    match amountIn with
    | String _ _ => Some (amountIn, orElse (Some minAmountOut) "0")
    | EmptyString => None
    end.



Definition flagPotentialMEV (decoded : DecodedCall) (calldataSize : number)
  : bool :=
  if isSwap decoded
     && match arg decoded "amountOutMin" with
        | Some v => String.eqb v "0" || String.eqb v "0x0"
        | None => false
        end
  then true
  else if gt calldataSize (ofZ 10000) then true
  else false.

End DecodedCalls.

Module FilterVocabulary.

(** The elements a throwing-or-boolean callback keeps. *)
Definition keptBy {A} (f : A -> Exc bool) (x : A) : bool :=
  match f x with
  | Ok true => true
  | _ => false
  end.

End FilterVocabulary.

(* ================================================================== *)
(** * Pool State Store: the cache, the fetchers, TWAP detection *)
(* ================================================================== *)

Module PoolStore.
Import PoolAnalyzer JsMore.

(** [poolCache] is an insertion-ordered [Map] from address to pool. *)
Definition Cache : Type := list (string * PoolState).

(** [poolCache.set(address, pool)]: an existing key keeps its place. *)
Fixpoint cacheSet (address : string) (pool : PoolState) (cache : Cache)
  : Cache :=
  match cache with
  | [] => [(address, pool)]
  | (k, p) :: rest =>
      if String.eqb k address then (k, pool) :: rest
      else (k, p) :: cacheSet address pool rest
  end.

Fixpoint getCachedPool (cache : Cache) (address : string)
  : option PoolState :=
  match cache with
  | [] => None
  | (k, p) :: rest =>
      if String.eqb k address then Some p else getCachedPool rest address
  end.

(** [now - pool.timestamp > maxAgeMs], on timestamps that are numbers,
    as [PoolState] declares them and as the concentrated-liquidity
    fetchers write them. *)
Definition expired (now maxAgeMs : number) (pool : PoolState) : bool :=
  gt (sub now (pool_timestamp pool)) maxAgeMs.

Definition clearOldCache (now maxAgeMs : number) (cache : Cache) : Cache :=
  filter (fun entry => negb (expired now maxAgeMs (snd entry))) cache.






(** [twapPrices.get(key)] on a [Map] from pair key to reference price. *)
Fixpoint twapGet (twapPrices : list (string * number)) (key : string)
  : option number :=
  match twapPrices with
  | [] => None
  | (k, v) :: rest =>
      if String.eqb k key then Some v else twapGet rest key
  end.

(** [`${pool.token0.address}-${pool.token1.address}`]. *)
Definition twapKey (pool : PoolState) : string :=
  (token_address (token0 pool) ++ "-" ++ token_address (token1 pool))%string.

Definition twapBuffer : number := ofZ 50.

(** The body of the loop of [detectTWAPArbitrage] for one pool.  A
    reference price that is present is an object, hence truthy whatever
    its value. *)
Definition detectTwap (minProfitBPS : number) (stamp : Stamp)
  (twapPrices : list (string * number)) (pool : PoolState)
  : option ArbitrageOpportunity :=
  let spotPrice := calculateSpotPrice pool in
  match twapGet twapPrices (twapKey pool) with
  | None => None
  | Some twap =>
      let priceDiff := abs (sub spotPrice twap) in
      let profitBPS := mul (div priceDiff twap) (ofZ 10000) in
      if gt profitBPS (add minProfitBPS twapBuffer) then
        Some {| opp_id := stamp_id stamp;
                opp_type := TWAPArbitrage;
                createdAt := stamp_createdAt stamp;
                triggeringTx := None;
                pools := [pool];
                expectedProfitBPS := sub profitBPS twapBuffer;
                expectedProfitUSD := ofZ 0;
                profitMargin :=
                  sub (div profitBPS (ofZ 10000)) (Fin (5 # 1000));
                gasEstimate := 200000;
                flashloanRequired := true;
                flashloanAmount := 0;
                path := [token_address (token0 pool);
                         token_address (token1 pool)];
                simulation := None;
                confidence := Fin (6 # 10) |}
      else None
  end.

Definition detectTWAPArbitrage (stampOf : nat -> Stamp)
  (spotPools : list PoolState) (twapPrices : list (string * number))
  (minProfitBPS : number) : list ArbitrageOpportunity :=
  fold_left
    (fun opportunities pool =>
       match detectTwap minProfitBPS (stampOf (List.length opportunities))
               twapPrices pool with
       | Some opportunity => opportunities ++ [opportunity]
       | None => opportunities
       end)
    spotPools [].

(** The step of the loop of [detectCrossArbitrage] over the pairs. *)
Definition crossStep (stampOf : nat -> Stamp) (minProfitBPS : number)
  (opportunities : list ArbitrageOpportunity)
  (entry : string * list PoolState) : list ArbitrageOpportunity :=
  match detectPair minProfitBPS (stampOf (List.length opportunities))
          (snd entry) with
  | Some opportunity => opportunities ++ [opportunity]
  | None => opportunities
  end.




(** What the detectors promise about an opportunity they emit. *)
Definition emittedAbove (minProfitBPS : number) (o : ArbitrageOpportunity)
  : Prop :=
  gt (expectedProfitBPS o) minProfitBPS = true
  /\ simulation o = None
  /\ triggeringTx o = None.

End PoolStore.

(* ================================================================== *)
(** * Simulation Engine: [testRevertOnDeviation] *)
(* ================================================================== *)

Module DeviationTest.
Import JsMore.

(** The loop over the deviations: [false] at the first one above the
    threshold; [BigInt] of a number that is not an integer throws. *)
Fixpoint withinThreshold (deviationThreshold : Z)
  (ds : list StateDeviation) : Exc bool :=
  match ds with
  | [] => Ok true
  | deviation :: rest =>
      (bps <- bigIntOfNumber (deviationBPS deviation) ;;
       if bps >? deviationThreshold then Ok false
       else withinThreshold deviationThreshold rest)%exc
  end.

(** [maxSlippageBps] is [process.env.MAX_SLIPPAGE_BPS]. *)
Definition testBody (env : Env) (maxSlippageBps : option string)
  (opportunity : ArbitrageOpportunity) : Exc bool :=
  (deviationThreshold <-
     BigInt (orElse (REVERT_ON_DEVIATION_SLIPPAGE_BPS env) "50") ;;
   maxSlippage <- BigInt (orElse maxSlippageBps "100") ;;
   match simulation opportunity with
   | None => Ok false
   | Some sim => withinThreshold deviationThreshold (deviations sim)
   end)%exc.

(** The [catch] block returns [false]. *)
Definition testRevertOnDeviation (env : Env) (maxSlippageBps : option string)
  (opportunity : ArbitrageOpportunity) : bool :=
  match testBody env maxSlippageBps opportunity with
  | Ok b => b
  | Throw _ => false
  end.

(** A deviation the test lets through: a whole number of BPS that is
    not above the threshold. *)
Definition tolerated (threshold : Z) (d : StateDeviation) : Prop :=
  exists bps, bigIntOfNumber (deviationBPS d) = Ok bps /\ bps <= threshold.

End DeviationTest.

(* ================================================================== *)
(** * The two entry points ([index.ts]) *)
(* ================================================================== *)

Module Orchestrator.

Record MonitorStats : Type := mkMonitorStats {
  txsProcessed : Z;
  opportunitiesFound : Z;
  opportunitiesSimulated : Z;
  opportunitiesExecuted : Z;
  totalProfit : Z
}.

(** The part of [process.env] only the entry points read. *)
Record Settings : Type := mkSettings {
  ENABLE_EXECUTION : option string;
  EXECUTOR_PRIVATE_KEY : option string
}.

(** [process.env.ENABLE_EXECUTION === 'true']. *)
Definition executionEnabled (s : Settings) : bool :=
  match ENABLE_EXECUTION s with
  | Some v => String.eqb v "true"
  | None => false
  end.

(** The executor [initialize] constructs: dry-run unless execution is
    enabled. *)
Definition executorOf (cfg : ArbitrageExecutor.FlashloanConfig)
  (s : Settings) : ArbitrageExecutor.Executor :=
  ArbitrageExecutor.construct cfg (negb (executionEnabled s))
    (EXECUTOR_PRIVATE_KEY s).

Definition countTx (stats : MonitorStats) : MonitorStats :=
  {| txsProcessed := txsProcessed stats + 1;
     opportunitiesFound := opportunitiesFound stats;
     opportunitiesSimulated := opportunitiesSimulated stats;
     opportunitiesExecuted := opportunitiesExecuted stats;
     totalProfit := totalProfit stats |}.

Definition addFound (n : Z) (stats : MonitorStats) : MonitorStats :=
  {| txsProcessed := txsProcessed stats;
     opportunitiesFound := opportunitiesFound stats + n;
     opportunitiesSimulated := opportunitiesSimulated stats;
     opportunitiesExecuted := opportunitiesExecuted stats;
     totalProfit := totalProfit stats |}.

Definition countSimulated (stats : MonitorStats) : MonitorStats :=
  {| txsProcessed := txsProcessed stats;
     opportunitiesFound := opportunitiesFound stats;
     opportunitiesSimulated := opportunitiesSimulated stats + 1;
     opportunitiesExecuted := opportunitiesExecuted stats;
     totalProfit := totalProfit stats |}.

Definition countExecuted (stats : MonitorStats) : MonitorStats :=
  {| txsProcessed := txsProcessed stats;
     opportunitiesFound := opportunitiesFound stats;
     opportunitiesSimulated := opportunitiesSimulated stats;
     opportunitiesExecuted := opportunitiesExecuted stats + 1;
     totalProfit := totalProfit stats |}.

Definition addProfit (z : Z) (stats : MonitorStats) : MonitorStats :=
  {| txsProcessed := txsProcessed stats;
     opportunitiesFound := opportunitiesFound stats;
     opportunitiesSimulated := opportunitiesSimulated stats;
     opportunitiesExecuted := opportunitiesExecuted stats;
     totalProfit := totalProfit stats + z |}.

(** [opportunity.simulation = simulation]. *)
Definition withSimulation (o : ArbitrageOpportunity)
  (sim : SimulationResult) : ArbitrageOpportunity :=
  {| opp_id := opp_id o;
     opp_type := opp_type o;
     createdAt := createdAt o;
     triggeringTx := triggeringTx o;
     pools := pools o;
     expectedProfitUSD := expectedProfitUSD o;
     expectedProfitBPS := expectedProfitBPS o;
     profitMargin := profitMargin o;
     gasEstimate := gasEstimate o;
     flashloanRequired := flashloanRequired o;
     flashloanAmount := flashloanAmount o;
     path := path o;
     simulation := Some sim;
     confidence := confidence o |}.

(** ** [PolygonArbitrageMonitor.processOpportunity] *)

(** Where one run of [processOpportunity] ends. *)
Inductive Outcome : Type :=
| SimulationFailed
| SafetyFailed
| NotProfitableEnough
| DryRun
| Executed (result : ExecutionResult)
| Errored (e : thrown).

Section Monitor.

Variable env : Env.
Variable settings : Settings.
Variable BigInt : string -> Exc Z.
Variable encodeFunctionData :
  string -> list ArbitrageExecutor.AbiValue -> Exc string.
Variable solidityPacked : string -> Exc string.
Variable cfg : ArbitrageExecutor.FlashloanConfig.
Variable engine : SimulationEngine.Engine.

(** The monitor after [initialize]: every component is present.  The
    state is the statistics and the state of the safety checker. *)
Definition monitorProcessOpportunity
  (simWorld : SimulationEngine.World) (checkerWorld : SafetyChecker.World)
  (execWorld : ArbitrageExecutor.World)
  (stats : MonitorStats) (checker : SafetyChecker.State)
  (opportunity : ArbitrageOpportunity)
  : MonitorStats * SafetyChecker.State * Outcome :=
  match SimulationEngine.simulate BigInt engine simWorld opportunity with
  | Throw e => (stats, checker, Errored e)
  | Ok simulation =>
      (* 1. simulate *)
      let opportunity := withSimulation opportunity simulation in
      let stats := countSimulated stats in
      if negb (success simulation) then (stats, checker, SimulationFailed)
      else
        (* 2. safety check *)
        let '(safetyResult, checker) :=
          SafetyChecker.checkOpportunitySafety env checkerWorld checker
            opportunity in
        if negb (SafetyChecker.passed safetyResult)
        then (stats, checker, SafetyFailed)
        else
          (* 3. filter by profitability *)
          let minProfitBPS := parseInt (orElse (MIN_PROFIT_BPS env) "80") in
          if lt (netProfitBPS simulation) minProfitBPS
          then (stats, checker, NotProfitableEnough)
          else
            (* 4. execute if enabled *)
            if executionEnabled settings then
              match ArbitrageExecutor.execute env encodeFunctionData
                      solidityPacked (executorOf cfg settings) execWorld
                      opportunity with
              | Throw e => (stats, checker, Errored e)
              | Ok result =>
                  (addProfit (netProfit simulation) (countExecuted stats),
                   checker, Executed result)
              end
            else (stats, checker, DryRun)
  end.

(** ** [PolygonCopyTradingBot] *)

Definition minSwapSize : Z := 10 ^ 18.

(** The opportunity and the [catch] that returns what was collected,
    which is nothing when [BigInt] throws. *)
Definition detectOpportunities (stamp : PoolAnalyzer.Stamp) (tx : PendingTx)
  (decoded : CalldataDecoder.DecodedCall) : list ArbitrageOpportunity :=
  if negb (DecodedCalls.isSwap decoded) then []
  else
    match DecodedCalls.extractSwapAmount decoded,
          DecodedCalls.extractTokenPair decoded with
    | Some (swapAmountIn, _), Some (tokenIn, tokenOut) =>
        match JsMore.BigInt swapAmountIn with
        | Throw _ => []
        | Ok amountIn =>
            if amountIn <? minSwapSize then []
            else
              let ourTradeSize := amountIn * 2 in
              [ {| opp_id := PoolAnalyzer.stamp_id stamp;
                   opp_type := CrossDexArbitrage;
                   createdAt := PoolAnalyzer.stamp_createdAt stamp;
                   triggeringTx := Some tx;
                   pools := [];
                   expectedProfitBPS := ofZ 50;
                   expectedProfitUSD := ofZ 0;
                   profitMargin := Fin (5 # 1000);
                   gasEstimate := 150000;
                   flashloanRequired := true;
                   flashloanAmount := ourTradeSize;
                   path := [tokenIn; tokenOut];
                   simulation := None;
                   confidence := Fin (8 # 10) |} ]
        end
    | _, _ => []
    end.

(** [result.status === 'submitted' || result.status === 'included']. *)
Definition wentOut (result : ExecutionResult) : bool :=
  match status result with
  | Submitted | Included => true
  | _ => false
  end.

Definition botProcessOpportunity (execWorld : ArbitrageExecutor.World)
  (stats : MonitorStats) (opportunity : ArbitrageOpportunity)
  : MonitorStats :=
  let minProfitBPS := parseInt (orElse (MIN_PROFIT_BPS env) "10") in
  if lt (expectedProfitBPS opportunity) minProfitBPS then stats
  else
    let stats := addFound 1 stats in
    if executionEnabled settings then
      match ArbitrageExecutor.execute env encodeFunctionData solidityPacked
              (executorOf cfg settings) execWorld opportunity with
      | Throw _ => stats
      | Ok result =>
          let stats := countExecuted stats in
          if wentOut result then
            match JsMore.bigIntOfNumber (expectedProfitBPS opportunity) with
            | Throw _ => stats
            | Ok bps =>
                addProfit (Z.quot (flashloanAmount opportunity * bps) 10000)
                          stats
            end
          else stats
      end
    else stats.

(** The decoder only copies [tx.to] into the decoded call, which the
    bot does not read; a missing [to] is passed as the empty string. *)
Definition botHandleIncomingTransaction (stamp : PoolAnalyzer.Stamp)
  (execWorld : ArbitrageExecutor.World) (stats : MonitorStats)
  (tx : PendingTx) : MonitorStats :=
  let stats := countTx stats in
  match CalldataDecoder.decodeCalldata
          (match tx_to tx with Some a => a | None => "" end)
          (tx_data tx) with
  | Throw _ => stats
  | Ok decoded =>
      if CalldataDecoder.dropped decoded then stats
      else
        match decoded with
        | None => stats
        | Some call =>
            let opportunities := detectOpportunities stamp tx call in
            match opportunities with
            | [] => stats
            | _ =>
                fold_left (botProcessOpportunity execWorld) opportunities
                  (addFound (Z.of_nat (List.length opportunities)) stats)
            end
        end
  end.

End Monitor.

(** A pending [exactInputSingle] call whose amount in is [10^18]. *)
Definition largeSwapData : string :=
  ("0x1f00ca16" ++ ArbitrageExecutor.zeros 320
   ++ ArbitrageExecutor.zeros 49 ++ "de0b6b3a7640000"
   ++ ArbitrageExecutor.zeros 64)%string.

Definition largeSwap : PendingTx :=
  {| tx_hash := "0x02";
     tx_from := Samples.userAddr;
     tx_to := Some "0x3333333333333333333333333333333333333333";
     tx_value := "0";
     tx_data := largeSwapData;
     tx_gasPrice := "30000000000";
     tx_gasLimit := "250000";
     tx_nonce := ofZ 8;
     tx_timestamp := ofZ 0;
     tx_source := SrcBloxroute |}.

End Orchestrator.

Module ListenerTrace.
Import TransactionListener.

(** The transactions handed to whoever listens for ['tx']. *)
Definition emittedTx (a : Action) : list PendingTx :=
  match a with
  | Emit _ tx => [tx]
  | _ => []
  end.

Definition emitted (tr : list Action) : list PendingTx :=
  flat_map emittedTx tr.

(** The messages [parseTx] turned into a transaction. *)
Definition parsedTx (ev : Event) : list PendingTx :=
  match ev with
  | WsMessage (Some tx) => [tx]
  | _ => []
  end.

Definition parsedMessages (evs : list Event) : list PendingTx :=
  flat_map parsedTx evs.

Definition notStop (ev : Event) : bool :=
  match ev with
  | Stop => false
  | _ => true
  end.

End ListenerTrace.

(** Case analysis on every boolean test in the goal. *)
Ltac case_ifs :=
  repeat match goal with
         | |- context [if ?b then _ else _] =>
             match type of b with
             | bool => destruct b
             end
         end.

(* ================================================================== *)
(** * Properties of the Safety Validator *)
(* ================================================================== *)

Module SafetyFacts.
Import SafetyChecker SafetyVocabulary.

Lemma checkRevertOnDeviation_too_high env :
  thresholdTooHigh env -> checkRevertOnDeviation env = false.
Proof.
  intros (v & Hv & Hgt). unfold checkRevertOnDeviation. rewrite Hv.
  destruct v as [|c r]; [reflexivity|]. now rewrite Hgt.
Qed.

(** The failures list never depends on the deviation-guard setting. *)
Lemma failures_ignore_threshold env v w st opp :
  failures (fst (checkOpportunitySafety (withThreshold env v) w st opp))
  = failures (fst (checkOpportunitySafety env w st opp))
  /\ passed (fst (checkOpportunitySafety (withThreshold env v) w st opp))
     = passed (fst (checkOpportunitySafety env w st opp)).
Proof.
  unfold checkOpportunitySafety.
  assert (Hp : forall sim, checkSimulationProfitable (withThreshold env v) sim
                           = checkSimulationProfitable env sim) by reflexivity.
  assert (Hn : checkNoNegativeExternalities (withThreshold env v) opp
               = checkNoNegativeExternalities env opp) by reflexivity.
  rewrite Hn.
  destruct (simulation opp) as [sim|]; [rewrite Hp|];
    case_ifs; split; reflexivity.
Qed.

(** The result of a run is a function of the environment and the
    opportunity alone. *)
Lemma result_ignores_world env opp w1 st1 w2 st2 :
  fst (checkOpportunitySafety env w1 st1 opp)
  = fst (checkOpportunitySafety env w2 st2 opp).
Proof.
  unfold checkOpportunitySafety.
  destruct (simulation opp) as [sim|];
    case_ifs; reflexivity.
Qed.

End SafetyFacts.

Module SafetyClaims.
Import SafetyChecker SafetyVocabulary SafetyFacts.

(** C1 (as amended).  When the configured deviation-guard threshold
    exceeds 500 BPS, the deviation-guard check is recorded as not met
    ([revertOnDeviation = false]) and the run reports exactly one
    warning, "Revert-on-deviation safety check failed".  The setting
    contributes nothing to [failures] and nothing to [passed]: both are
    what they would be under any other setting, and every entry of
    [failures] comes from one of the first three checks. *)
Theorem threshold_above_500_only_warns env w st opp :
  thresholdTooHigh env ->
  let r := fst (checkOpportunitySafety env w st opp) in
  revertOnDeviation (checks r) = false
  /\ warnings r = [warnRevertOnDeviation]
  /\ (forall m, In m (failures r) ->
                In m [failNotProfitable; failNotSimulated;
                      failExternalities; failFrontrunning])
  /\ (forall v,
        let r' :=
          fst (checkOpportunitySafety (withThreshold env v) w st opp) in
        failures r' = failures r /\ passed r' = passed r).
Proof.
  intros Hhigh r.
  pose proof (checkRevertOnDeviation_too_high env Hhigh) as Hc.
  repeat split.
  - subst r. unfold checkOpportunitySafety. rewrite Hc.
    destruct (simulation opp) as [sim|];
      case_ifs; reflexivity.
  - subst r. unfold checkOpportunitySafety. rewrite Hc.
    destruct (simulation opp) as [sim|];
      case_ifs; reflexivity.
  - subst r. unfold checkOpportunitySafety. rewrite Hc.
    destruct (simulation opp) as [sim|];
      case_ifs; cbn; intros m Hm; intuition (subst; auto 10).
  - apply failures_ignore_threshold.
  - apply failures_ignore_threshold.
Qed.

Lemma threshold_above_500_only_warns_witness :
  thresholdTooHigh (Samples.env (Some "600") None)
  /\ warnings
       (fst (checkOpportunitySafety (Samples.env (Some "600") None)
               Samples.checkerWorld Samples.checkerState
               (Samples.crossDex None (Some (Samples.goodSimulation 100)))))
     = [warnRevertOnDeviation].
Proof.
  assert (H : thresholdTooHigh (Samples.env (Some "600") None)).
  { exists "600". split; reflexivity. }
  split; [exact H|].
  exact (proj1 (proj2 (threshold_above_500_only_warns
                         (Samples.env (Some "600") None)
                         Samples.checkerWorld Samples.checkerState
                         (Samples.crossDex None
                            (Some (Samples.goodSimulation 100))) H))).
Defined.

(** C1 fails as stated: with the threshold set to 600 and every other
    check met, the run passes and lists no failure. *)
Lemma threshold_600_still_passes :
  let env := Samples.env (Some "600") None in
  let r := fst (checkOpportunitySafety env
                  Samples.checkerWorld Samples.checkerState
                  (Samples.crossDex None
                     (Some (Samples.goodSimulation 100)))) in
  gt (parseInt "600") (ofZ 500) = true
  /\ checkRevertOnDeviation env = false
  /\ passed r = true
  /\ failures r = [].
Proof. repeat split. Qed.

(** C4 (as amended).  A triggering transaction whose sender differs
    from the configured executor address is still treated as the
    executor's own: [isTriggeredByOwnTransaction] answers [true], and
    the no-negative-externality check gives the verdict it gives for
    the same opportunity without a triggering transaction, so it never
    fails on that ground. *)
Theorem third_party_trigger_is_not_a_ground env opp tx :
  triggeringTx opp = Some tx ->
  thirdParty env tx ->
  isTriggeredByOwnTransaction env tx = true
  /\ checkNoNegativeExternalities env opp
     = checkNoNegativeExternalities env (withoutTrigger opp).
Proof.
  intros Htx _. split.
  - unfold isTriggeredByOwnTransaction.
    now destruct (String.eqb _ _).
  - unfold checkNoNegativeExternalities. rewrite Htx. cbn.
    unfold isTriggeredByOwnTransaction.
    now destruct (String.eqb _ _).
Qed.

Lemma third_party_trigger_is_not_a_ground_witness :
  thirdParty (Samples.env (Some "50") (Some Samples.executorAddr))
             (Samples.tx Samples.userAddr)
  /\ isTriggeredByOwnTransaction
       (Samples.env (Some "50") (Some Samples.executorAddr))
       (Samples.tx Samples.userAddr) = true.
Proof.
  assert (H : thirdParty (Samples.env (Some "50") (Some Samples.executorAddr))
                         (Samples.tx Samples.userAddr)).
  { unfold thirdParty. cbn. discriminate. }
  split; [exact H|].
  exact (proj1 (third_party_trigger_is_not_a_ground
                  (Samples.env (Some "50") (Some Samples.executorAddr))
                  (Samples.crossDex (Some (Samples.tx Samples.userAddr))
                     (Some (Samples.goodSimulation 100)))
                  (Samples.tx Samples.userAddr) eq_refl H)).
Defined.

(** C4 fails as stated: an opportunity triggered by a transaction whose
    sender is not the executor meets the no-negative-externality check,
    and the whole run passes without a failure. *)
Lemma third_party_trigger_passes :
  let env := Samples.env (Some "50") (Some Samples.executorAddr) in
  let tx := Samples.tx Samples.userAddr in
  let opp := Samples.crossDex (Some tx) (Some (Samples.goodSimulation 100)) in
  let r := fst (checkOpportunitySafety env
                  Samples.checkerWorld Samples.checkerState opp) in
  toLowerCase (tx_from tx) <> toLowerCase (orElse (EXECUTOR_ADDRESS env) "")
  /\ checkNoNegativeExternalities env opp = true
  /\ noNegativeExternalities (checks r) = true
  /\ failures r = []
  /\ passed r = true.
Proof.
  cbv zeta. split; [cbn; discriminate|]. repeat split.
Qed.

(** C9.  Two runs of the Safety Validator on the same opportunity under
    the same environment return the same [SafetyCheckResult], whatever
    the clock, the outcome of the file write and the audit state are at
    each run; in particular when the second run starts from the state
    the first one left. *)
Theorem safety_check_is_repeatable env opp :
  (forall w1 st1 w2 st2,
      fst (checkOpportunitySafety env w1 st1 opp)
      = fst (checkOpportunitySafety env w2 st2 opp))
  /\ (forall w1 w2 st,
        let first := checkOpportunitySafety env w1 st opp in
        let second := checkOpportunitySafety env w2 (snd first) opp in
        fst second = fst first
        /\ List.length (auditLogs (snd second))
           = S (S (List.length (auditLogs st)))).
Proof.
  split.
  - intros. apply result_ignores_world.
  - intros w1 w2 st first second. split.
    + apply result_ignores_world.
    + subst first second. unfold checkOpportunitySafety.
      destruct (simulation opp) as [sim|];
        case_ifs; cbn; rewrite !length_app; cbn; lia.
Qed.

End SafetyClaims.

(* ================================================================== *)
(** * Properties of the Simulation Engine *)
(* ================================================================== *)

Module SimulationFacts.
Import SimulationEngine SimulationVocabulary.


Lemma bind_Ok {A B} (m : Exc A) (k : A -> Exc B) b :
  bind m k = Ok b -> exists a, m = Ok a /\ k a = Ok b.
Proof. destruct m as [a|e]; cbn; [eauto | discriminate]. Qed.

(** A result built from an output amount is a successful one. *)
Lemma profitResult_success opp out gas devs r :
  profitResult opp out gas devs = Ok r -> success r = true.
Proof.
  unfold profitResult. intros H.
  apply bind_Ok in H as (p & _ & H).
  apply bind_Ok in H as (bps & _ & H).
  apply bind_Ok in H as (g & _ & H).
  now inversion H.
Qed.

(** What the remote path hands back is a failure record or a
    successful result. *)
Lemma tenderlyBody_shape BigInt eng w tx opp r :
  tenderlyBody BigInt eng w tx opp = Ok (Some r) ->
  success r = true \/ exists reason, r = failure reason.
Proof.
  unfold tenderlyBody.
  destruct (negb (tenderlyClient eng)); [discriminate|].
  destruct (tenderly w) as [e|[sim|]]; try discriminate.
  destruct (isReverted sim).
  - intros H. inversion H. right. eauto.
  - intros H.
    apply bind_Ok in H as (gp & _ & H).
    apply bind_Ok in H as (out & _ & H).
    apply bind_Ok in H as (r' & Hr & H).
    inversion H; subst. left. eapply profitResult_success; eauto.
Qed.

Lemma simulateWithTenderly_shape BigInt eng w tx opp r :
  simulateWithTenderly BigInt eng w tx opp = Ok (Some r) ->
  success r = true \/ exists reason, r = failure reason.
Proof.
  unfold simulateWithTenderly, catch.
  destruct (tenderlyBody BigInt eng w tx opp) as [o|e] eqn:E;
    [|discriminate].
  intros H; inversion H; subst. eapply tenderlyBody_shape; eauto.
Qed.

Lemma simulateWithTenderly_total BigInt eng w tx opp :
  exists o, simulateWithTenderly BigInt eng w tx opp = Ok o.
Proof.
  unfold simulateWithTenderly, catch.
  destruct (tenderlyBody BigInt eng w tx opp); eauto.
Qed.

Lemma simulateWithAnvil_success BigInt eng w tx opp r :
  simulateWithAnvil BigInt eng w tx opp = Ok r -> success r = true.
Proof.
  unfold simulateWithAnvil, catch.
  destruct (negb (anvilProvider eng)); [discriminate|].
  match goal with
  | |- match ?m with _ => _ end = _ -> _ => destruct m as [r'|e] eqn:E
  end; [|discriminate].
  intros H; inversion H; subst.
  apply bind_Ok in E as (res & _ & E).
  apply bind_Ok in E as (out & _ & E).
  apply bind_Ok in E as (p & _ & E).
  apply bind_Ok in E as (q & _ & E).
  apply bind_Ok in E as (ge & _ & E).
  apply bind_Ok in E as (gp & _ & E).
  eapply profitResult_success; eauto.
Qed.

(** [simulate] always returns, and what it returns is successful or
    a failure record. *)
Lemma simulate_shape BigInt eng w opp :
  exists r, simulate BigInt eng w opp = Ok r
            /\ (success r = true \/ exists reason, r = failure reason).
Proof.
  unfold simulate, catch.
  destruct (simulateBody BigInt eng w opp) as [r|e] eqn:E.
  - exists r. split; [reflexivity|].
    unfold simulateBody in E.
    apply bind_Ok in E as (tx & _ & E).
    apply bind_Ok in E as (via & Hvia & E).
    destruct via as [res|].
    + inversion E; subst.
      destruct (tenderlyClient eng); [|discriminate].
      eapply simulateWithTenderly_shape; eauto.
    + destruct (anvilProvider eng); [|discriminate].
      left. eapply simulateWithAnvil_success; eauto.
  - eexists. split; [reflexivity|]. right. eauto.
Qed.

Lemma filterExc_kept {A} (f : A -> Exc bool) l kept x :
  filterExc f l = Ok kept -> In x kept -> f x = Ok true.
Proof.
  revert kept. induction l as [|y l IH]; cbn; intros kept H Hin.
  - inversion H; subst. destruct Hin.
  - apply bind_Ok in H as (keep & Hy & H).
    apply bind_Ok in H as (rest & Hrest & H).
    inversion H; subst. destruct keep.
    + destruct Hin as [->|Hin]; [assumption|]. eapply IH; eauto.
    + eapply IH; eauto.
Qed.

End SimulationFacts.

Module SimulationClaims.
Import SimulationEngine SimulationVocabulary SimulationFacts.
Import SafetyChecker.

(** C2.  An opportunity without a simulation is never in the output of
    [filterProfitable], whatever the list it arrives in and whatever the
    two thresholds, and alone it is filtered to the empty list; the
    Safety Validator records [simulationProfitable = false] for it,
    lists the failure "Opportunity not simulated before safety check",
    and does not pass it. *)
Theorem unsimulated_is_always_rejected opp :
  simulation opp = None ->
  (forall opps minNet maxGas kept,
      filterProfitable opps minNet maxGas = Ok kept -> ~ In opp kept)
  /\ (forall minNet maxGas, filterProfitable [opp] minNet maxGas = Ok [])
  /\ (forall env w st,
        let r := fst (checkOpportunitySafety env w st opp) in
        simulationProfitable (checks r) = false
        /\ In failNotSimulated (failures r)
        /\ passed r = false).
Proof.
  intros Hsim. split; [|split].
  - intros opps minNet maxGas kept H Hin.
    pose proof (filterExc_kept _ _ _ _ H Hin) as Hk.
    unfold keepProfitable in Hk. rewrite Hsim in Hk. discriminate.
  - intros. unfold filterProfitable; cbn.
    unfold keepProfitable. now rewrite Hsim.
  - intros env w st r. subst r. unfold checkOpportunitySafety.
    rewrite Hsim. case_ifs; cbn; auto 10.
Qed.

Lemma unsimulated_is_always_rejected_witness :
  filterProfitable [Samples.crossDex None None] (ofZ 80) (ofZ 100) = Ok [].
Proof.
  exact (proj1 (proj2 (unsimulated_is_always_rejected
                         (Samples.crossDex None None) eq_refl))
           (ofZ 80) (ofZ 100)).
Defined.



End SimulationClaims.

(* ================================================================== *)
(** * Properties of the Executor *)
(* ================================================================== *)

Module ExecutorClaims.
Import ArbitrageExecutor.

(** C6 (as amended).  In dry-run mode [execute] returns the synthetic
    submitted result.  In live mode with a wallet it always returns a
    result: when validating profitability, building, signing or
    sending raises [e], the result has status [Failed], an empty
    bundle hash and the message of [e] as its error; otherwise its
    status is [Submitted].  In live mode without a wallet the call
    itself raises "Wallet not configured for execution": that one
    exception is raised before the protected block and reaches the
    caller. *)
Theorem execute_outcomes env encode packed ex w opp :
  (dryRunMode ex = true ->
   execute env encode packed ex w opp = Ok (simulateExecute w opp))
  /\ (dryRunMode ex = false -> wallet ex = true ->
      exists r,
        execute env encode packed ex w opp = Ok r
        /\ (forall e, executeBody env encode packed ex w opp = Throw e ->
                      r = failed w e
                      /\ status r = Failed
                      /\ error r = Some (messageOr e "Unknown error"))
        /\ (forall r', executeBody env encode packed ex w opp = Ok r' ->
                       r = r' /\ status r = Submitted))
  /\ (dryRunMode ex = false -> wallet ex = false ->
      execute env encode packed ex w opp = Throw (ErrorObj msgNoWallet)).
Proof.
  unfold execute. split; [|split].
  - intros ->. reflexivity.
  - intros -> ->. cbn.
    destruct (executeBody env encode packed ex w opp) as [r|e] eqn:E.
    + exists r. split; [reflexivity|]. split.
      * intros e He. discriminate.
      * intros r' Hr'. inversion Hr'; subst r'. split; [reflexivity|].
        unfold executeBody in E.
        destruct (match simulation opp with
                  | Some sim => _ | None => _ end); [|discriminate].
        cbn in E.
        destruct (buildTransaction env encode packed ex opp);
          [|discriminate].
        cbn in E.
        destruct (sendTransaction w _); [|discriminate].
        now inversion E.
    + exists (failed w e). split; [reflexivity|]. split.
      * intros e' He'. inversion He'; subst e'. repeat split.
      * intros r' Hr'. discriminate.
  - intros -> ->. reflexivity.
Qed.

Lemma execute_outcomes_witness :
  exists r,
    execute (Samples.env None (Some Samples.executorAddr))
      (fun _ _ => Ok "0x") (fun s => Ok s)
      (construct Samples.flashloan false (Some Samples.privateKey))
      (mkWorld (ofZ 0) "1f" (fun _ => Throw (ErrorObj "nonce too low")))
      (Samples.crossDex None (Some (Samples.goodSimulation 100))) = Ok r
    /\ status r = Failed
    /\ error r = Some "nonce too low".
Proof.
  destruct (proj1 (proj2 (execute_outcomes
              (Samples.env None (Some Samples.executorAddr))
              (fun _ _ => Ok "0x") (fun s => Ok s)
              (construct Samples.flashloan false (Some Samples.privateKey))
              (mkWorld (ofZ 0) "1f"
                 (fun _ => Throw (ErrorObj "nonce too low")))
              (Samples.crossDex None (Some (Samples.goodSimulation 100)))))
              eq_refl eq_refl) as (r & Hr & Hthrow & _).
  exists r. split; [exact Hr|].
  destruct (Hthrow (ErrorObj "nonce too low") eq_refl) as (_ & Hs & He).
  split; [exact Hs | exact He].
Defined.

(** C6 fails as stated: an executor built for live mode without a
    private key raises from [execute]. *)
Lemma execute_without_wallet_raises :
  execute (Samples.env None (Some Samples.executorAddr))
    (fun _ _ => Ok "0x") (fun s => Ok s)
    (construct Samples.flashloan false None)
    (mkWorld (ofZ 0) "1f" (fun _ => Ok "0xhash"))
    (Samples.crossDex None (Some (Samples.goodSimulation 100)))
  = Throw (ErrorObj "Wallet not configured for execution").
Proof. reflexivity. Qed.

End ExecutorClaims.

(* ================================================================== *)
(** * Properties of the stream listener *)
(* ================================================================== *)

Module ListenerFacts.
Import TransactionListener ListenerVocabulary.

Lemma attemptReconnect_below k st :
  reconnectAttempts st = Z.of_nat k -> (k < 5)%nat ->
  attemptReconnect st
  = ({| reconnectAttempts := Z.of_nat (S k); ws := ws st |},
     [LogInfo "Attempting to reconnect";
      SetTimeoutStart (nth k schedule 0)]).
Proof.
  intros Hk Hlt. unfold attemptReconnect. rewrite Hk.
  do 5 (destruct k as [|k]; [reflexivity|]). lia.
Qed.

Lemma attemptReconnect_at_max st :
  reconnectAttempts st = 5 ->
  attemptReconnect st = (st, [LogError msgMaxReached]).
Proof. intros H. unfold attemptReconnect. now rewrite H. Qed.

Lemma skipn_schedule k :
  (k < 5)%nat -> skipn k schedule = nth k schedule 0 :: skipn (S k) schedule.
Proof. intros H. do 5 (destruct k as [|k]; [reflexivity|]). lia. Qed.

Lemma delays_app a b : delays (a ++ b) = delays a ++ delays b.
Proof. unfold delays. apply flat_map_app. Qed.

Lemma run_cons st ev evs :
  run st (ev :: evs)
  = (fst (run (fst (step st ev)) evs),
     snd (step st ev) ++ snd (run (fst (step st ev)) evs)).
Proof.
  cbn [run]. destruct (step st ev) as [st1 a1].
  cbn [fst snd]. now destruct (run st1 evs).
Qed.

(** An event that is not a failure leaves the counter alone and
    schedules nothing. *)
Lemma step_quiet st ev :
  offline ev = true -> isFailure ev = false ->
  reconnectAttempts (fst (step st ev)) = reconnectAttempts st
  /\ delays (snd (step st ev)) = []
  /\ existsb reachesOrchestrator (snd (step st ev)) = false.
Proof.
  destruct ev as [[|]| |parsed| | |]; cbn; try discriminate; auto.
  intros _ _. destruct (ws st); cbn; auto.
Qed.

Lemma step_failure_below st ev k :
  isFailure ev = true ->
  reconnectAttempts st = Z.of_nat k -> (k < 5)%nat ->
  reconnectAttempts (fst (step st ev)) = Z.of_nat (S k)
  /\ delays (snd (step st ev)) = [nth k schedule 0]
  /\ existsb reachesOrchestrator (snd (step st ev)) = false.
Proof.
  intros Hf Hk Hlt.
  destruct ev as [[|]| |parsed| | |]; try discriminate Hf; cbn [step];
    rewrite (attemptReconnect_below k st Hk Hlt); cbn; auto.
Qed.

Lemma step_failure_at_max st ev :
  isFailure ev = true ->
  reconnectAttempts st = 5 ->
  fst (step st ev) = st
  /\ delays (snd (step st ev)) = []
  /\ existsb reachesOrchestrator (snd (step st ev)) = false
  /\ In (LogError msgMaxReached) (snd (step st ev)).
Proof.
  intros Hf Hk.
  destruct ev as [[|]| |parsed| | |]; try discriminate Hf; cbn [step];
    rewrite (attemptReconnect_at_max st Hk); cbn; repeat split; auto.
Qed.

(** While no connection is established, a listener that has already
    used [k] attempts works through the rest of the schedule, one delay
    per failure, and then only logs. *)
Lemma offline_run evs : forall k st,
  reconnectAttempts st = Z.of_nat k -> (k <= 5)%nat ->
  forallb offline evs = true ->
  delays (snd (run st evs)) = firstn (failures evs) (skipn k schedule)
  /\ reconnectAttempts (fst (run st evs))
     = Z.of_nat (Nat.min (k + failures evs) 5)
  /\ existsb reachesOrchestrator (snd (run st evs)) = false
  /\ ((5 < k + failures evs)%nat ->
      In (LogError msgMaxReached) (snd (run st evs))).
Proof.
  induction evs as [|ev evs IH]; intros k st Hk Hle Hoff.
  - cbn. unfold failures; cbn. rewrite Nat.add_0_r, Nat.min_l by lia.
    repeat split; [assumption | lia].
  - cbn in Hoff. apply andb_true_iff in Hoff as (Hev & Hoff).
    rewrite run_cons. cbn [fst snd].
    rewrite delays_app, existsb_app.
    unfold failures in *. cbn [filter].
    destruct (isFailure ev) eqn:Hf; cbn [List.length].
    + destruct (Nat.eq_dec k 5) as [->|Hne].
      * destruct (step_failure_at_max st ev Hf Hk) as (S1 & S2 & S3 & S4).
        rewrite S1, S2, S3.
        destruct (IH 5%nat st Hk Hle Hoff) as (I1 & I2 & I3 & I4).
        rewrite I1, I2, I3. cbn [skipn schedule app orb].
        rewrite !firstn_nil.
        repeat split.
        -- f_equal. lia.
        -- intros _. apply in_or_app. now left.
      * assert (Hlt : (k < 5)%nat) by lia.
        destruct (step_failure_below st ev k Hf Hk Hlt) as (S1 & S2 & S3).
        rewrite S2, S3.
        destruct (IH (S k) (fst (step st ev)) S1 Hlt Hoff)
          as (I1 & I2 & I3 & I4).
        rewrite I1, I2, I3, (skipn_schedule k Hlt).
        repeat split.
        -- f_equal. lia.
        -- intros H. apply in_or_app. right. apply I4. lia.
    + destruct (step_quiet st ev Hev Hf) as (S1 & S2 & S3).
      rewrite S2, S3.
      destruct (IH k (fst (step st ev)) (eq_trans S1 Hk) Hle Hoff)
        as (I1 & I2 & I3 & I4).
      rewrite I1, I2, I3.
      repeat split.
      intros H. apply in_or_app. right. apply I4. exact H.
Qed.

End ListenerFacts.

Module ListenerClaims.
Import TransactionListener ListenerVocabulary ListenerFacts.

(** C7 (as amended).  While no connection is established, a freshly
    started listener answers the n-th failure, for n up to 5, by
    scheduling a reconnect after 1000, 2000, 4000, 8000 and 16000 ms in
    that order, so the delays double from a base of 1000 ms and
    strictly increase; after the 5th it schedules nothing more, its
    attempt counter stays at 5, and each further failure only writes
    the log line "Max reconnection attempts reached".  Nothing is
    emitted to the orchestrator at any point. *)
Theorem reconnect_backoff evs :
  forallb offline evs = true ->
  let tr := snd (run initial evs) in
  delays tr = firstn (failures evs) [1000; 2000; 4000; 8000; 16000]
  /\ reconnectAttempts (fst (run initial evs))
     = Z.of_nat (Nat.min (failures evs) 5)
  /\ ((5 < failures evs)%nat -> In (LogError msgMaxReached) tr)
  /\ existsb reachesOrchestrator tr = false.
Proof.
  intros Hoff tr.
  destruct (offline_run evs 0%nat initial eq_refl (Nat.le_0_l 5) Hoff)
    as (H1 & H2 & H3 & H4).
  repeat split; assumption.
Qed.

Lemma reconnect_backoff_witness :
  delays (snd (run initial repeatedDisconnects))
  = [1000; 2000; 4000; 8000; 16000]
  /\ In (LogError msgMaxReached) (snd (run initial repeatedDisconnects)).
Proof.
  pose proof (reconnect_backoff repeatedDisconnects eq_refl) as H.
  cbv zeta in H. destruct H as (H1 & _ & H3 & _).
  split; [exact H1|].
  apply H3. unfold failures; cbn. lia.
Defined.

(** C7 fails as stated: after six consecutive failures the listener has
    made its five attempts and given up, and its trace holds no action
    that reaches the orchestrator. *)
Lemma giving_up_is_only_logged :
  let tr := snd (run initial repeatedDisconnects) in
  delays tr = [1000; 2000; 4000; 8000; 16000]
  /\ last tr SendSubscription = LogError msgMaxReached
  /\ ~ exists a, In a tr /\ reachesOrchestrator a = true.
Proof.
  cbv zeta. split; [reflexivity|]. split; [reflexivity|].
  intros (a & Hin & Hr).
  assert (H : existsb reachesOrchestrator
                (snd (run initial repeatedDisconnects)) = true).
  { apply existsb_exists. eauto. }
  discriminate H.
Qed.

End ListenerClaims.

(* ================================================================== *)
(** * Properties of the calldata decoder *)
(* ================================================================== *)

Module DecoderFacts.
Import CalldataDecoder.

Lemma substring_prefix_length n s :
  (n <= String.length s)%nat -> String.length (substring 0 n s) = n.
Proof.
  revert s. induction n as [|n IH]; intros s H.
  - now destruct s.
  - destruct s as [|c s]; cbn in *; [lia|]. rewrite IH; lia.
Qed.

(** A selector is empty or ten characters long. *)
Lemma selector_length data :
  getFunctionSelector data = ""
  \/ String.length (getFunctionSelector data) = 10%nat.
Proof.
  unfold getFunctionSelector.
  destruct (String.length data <? 10)%nat eqn:E; [now left|right].
  apply Nat.ltb_ge in E. unfold slice. cbn [Nat.sub].
  now apply substring_prefix_length.
Qed.

Lemma assoc_found {A} key (l : list (string * A)) v :
  assoc key l = Some v -> In key (map fst l).
Proof.
  induction l as [|[k x] l IH]; cbn; [discriminate|].
  destruct (String.eqb_spec k key); auto.
Qed.

(** No name inherited from [Object.prototype] can be a selector. *)
Lemma selector_not_inherited data :
  assoc (getFunctionSelector data) inheritedKeys = None.
Proof.
  destruct (assoc (getFunctionSelector data) inheritedKeys) as [name|] eqn:E;
    [|reflexivity].
  apply assoc_found in E.
  destruct (selector_length data) as [H|H].
  - rewrite H in E. cbn in E. intuition discriminate.
  - cbn in E.
    repeat (destruct E as [E|E];
            [rewrite <- E in H; cbn in H; discriminate H|]).
    destruct E.
Qed.

End DecoderFacts.

Module DecoderClaims.
Import CalldataDecoder DecoderFacts.

(** C10.  For every pair of strings [(to, data)], [decodeCalldata]
    returns a [DecodedCall] (never [null]) and raises nothing.  When
    [data] has fewer than 10 characters, or its first 10 characters are
    not a key of the signature table, the call returned has function
    'unknown', type 'unknown' and no arguments, and the pipeline drops
    it. *)
Theorem decodeCalldata_never_null to data :
  exists call,
    decodeCalldata to data = Ok (Some call)
    /\ call_to call = to
    /\ ((String.length data < 10)%nat
        \/ assoc (slice data 0 10) FUNCTION_SIGNATURES = None ->
        call = unknownCall to
        /\ call_function call = "unknown"
        /\ call_type call = unknown
        /\ dropped (Some call) = true).
Proof.
  unfold decodeCalldata, catch, lookupSignature.
  rewrite (selector_not_inherited data).
  destruct (assoc (getFunctionSelector data) FUNCTION_SIGNATURES)
    as [signature|] eqn:E.
  - eexists. split; [reflexivity|]. split; [reflexivity|].
    intros [Hshort|Habsent]; exfalso.
    + unfold getFunctionSelector in E.
      apply Nat.ltb_lt in Hshort. rewrite Hshort in E. discriminate E.
    + unfold getFunctionSelector in E.
      destruct (String.length data <? 10)%nat; [discriminate E|].
      congruence.
  - exists (unknownCall to). repeat split.
Qed.

Lemma decodeCalldata_never_null_witness :
  exists call,
    decodeCalldata "0x01" "0xdeadbeef00" = Ok (Some call)
    /\ call_type call = unknown.
Proof.
  destruct (decodeCalldata_never_null "0x01" "0xdeadbeef00")
    as (call & Hcall & _ & Hunknown).
  exists call. split; [exact Hcall|].
  apply Hunknown. right. reflexivity.
Defined.

End DecoderClaims.

(* ================================================================== *)
(** * Properties of the Pool State Store and the Detector *)
(* ================================================================== *)

Module NumberFacts.

Lemma Qltb_lt x y : Qltb x y = true <-> (x < y)%Q.
Proof. unfold Qltb, Qlt. apply Z.ltb_lt. Qed.

Lemma Qltb_ge x y : Qltb x y = false <-> (y <= x)%Q.
Proof. unfold Qltb, Qle. rewrite Z.ltb_ge. reflexivity. Qed.

Lemma Qeqb_eq x y : Qeqb x y = true <-> (x == y)%Q.
Proof. unfold Qeqb, Qeq. apply Z.eqb_eq. Qed.

Lemma Qeqb_neq x y : Qeqb x y = false <-> ~ (x == y)%Q.
Proof. unfold Qeqb, Qeq. apply Z.eqb_neq. Qed.

Lemma inject_Z_pos z : 0 < z -> (0 < inject_Z z)%Q.
Proof. intros H. unfold Qlt; cbn. lia. Qed.

Lemma inject_Z_nonzero z : z <> 0 -> ~ (inject_Z z == 0)%Q.
Proof. intros H. unfold Qeq; cbn. lia. Qed.

Lemma div_fin x y :
  ~ (y == 0)%Q -> div (Fin x) (Fin y) = Fin (x / y).
Proof. intros H. cbn. apply Qeqb_neq in H. now rewrite H. Qed.

Lemma lt_fin x y : lt (Fin x) (Fin y) = true <-> (x < y)%Q.
Proof. cbn. apply Qltb_lt. Qed.

Lemma le_fin x y : le (Fin x) (Fin y) = true <-> (x <= y)%Q.
Proof. cbn. rewrite negb_true_iff. apply Qltb_ge. Qed.

End NumberFacts.

Module PoolFacts.
Import PoolAnalyzer PoolVocabulary NumberFacts.



End PoolFacts.

Module SlippageClaims.
Import PoolAnalyzer PoolVocabulary NumberFacts PoolFacts.




End SlippageClaims.

Module DetectorFacts.
Import PoolAnalyzer PoolVocabulary NumberFacts.

(** ** Prices are finite *)

Lemma calculateSpotPrice_finite pool :
  exists q, calculateSpotPrice pool = Fin q.
Proof.
  unfold calculateSpotPrice.
  destruct (truthyBig (sqrtPriceX96 pool)) as [s|].
  - unfold ofZ, mul. rewrite div_fin; [eauto|].
    apply inject_Z_nonzero. intros E. discriminate E.
  - destruct (reserve0 pool =? 0) eqn:E; [unfold ofZ; eauto|].
    apply Z.eqb_neq in E. unfold ofZ.
    rewrite div_fin; [eauto|]. now apply inject_Z_nonzero.
Qed.

Lemma priced_finite l :
  Forall finite (map (fun p => (p, calculateSpotPrice p)) l).
Proof.
  apply Forall_forall. intros x Hx. apply in_map_iff in Hx as (p & <- & _).
  apply calculateSpotPrice_finite.
Qed.

(** ** The comparator on finite prices *)

Lemma after_fin (x y : Priced) a b :
  snd x = Fin a -> snd y = Fin b -> after x y = Qltb b a.
Proof.
  intros Hx Hy. unfold after, comparedTo, gt. rewrite Hx, Hy.
  cbn [lt].
  destruct (Qltb a b) eqn:Eab.
  - apply Qltb_lt in Eab. symmetry. apply Qltb_ge. cbn. lra.
  - destruct (Qltb b a) eqn:Eba; reflexivity.
Qed.

Lemma le_after (x y : Priced) :
  finite x -> finite y -> le (snd x) (snd y) = negb (after x y).
Proof.
  intros (a & Ha) (b & Hb). rewrite (after_fin x y a b Ha Hb).
  now rewrite Ha, Hb.
Qed.

Lemma notAfter_trans x y z :
  finite x -> finite y -> finite z ->
  notAfter x y -> notAfter y z -> notAfter x z.
Proof.
  intros (a & Ha) (b & Hb) (c & Hc). unfold notAfter.
  rewrite Ha, Hb, Hc, !le_fin. lra.
Qed.

Lemma after_notAfter x y :
  finite x -> finite y -> after x y = true -> notAfter y x.
Proof.
  intros (a & Ha) (b & Hb) H. rewrite (after_fin x y a b Ha Hb) in H.
  apply Qltb_lt in H. unfold notAfter. rewrite Ha, Hb, le_fin. lra.
Qed.

Lemma not_after_notAfter x y :
  finite x -> finite y -> after x y = false -> notAfter x y.
Proof.
  intros Hx Hy H. unfold notAfter. now rewrite le_after, H.
Qed.

(** ** The sort *)

Lemma insertPriced_perm x l : Permutation (insertPriced x l) (x :: l).
Proof.
  induction l as [|y r IH]; cbn [insertPriced]; [reflexivity|].
  destruct (after x y); [|reflexivity].
  rewrite IH. apply perm_swap.
Qed.

Lemma sortByPrice_perm l : Permutation (sortByPrice l) l.
Proof.
  induction l as [|x r IH]; cbn [sortByPrice]; [reflexivity|].
  rewrite insertPriced_perm. now constructor.
Qed.

Lemma insertPriced_sorted x l :
  finite x -> Forall finite l ->
  StronglySorted notAfter l -> StronglySorted notAfter (insertPriced x l).
Proof.
  intros Hx Hl Hs. induction Hs as [|y r Hs IH Hy]; cbn [insertPriced].
  - repeat constructor.
  - inversion Hl as [|? ? Fy Fr]; subst.
    destruct (after x y) eqn:E.
    + constructor; [now apply IH|].
      apply Forall_forall. intros z Hz.
      apply (Permutation_in _ (insertPriced_perm x r)) in Hz.
      destruct Hz as [<-|Hz].
      * now apply after_notAfter.
      * rewrite Forall_forall in Hy. now apply Hy.
    + assert (Hxy : notAfter x y) by now apply not_after_notAfter.
      constructor; [now constructor|].
      constructor; [exact Hxy|].
      rewrite Forall_forall in Hy, Fr |- *. intros z Hz.
      apply (notAfter_trans x y z); auto.
Qed.

Lemma sortByPrice_finite l : Forall finite l -> Forall finite (sortByPrice l).
Proof.
  intros H. rewrite Forall_forall in H |- *. intros x Hx.
  apply H. now apply (Permutation_in _ (sortByPrice_perm l)).
Qed.

Lemma sortByPrice_sorted l :
  Forall finite l -> StronglySorted notAfter (sortByPrice l).
Proof.
  induction l as [|x r IH]; intros H; cbn [sortByPrice]; [constructor|].
  inversion H; subst.
  apply insertPriced_sorted; auto using sortByPrice_finite.
Qed.

Lemma notAfter_refl x : finite x -> notAfter x x.
Proof. intros (a & Ha). unfold notAfter. rewrite Ha, le_fin. lra. Qed.

Lemma last_in {A} (x : A) l d : In (last (x :: l) d) (x :: l).
Proof.
  revert x. induction l as [|y r IH]; intros x.
  - now left.
  - right. apply IH.
Qed.

(** In a sorted list nothing comes after the last element. *)
Lemma sorted_last l d :
  Forall finite l -> StronglySorted notAfter l ->
  forall x, In x l -> notAfter x (last l d).
Proof.
  intros Hf Hs. induction Hs as [|y r Hs IH Hy]; intros x Hx; [destruct Hx|].
  inversion Hf as [|? ? Fy Fr]; subst.
  destruct r as [|z r'].
  - destruct Hx as [<-|[]]. now apply notAfter_refl.
  - change (last (y :: z :: r') d) with (last (z :: r') d).
    destruct Hx as [<-|Hx]; [|now apply IH].
    rewrite Forall_forall in Hy. apply Hy. apply last_in.
Qed.

(** ** Grouping and the loop body *)

Lemma addToPair_same key acc p :
  addToPair key p [(key, acc)] = [(key, acc ++ [p])].
Proof. cbn. now rewrite String.eqb_refl. Qed.

Lemma group_one_pair key (pools : list (string * PoolState)) : forall acc,
  (forall e, In e pools -> pairKey (snd e) = key) ->
  fold_left (fun pairMap entry =>
               addToPair (pairKey (snd entry)) (snd entry) pairMap)
            pools [(key, acc)]
  = [(key, acc ++ map snd pools)].
Proof.
  induction pools as [|e pools IH]; intros acc H.
  - cbn. now rewrite app_nil_r.
  - cbn [fold_left map]. rewrite (H e (or_introl eq_refl)).
    rewrite addToPair_same, IH.
    + now rewrite <- app_assoc.
    + intros e' He'. apply H. now right.
Qed.

Lemma groupByPair_one_pair key pools :
  pools <> [] ->
  (forall e, In e pools -> pairKey (snd e) = key) ->
  groupByPair pools = [(key, map snd pools)].
Proof.
  intros Hne H. destruct pools as [|e pools]; [congruence|].
  unfold groupByPair. cbn [fold_left map].
  rewrite (H e (or_introl eq_refl)). cbn [addToPair].
  rewrite group_one_pair; [reflexivity|].
  intros e' He'. apply H. now right.
Qed.

Lemma price_nonneg p :
  unsignedReserves p -> le (ofZ 0) (calculateSpotPrice p) = true.
Proof.
  intros (H0 & H1). unfold calculateSpotPrice.
  destruct (truthyBig (sqrtPriceX96 p)) as [s|].
  - unfold ofZ, mul. rewrite div_fin.
    + apply le_fin. change (inject_Z 0) with 0%Q.
      apply Qle_shift_div_l; [reflexivity|].
      rewrite Qmult_0_l. unfold Qle; cbn. nia.
    + apply inject_Z_nonzero. intros E. discriminate E.
  - destruct (reserve0 p =? 0) eqn:E.
    + reflexivity.
    + apply Z.eqb_neq in E. unfold ofZ.
      rewrite div_fin by now apply inject_Z_nonzero.
      apply le_fin. change (inject_Z 0) with 0%Q.
      apply Qle_shift_div_l.
      * apply inject_Z_pos. lia.
      * rewrite Qmult_0_l. unfold Qle; cbn. lia.
Qed.

(** What the loop body does for one pair with at least two venues. *)
Lemma detectPair_extremes minProfitBPS stamp l :
  (2 <= List.length l)%nat ->
  exists lo hi,
    In lo l /\ In hi l
    /\ (forall p, In p l ->
          le (calculateSpotPrice lo) (calculateSpotPrice p) = true
          /\ le (calculateSpotPrice p) (calculateSpotPrice hi) = true)
    /\ (gt (divergenceBPS lo hi) (add minProfitBPS (ofZ 100)) = true ->
        exists opp,
          detectPair minProfitBPS stamp l = Some opp
          /\ pools opp = [lo; hi]
          /\ expectedProfitBPS opp = sub (divergenceBPS lo hi) (ofZ 100))
    /\ (gt (divergenceBPS lo hi) (add minProfitBPS (ofZ 100)) = false ->
        detectPair minProfitBPS stamp l = None).
Proof.
  intros Hlen. unfold detectPair.
  assert (Hl : (List.length l <? 2)%nat = false) by now apply Nat.ltb_ge.
  rewrite Hl.
  set (priced := map (fun p => (p, calculateSpotPrice p)) l).
  pose proof (sortByPrice_perm priced) as Hperm.
  pose proof (priced_finite l) as Hfin. fold priced in Hfin.
  pose proof (sortByPrice_sorted priced Hfin) as Hsorted.
  pose proof (sortByPrice_finite priced Hfin) as Hfin'.
  destruct (sortByPrice priced) as [|low rest] eqn:Es.
  { apply Permutation_length in Hperm. unfold priced in Hperm.
    rewrite length_map in Hperm. cbn in Hperm. lia. }
  set (high := last (low :: rest) low).
  assert (Hlow : In low priced).
  { apply (Permutation_in _ Hperm). now left. }
  assert (Hhigh : In high priced).
  { apply (Permutation_in _ Hperm). apply last_in. }
  unfold priced in Hlow, Hhigh.
  apply in_map_iff in Hlow as (lo & Elo & Hlo).
  apply in_map_iff in Hhigh as (hi & Ehi & Hhi).
  exists lo, hi. split; [exact Hlo|]. split; [exact Hhi|]. split.
  - intros p Hp.
    assert (Hin : In (p, calculateSpotPrice p) (low :: rest)).
    { apply (Permutation_in _ (Permutation_sym Hperm)).
      unfold priced. apply in_map_iff. eauto. }
    split.
    + pose proof (proj2 (StronglySorted_inv Hsorted)) as Hall.
      destruct Hin as [E|Hin].
      * rewrite <- Elo in E. inversion E as [[Ep]].
        apply (notAfter_refl (p, calculateSpotPrice p)).
        apply calculateSpotPrice_finite.
      * rewrite Forall_forall in Hall. specialize (Hall _ Hin).
        rewrite <- Elo in Hall. exact Hall.
    + pose proof (sorted_last (low :: rest) low Hfin' Hsorted _ Hin) as H.
      fold high in H. rewrite <- Ehi in H. exact H.
  - rewrite <- Elo, <- Ehi. cbn [fst snd].
    fold (divergenceBPS lo hi). unfold slippageBuffer.
    split.
    + intros ->. eexists. split; [reflexivity|]. split; reflexivity.
    + intros ->. reflexivity.
Qed.

End DetectorFacts.

Module DetectorClaims.
Import PoolAnalyzer PoolVocabulary NumberFacts DetectorFacts.



End DetectorClaims.

(* ================================================================== *)
(** * Further properties of the Safety Validator *)
(* ================================================================== *)

Module SafetyMore.
Import SafetyChecker SafetyVocabulary AuditTrail NumberFacts.

(** Comparison of a quotient of two integers with an integer bound. *)
Lemma ratio_above a b c :
  0 < b -> gt (div (ofZ a) (ofZ b)) (ofZ c) = (c * b <? a).
Proof.
  intros Hb. unfold ofZ. rewrite div_fin by (apply inject_Z_nonzero; lia).
  unfold gt, lt, Qltb. destruct b as [|p|p]; try lia.
  cbn. f_equal; lia.
Qed.



(** X1.  The verdict is the conjunction of the first three checks: each
    flag of the result is the outcome of its check, [passed] holds
    exactly when the three hold, which is exactly when [failures] is
    empty, and [failures] has one entry per check that is not met.  The
    deviation-guard flag and the audit flag play no part. *)
Theorem passed_is_the_three_checks env w st opp :
  let r := fst (checkOpportunitySafety env w st opp) in
  let c1 := match simulation opp with
            | Some sim => checkSimulationProfitable env sim
            | None => false
            end in
  let c2 := checkNoNegativeExternalities env opp in
  let c3 := checkNoFrontrunning opp in
  simulationProfitable (checks r) = c1
  /\ noNegativeExternalities (checks r) = c2
  /\ noFrontrunning (checks r) = c3
  /\ revertOnDeviation (checks r) = checkRevertOnDeviation env
  /\ passed r = c1 && c2 && c3
  /\ (passed r = true <-> failures r = [])
  /\ List.length (failures r)
     = (Nat.b2n (negb c1) + Nat.b2n (negb c2) + Nat.b2n (negb c3))%nat.
Proof.
  cbv zeta. unfold checkOpportunitySafety.
  destruct (simulation opp) as [sim|];
    [destruct (checkSimulationProfitable env sim)|];
    destruct (checkNoNegativeExternalities env opp);
    destruct (checkNoFrontrunning opp);
    destruct (checkRevertOnDeviation env); cbn;
    repeat split; try reflexivity; try discriminate.
Qed.

(** X2.  One run appends exactly one record to the in-memory audit log
    and keeps every earlier record.  The record carries the
    opportunity's id, the result's failures and the result's checks, and
    its severity is a warning exactly when a failure is listed; it is
    the last record [getAuditTrail] returns for that id.  The file
    receives the record only when the write succeeds, yet the result
    reports [auditLogCreated = true] either way. *)
Theorem one_audit_record_per_run env w st opp :
  let r := fst (checkOpportunitySafety env w st opp) in
  let st' := snd (checkOpportunitySafety env w st opp) in
  exists log,
    auditLogs st' = auditLogs st ++ [log]
    /\ getAuditTrail st' (opp_id opp) = getAuditTrail st (opp_id opp) ++ [log]
    /\ log_opportunityId log = Some (opp_id opp)
    /\ log_timestamp log = now w
    /\ data_failures log = failures r
    /\ data_checks log = checks r
    /\ (log_severity log = SevWarning <-> failures r <> [])
    /\ (log_severity log = SevInfo <-> failures r = [])
    /\ auditLogCreated (checks r) = true
    /\ List.length (auditFile st')
       = (List.length (auditFile st) + Nat.b2n (appendSucceeds w))%nat.
Proof.
  cbv zeta. unfold checkOpportunitySafety, createAuditLog.
  destruct (simulation opp) as [sim|];
    [destruct (checkSimulationProfitable env sim)|];
    destruct (checkNoNegativeExternalities env opp);
    destruct (checkNoFrontrunning opp);
    destruct (checkRevertOnDeviation env);
    cbn [fst snd auditLogs auditFile app];
    eexists; (split; [reflexivity|]);
    (split; [unfold getAuditTrail; cbn [auditLogs];
             rewrite filter_app; cbn; rewrite String.eqb_refl; reflexivity|]);
    cbn; repeat split; try reflexivity; try congruence; try discriminate;
    destruct (appendSucceeds w); cbn; rewrite ?length_app; cbn; lia.
Qed.

Lemma lt_false_ge a b :
  a <> NaN -> b <> NaN -> lt a b = false -> ge a b = true.
Proof.
  intros Ha Hb. destruct a, b; cbn; try congruence.
  intros ->. reflexivity.
Qed.

(** X3.  When the simulation's net profit and the configured minimum are
    both numbers, an opportunity that passes the Safety Validator is
    compliant in the sense of [isCompliant]; conversely a compliant
    opportunity meets the profitability check unless its flashloan fee
    is positive and leaves no margin. *)
Theorem passed_implies_compliant env w st opp sim :
  simulation opp = Some sim ->
  netProfitBPS sim <> NaN ->
  parseInt (orElse (MIN_PROFIT_BPS env) "80") <> NaN ->
  (passed (fst (checkOpportunitySafety env w st opp)) = true ->
   isCompliant env opp = true)
  /\ (isCompliant env opp = true ->
      flashloanFee sim <= 0
      \/ 0 < actualProfit sim - gasCost sim - flashloanFee sim ->
      checkSimulationProfitable env sim = true).
Proof.
  intros Hsim Hn Hm. split.
  - intros Hpass.
    assert (Hp : checkSimulationProfitable env sim = true).
    { destruct (checkSimulationProfitable env sim) eqn:C; [reflexivity|].
      exfalso. revert Hpass. unfold checkOpportunitySafety.
      rewrite Hsim, C. case_ifs; cbn; discriminate. }
    unfold isCompliant. rewrite Hsim.
    unfold checkSimulationProfitable in Hp.
    destruct (success sim); [|discriminate]. cbn in Hp |- *.
    destruct (lt (netProfitBPS sim) _) eqn:E; [discriminate|].
    now apply lt_false_ge.
  - unfold isCompliant, checkSimulationProfitable. rewrite Hsim.
    intros Hc Hfee. apply andb_true_iff in Hc as (-> & Hge). cbn.
    assert (E : lt (netProfitBPS sim)
                   (parseInt (orElse (MIN_PROFIT_BPS env) "80")) = false).
    { unfold ge in Hge.
      destruct (netProfitBPS sim), (parseInt _); cbn in *;
        try congruence; try reflexivity.
      now apply negb_true_iff in Hge. }
    rewrite E.
    destruct (flashloanFee sim >? 0) eqn:F; [|reflexivity].
    destruct (_ <=? 0) eqn:G; [|reflexivity]. lia.
Qed.

Lemma passed_implies_compliant_witness :
  isCompliant (Samples.env (Some "50") None)
    (Samples.crossDex None (Some (Samples.goodSimulation 100))) = true.
Proof.
  apply (proj1 (passed_implies_compliant (Samples.env (Some "50") None)
                  Samples.checkerWorld Samples.checkerState
                  (Samples.crossDex None (Some (Samples.goodSimulation 100)))
                  (Samples.goodSimulation 100) eq_refl
                  ltac:(discriminate) ltac:(discriminate))).
  reflexivity.
Defined.

(** X4.  When [MIN_PROFIT_BPS] is set to text that [parseInt] cannot
    read, the profitability check of the validator has no floor: it
    accepts every successful simulation whose flashloan fee, if any,
    leaves a margin, whatever its net profit; [isCompliant] under the
    same setting accepts nothing. *)
Theorem unreadable_minimum_disables_floor env v :
  MIN_PROFIT_BPS env = Some v -> v <> "" -> parseInt v = NaN ->
  (forall sim,
      checkSimulationProfitable env sim
      = success sim
        && negb ((flashloanFee sim >? 0)
                 && (actualProfit sim - gasCost sim - flashloanFee sim <=? 0)))
  /\ (forall opp, isCompliant env opp = false).
Proof.
  intros Hv Hne Hnan.
  assert (Hm : parseInt (orElse (MIN_PROFIT_BPS env) "80") = NaN).
  { rewrite Hv. destruct v; [congruence|]. exact Hnan. }
  split.
  - intros sim. unfold checkSimulationProfitable. rewrite Hm.
    destruct (success sim); cbn; [|reflexivity].
    replace (lt (netProfitBPS sim) NaN) with false
      by now destruct (netProfitBPS sim).
    now destruct (_ && _).
  - intros opp. unfold isCompliant. rewrite Hm.
    destruct (simulation opp) as [sim|]; [|reflexivity].
    unfold ge, le. destruct (netProfitBPS sim); apply andb_false_r.
Qed.

Lemma unreadable_minimum_disables_floor_witness :
  checkSimulationProfitable
    {| MIN_PROFIT_BPS := Some "eighty";
       EXECUTOR_ADDRESS := None;
       REVERT_ON_DEVIATION_SLIPPAGE_BPS := Some "50" |}
    (Samples.goodSimulation (-500)) = true.
Proof.
  rewrite (proj1 (unreadable_minimum_disables_floor
                    {| MIN_PROFIT_BPS := Some "eighty";
                       EXECUTOR_ADDRESS := None;
                       REVERT_ON_DEVIATION_SLIPPAGE_BPS := Some "50" |}
                    "eighty" eq_refl ltac:(discriminate) eq_refl)).
  reflexivity.
Defined.


(** X6.  The frontrunning check fails exactly when there is a triggering
    transaction whose data string has more than 20000 characters, the
    [0x] prefix included: 9999 bytes of calldata pass, 10000 bytes do
    not. *)
Theorem frontrunning_check_threshold opp :
  checkNoFrontrunning opp = false
  <-> exists tx, triggeringTx opp = Some tx
                 /\ 20000 < Z.of_nat (String.length (tx_data tx)).
Proof.
  unfold checkNoFrontrunning.
  destruct (triggeringTx opp) as [tx|].
  - rewrite (ratio_above _ 2 10000) by lia.
    destruct (10000 * 2 <? Z.of_nat (String.length (tx_data tx))) eqn:E.
    + apply Z.ltb_lt in E. split; [|reflexivity].
      intros _. exists tx. split; [reflexivity|lia].
    + apply Z.ltb_ge in E. split; [discriminate|].
      intros (tx' & Ht & Hl). inversion Ht; subst. lia.
  - split; [discriminate|]. intros (tx & Ht & _). discriminate.
Qed.

End SafetyMore.

(* ================================================================== *)
(** * Further properties of the Simulation Engine *)
(* ================================================================== *)

Module SimulationMore.
Import SimulationEngine SimulationVocabulary SimulationFacts FilterVocabulary.

(** What a successful result is made of. *)
Lemma profitResult_inv opp out gas devs r :
  profitResult opp out gas devs = Ok r ->
  exists p rest,
    pools opp = p :: rest
    /\ reserve0 p <> 0
    /\ success r = true
    /\ revertReason r = None
    /\ outputAmount r = out
    /\ gasCost r = gas
    /\ actualProfit r = Z.max 0 (out - reserve0 p)
    /\ netProfit r = Z.max 0 (actualProfit r - gas)
    /\ flashloanFee r = (if flashloanRequired opp
                         then Z.quot (flashloanAmount opp) 1000 else 0)
    /\ netProfitBPS r
       = sub (actualProfitBPS r) (ofZ (Z.quot (gas * 10000) (reserve0 p))).
Proof.
  unfold profitResult. intros H.
  apply bind_Ok in H as (p & Hp & H).
  destruct (pools opp) as [|p' rest] eqn:Ep; [discriminate|].
  inversion Hp; subst p'.
  apply bind_Ok in H as (bps & _ & H).
  apply bind_Ok in H as (g & Hg & H).
  unfold bigDiv in Hg.
  destruct (reserve0 p =? 0) eqn:E0; [discriminate|].
  apply Z.eqb_neq in E0. inversion Hg; subst g.
  inversion H; subst r; cbn.
  exists p, rest. repeat split; try assumption.
  - destruct (out >? reserve0 p) eqn:E; lia.
  - destruct (out >? reserve0 p) eqn:E;
      destruct (_ >? gas) eqn:G; lia.
Qed.

(** Every result of [simulate] is a failure record or was built from an
    output amount. *)
Lemma simulate_cases BigInt eng w opp r :
  simulate BigInt eng w opp = Ok r ->
  (exists reason, r = failure reason)
  \/ (exists out gas devs, profitResult opp out gas devs = Ok r).
Proof.
  unfold simulate, catch.
  destruct (simulateBody BigInt eng w opp) as [r'|e] eqn:E.
  - intros H. assert (r' = r) by congruence. subst r'. clear H.
    unfold simulateBody in E.
    apply bind_Ok in E as (tx & _ & E).
    apply bind_Ok in E as (via & Hvia & E).
    destruct via as [res|].
    + assert (res = r) by congruence. subst res. clear E.
      destruct (tenderlyClient eng) eqn:Hc; [|discriminate].
      revert Hvia. unfold simulateWithTenderly, catch, tenderlyBody.
      rewrite Hc. cbn [negb].
      destruct (tenderly w) as [e|[sim|]]; try discriminate.
      destruct (isReverted sim).
      * intros B. inversion B. left. eauto.
      * match goal with
        | |- match ?m with _ => _ end = _ -> _ =>
            destruct m as [o|e] eqn:B; [|discriminate]
        end.
        intros H. assert (o = Some r) by congruence. subst o.
        apply bind_Ok in B as (gp & _ & B).
        apply bind_Ok in B as (out & _ & B).
        apply bind_Ok in B as (r' & Hr & B).
        assert (r' = r) by congruence. subst r'. right. eauto.
    + destruct (anvilProvider eng) eqn:Ha; [|discriminate].
      revert E. unfold simulateWithAnvil, catch. rewrite Ha. cbn [negb].
      match goal with
      | |- match ?m with _ => _ end = _ -> _ =>
          destruct m as [r'|e] eqn:A; [|discriminate]
      end.
      intros H. assert (r' = r) by congruence. subst r'.
      apply bind_Ok in A as (res & _ & A).
      apply bind_Ok in A as (out & _ & A).
      apply bind_Ok in A as (p & _ & A).
      apply bind_Ok in A as (q & _ & A).
      apply bind_Ok in A as (ge & _ & A).
      apply bind_Ok in A as (gp & _ & A).
      right. eauto.
  - intros H; inversion H. left. eauto.
Qed.

(** X7.  Whatever the providers answer, the result of [simulate] has a
    non-negative profit and a non-negative net profit, the net profit
    does not exceed the profit when the gas cost is not negative, and a
    revert reason is present exactly when the result is not successful.
    A successful result has
    [actualProfit = max(0, outputAmount - reserve0)] for the first
    pool's [reserve0], which is not zero,
    [netProfit = max(0, actualProfit - gasCost)], and a flashloan fee of
    a thousandth of the flashloan amount when a flashloan is required,
    zero otherwise. *)
Theorem simulation_result_invariants BigInt eng w opp r :
  simulate BigInt eng w opp = Ok r ->
  0 <= actualProfit r
  /\ 0 <= netProfit r
  /\ (0 <= gasCost r -> netProfit r <= actualProfit r)
  /\ (revertReason r = None <-> success r = true)
  /\ (success r = true ->
      exists p rest,
        pools opp = p :: rest
        /\ reserve0 p <> 0
        /\ actualProfit r = Z.max 0 (outputAmount r - reserve0 p)
        /\ netProfit r = Z.max 0 (actualProfit r - gasCost r)
        /\ flashloanFee r = (if flashloanRequired opp
                             then Z.quot (flashloanAmount opp) 1000 else 0)).
Proof.
  intros H. destruct (simulate_cases _ _ _ _ _ H)
    as [(reason & ->)|(out & gas & devs & Hp)].
  - cbn. split; [lia|]. split; [lia|]. split; [lia|].
    split; [split; discriminate|discriminate].
  - apply profitResult_inv in Hp
      as (p & rest & Ep & E0 & Hs & Hr & Ho & Hg & Ha & Hn & Hf & _).
    subst out gas. split; [lia|]. split; [lia|]. split; [lia|].
    split; [split; auto|].
    intros _. exists p, rest. auto.
Qed.

Lemma simulation_result_invariants_witness :
  exists r,
    simulate (fun _ => Ok 1300) (mkEngine false true)
      (SimulationEngine.mkWorld (Reply None)
         (mkAnvilReply (Ok "0x514") (Ok 2) (Ok 10)))
      (Samples.crossDex None None) = Ok r
    /\ 0 <= netProfit r.
Proof.
  eexists. split; [reflexivity|].
  exact (proj1 (proj2 (simulation_result_invariants (fun _ => Ok 1300)
                         (mkEngine false true)
                         (SimulationEngine.mkWorld (Reply None)
                            (mkAnvilReply (Ok "0x514") (Ok 2) (Ok 10)))
                         (Samples.crossDex None None) _ eq_refl))).
Defined.

(** X8.  An opportunity with no pool, or whose first pool has
    [reserve0 = 0], never simulates successfully: whatever the providers
    answer, [simulate] returns the zeroed failure record.  Concentrated
    liquidity pools are cached with both reserves zero, so an
    opportunity that starts at one is always a negative result. *)
Theorem zero_input_never_simulates BigInt eng w opp :
  (forall p rest, pools opp = p :: rest -> reserve0 p = 0) ->
  exists reason, simulate BigInt eng w opp = Ok (failure reason).
Proof.
  intros Hz.
  destruct (simulate_shape BigInt eng w opp) as (r & Hr & _).
  destruct (simulate_cases _ _ _ _ _ Hr)
    as [(reason & ->)|(out & gas & devs & Hp)].
  - eauto.
  - apply profitResult_inv in Hp as (p & rest & Ep & E0 & _).
    specialize (Hz p rest Ep). contradiction.
Qed.

Lemma zero_input_never_simulates_witness :
  exists reason,
    simulate (fun _ => Ok 1300) (mkEngine false true)
      (SimulationEngine.mkWorld (Reply None)
         (mkAnvilReply (Ok "0x514") (Ok 2) (Ok 10)))
      (Samples.opportunity CrossDexArbitrage None
         [Samples.pool "0xc3" 0 0; Samples.venueA] None)
    = Ok (failure reason).
Proof.
  apply zero_input_never_simulates.
  intros p rest H. inversion H. reflexivity.
Defined.

(** ** [filterProfitable] *)

Lemma filterExc_filter {A} (f : A -> Exc bool) l out :
  filterExc f l = Ok out -> out = filter (keptBy f) l.
Proof.
  revert out. induction l as [|x l IH]; cbn; intros out H.
  - now inversion H.
  - apply bind_Ok in H as (k & Hk & H).
    apply bind_Ok in H as (rest & Hrest & H).
    inversion H; subst out. unfold keptBy at 1. rewrite Hk.
    rewrite (IH rest Hrest). now destruct k.
Qed.

Lemma filterExc_all_kept {A} (f : A -> Exc bool) l :
  (forall x, In x l -> f x = Ok true) -> filterExc f l = Ok l.
Proof.
  induction l as [|x l IH]; intros H; cbn; [reflexivity|].
  rewrite (H x (or_introl eq_refl)). cbn.
  rewrite IH; [reflexivity|]. intros y Hy. apply H. now right.
Qed.

Lemma filterExc_throws {A} (f : A -> Exc bool) l x e :
  In x l -> f x = Throw e -> exists e', filterExc f l = Throw e'.
Proof.
  induction l as [|y l IH]; intros Hin Hx; [destruct Hin|].
  cbn. destruct (f y) as [k|e0] eqn:Ey; cbn; [|eauto].
  destruct Hin as [->|Hin]; [congruence|].
  destruct (IH Hin Hx) as (e' & ->). cbn. eauto.
Qed.

(** X9.  When [filterProfitable] returns, its output is the input with
    some opportunities removed and the order kept; every opportunity it
    keeps has a simulation whose net profit is not below the floor and
    whose state deviations are all at most 200 BPS; and filtering the
    output again with the same thresholds returns it unchanged. *)
Theorem filterProfitable_output opps minNet maxGas out :
  filterProfitable opps minNet maxGas = Ok out ->
  (exists keep, out = filter keep opps)
  /\ (forall o, In o out ->
        In o opps
        /\ exists sim,
             simulation o = Some sim
             /\ lt (netProfitBPS sim) minNet = false
             /\ forall d, In d (deviations sim) ->
                          gt (deviationBPS d) (ofZ 200) = false)
  /\ filterProfitable out minNet maxGas = Ok out.
Proof.
  intros H. unfold filterProfitable in *.
  pose proof (filterExc_filter _ _ _ H) as E.
  split; [eauto|]. split.
  - intros o Ho. split.
    + rewrite E in Ho. now apply filter_In in Ho.
    + pose proof (filterExc_kept _ _ _ _ H Ho) as Hk.
      unfold keepProfitable in Hk.
      destruct (simulation o) as [sim|]; [|discriminate].
      exists sim. split; [reflexivity|].
      destruct (lt (netProfitBPS sim) minNet); [discriminate|].
      split; [reflexivity|].
      apply bind_Ok in Hk as (p & _ & Hk).
      apply bind_Ok in Hk as (g & _ & Hk).
      destruct (gt g maxGas); [discriminate|].
      destruct (existsb _ (deviations sim)) eqn:X; [discriminate|].
      intros d Hd.
      destruct (gt (deviationBPS d) (ofZ 200)) eqn:G; [|reflexivity].
      assert (existsb (fun d => gt (deviationBPS d) (ofZ 200))
                      (deviations sim) = true)
        by (apply existsb_exists; eauto).
      congruence.
  - apply filterExc_all_kept. intros x Hx.
    eapply filterExc_kept; eauto.
Qed.

Lemma filterProfitable_output_witness :
  filterProfitable
    [Samples.crossDex None (Some (Samples.goodSimulation 100))]
    (ofZ 80) (ofZ 100)
  = Ok [Samples.crossDex None (Some (Samples.goodSimulation 100))].
Proof.
  exact (proj2 (proj2 (filterProfitable_output
                         [Samples.crossDex None
                            (Some (Samples.goodSimulation 100));
                          Samples.crossDex None None]
                         (ofZ 80) (ofZ 100)
                         [Samples.crossDex None
                            (Some (Samples.goodSimulation 100))]
                         eq_refl))).
Defined.

(** X10.  [filterProfitable] raises, and returns no list at all, as
    soon as one opportunity of the input has a simulation that clears
    the net-profit floor and either has no pool or has a positive gas
    cost with [reserve0 = 0] in its first pool. *)
Theorem filterProfitable_raises opps minNet maxGas o sim :
  In o opps ->
  simulation o = Some sim ->
  lt (netProfitBPS sim) minNet = false ->
  pools o = []
  \/ (0 < gasCost sim
      /\ exists p rest, pools o = p :: rest /\ reserve0 p = 0) ->
  exists e, filterProfitable opps minNet maxGas = Throw e.
Proof.
  intros Hin Hsim Hlt Hbad. unfold filterProfitable.
  assert (exists e, keepProfitable minNet maxGas o = Throw e) as (e & He).
  { unfold keepProfitable. rewrite Hsim, Hlt.
    destruct Hbad as [->|(Hg & p & rest & -> & H0)]; cbn; [eauto|].
    assert (G : (gasCost sim >? 0) = true) by lia.
    rewrite G. unfold bigDiv. rewrite H0. cbn. eauto. }
  eapply filterExc_throws; eauto.
Qed.

Lemma filterProfitable_raises_witness :
  exists e,
    filterProfitable
      [Samples.crossDex None (Some (Samples.goodSimulation 100));
       Samples.opportunity CrossDexArbitrage None []
         (Some (Samples.goodSimulation 100))]
      (ofZ 80) (ofZ 100) = Throw e.
Proof.
  apply (filterProfitable_raises _ _ _
           (Samples.opportunity CrossDexArbitrage None []
              (Some (Samples.goodSimulation 100)))
           (Samples.goodSimulation 100)).
  - right. left. reflexivity.
  - reflexivity.
  - reflexivity.
  - left. reflexivity.
Defined.

End SimulationMore.

(* ================================================================== *)
(** * Further properties of the calldata decoder *)
(* ================================================================== *)

Module DecoderMore.
Import CalldataDecoder DecoderFacts DecodedCalls.

Lemma substring_length n m s :
  String.length (substring n m s) = Nat.min m (String.length s - n).
Proof.
  revert n m. induction s as [|c s IH]; intros n m.
  - destruct n, m; reflexivity.
  - destruct n as [|n].
    + destruct m as [|m]; [reflexivity|]. cbn. now rewrite IH, Nat.sub_0_r.
    + cbn. apply IH.
Qed.

Lemma sliceFrom_length s n :
  String.length (sliceFrom s n) = (String.length s - n)%nat.
Proof. unfold sliceFrom. rewrite substring_length. lia. Qed.

Lemma assoc_in {A} key (l : list (string * A)) v :
  assoc key l = Some v -> In (key, v) l.
Proof.
  induction l as [|[k x] l IH]; cbn; [discriminate|].
  destruct (String.eqb_spec k key) as [->|N].
  - intros H; inversion H. now left.
  - intros H. right. now apply IH.
Qed.

(** The generic argument names all start with [param]. *)
Lemma generic_arg_absent key p :
  (forall d, String.eqb ("param" ++ d)%string key = false) ->
  forall fuel i, assoc key (genericParams fuel i p) = None.
Proof.
  intros Hk. induction fuel as [|fuel IH]; intros i; cbn [genericParams].
  - reflexivity.
  - destruct (_ && _); [|reflexivity].
    cbn [assoc]. rewrite Hk. apply IH.
Qed.

(** What [decodeCalldata] returns for a selector of the table. *)
Lemma decodeCalldata_inv to data call :
  decodeCalldata to data = Ok (Some call) ->
  (assoc (getFunctionSelector data) FUNCTION_SIGNATURES = None
   /\ call = unknownCall to)
  \/ exists signature,
       In (getFunctionSelector data, signature) FUNCTION_SIGNATURES
       /\ call = {| call_to := to;
                    call_function := sig_name signature;
                    call_args :=
                      decodeParameters (getFunctionSelector data) data;
                    call_type := sig_type signature |}.
Proof.
  unfold decodeCalldata, catch, lookupSignature.
  rewrite (selector_not_inherited data).
  destruct (assoc (getFunctionSelector data) FUNCTION_SIGNATURES)
    as [signature|] eqn:E; intros H; inversion H.
  - right. exists signature. split; [now apply assoc_in|reflexivity].
  - now left.
Qed.

(** Case analysis over the fifteen entries of the signature table; each
    case fixes the selector of [data]. *)
Ltac by_selector H :=
  cbn [FUNCTION_SIGNATURES In] in H;
  repeat destruct H as [H|H]; try contradiction;
  inversion H as [[Hsel Hsig]]; clear H; rewrite <- ?Hsel.

Lemma generic_call_reads_nothing to name ty p :
  let call := {| call_to := to; call_function := name;
                 call_args := genericParams 10 0 p; call_type := ty |} in
  extractTokenPair call = None
  /\ extractSwapAmount call = None
  /\ arg call "amountOutMin" = None.
Proof.
  cbv zeta.
  assert (H : forall key,
             (forall d, String.eqb ("param" ++ d)%string key = false) ->
             arg {| call_to := to; call_function := name;
                    call_args := genericParams 10 0 p; call_type := ty |} key
             = None).
  { intros key Hk. unfold arg; cbn [call_args].
    now apply generic_arg_absent. }
  unfold extractTokenPair, extractSwapAmount.
  rewrite (H "tokenIn"), (H "tokenOut"), (H "token"), (H "path"),
    (H "amountIn"), (H "amount"), (H "amountOutMinimum"), (H "amountOutMin")
    by (intros d; reflexivity).
  cbn. destruct (isSwap _); repeat split.
Qed.

(** X11.  Composed with [decodeCalldata], [extractTokenPair] returns a
    pair for two selectors only: [0x1f00ca16] (exactInputSingle) and
    [0xc04b8d59] (the Balancer swap), where it is the lower-cased pair
    of the two address slices.  For every other calldata, the router
    swaps [0x38ed1739] and [0x8803dbee] included, it returns [null]. *)
Theorem token_pair_of_decoded_call to data call :
  decodeCalldata to data = Ok (Some call) ->
  let sel := getFunctionSelector data in
  let params := sliceFrom data 10 in
  (sel = "0x1f00ca16" ->
   extractTokenPair call
   = Some (toLowerCase (hexSlice params 24 64),
           toLowerCase (hexSlice params 88 128)))
  /\ (sel = "0xc04b8d59" ->
      extractTokenPair call
      = Some (toLowerCase (hexSlice params 88 152),
              toLowerCase (hexSlice params 152 216)))
  /\ (sel <> "0x1f00ca16" -> sel <> "0xc04b8d59" ->
      extractTokenPair call = None).
Proof.
  intros H. cbv zeta.
  destruct (decodeCalldata_inv _ _ _ H) as [(E & ->)|(signature & Hin & ->)].
  - repeat split; try reflexivity; intros Hs; rewrite Hs in E; discriminate E.
  - clear H. by_selector Hin; subst signature;
      (split; [intros E; try discriminate E; reflexivity|]);
      (split; [intros E; try discriminate E; reflexivity|]);
      intros N1 N2; try congruence;
      try reflexivity;
      apply generic_call_reads_nothing.
Qed.

Lemma token_pair_of_decoded_call_witness :
  exists call,
    decodeCalldata "0x3333" "0x38ed173900" = Ok (Some call)
    /\ extractTokenPair call = None.
Proof.
  eexists. split; [reflexivity|].
  apply (proj2 (proj2 (token_pair_of_decoded_call
                         "0x3333" "0x38ed173900" _ eq_refl)));
    discriminate.
Defined.

(** X12.  Composed with [decodeCalldata], [extractSwapAmount] returns an
    amount for three selectors only: [0x38ed1739], [0x1f00ca16] and
    [0xc04b8d59], each time the slices the decoder stored; the Balancer
    swap has no minimum and gets '0'.  For every other calldata it
    returns [null]. *)
Theorem swap_amount_of_decoded_call to data call :
  decodeCalldata to data = Ok (Some call) ->
  let sel := getFunctionSelector data in
  let params := sliceFrom data 10 in
  (sel = "0x38ed1739" ->
   extractSwapAmount call
   = Some (hexSlice params 0 64, hexSlice params 64 128))
  /\ (sel = "0x1f00ca16" ->
      extractSwapAmount call
      = Some (hexSlice params 320 384, hexSlice params 384 448))
  /\ (sel = "0xc04b8d59" ->
      extractSwapAmount call = Some (hexSlice params 192 256, "0"))
  /\ (sel <> "0x38ed1739" -> sel <> "0x1f00ca16" -> sel <> "0xc04b8d59" ->
      extractSwapAmount call = None).
Proof.
  intros H. cbv zeta.
  destruct (decodeCalldata_inv _ _ _ H) as [(E & ->)|(signature & Hin & ->)].
  - repeat split; try reflexivity; intros Hs; rewrite Hs in E; discriminate E.
  - clear H. by_selector Hin; subst signature;
      (split; [intros E; try discriminate E; reflexivity|]);
      (split; [intros E; try discriminate E; reflexivity|]);
      (split; [intros E; try discriminate E; reflexivity|]);
      intros N1 N2 N3; try congruence;
      try reflexivity;
      apply generic_call_reads_nothing.
Qed.

Lemma swap_amount_of_decoded_call_witness :
  exists call,
    decodeCalldata "0x3333" "0x8803dbee00" = Ok (Some call)
    /\ extractSwapAmount call = None.
Proof.
  eexists. split; [reflexivity|].
  apply (proj2 (proj2 (proj2 (swap_amount_of_decoded_call
                                "0x3333" "0x8803dbee00" _ eq_refl))));
    discriminate.
Defined.

(** X13.  On a call decoded from calldata, the missing-slippage rule of
    [flagPotentialMEV] can fire only when the data has exactly 75
    characters.  For any other data the flag is just
    [calldataSize > 10000]: a swap whose [amountOutMin] is a full word
    of zeros is not flagged. *)
Theorem mev_flag_on_decoded_call to data call size :
  decodeCalldata to data = Ok (Some call) ->
  String.length data <> 75%nat ->
  flagPotentialMEV call size = gt size (ofZ 10000).
Proof.
  intros H Hlen.
  assert (Hgt : forall b : bool, (if b then true else false) = b)
    by now intros [].
  destruct (decodeCalldata_inv _ _ _ H) as [(E & ->)|(signature & Hin & ->)].
  - unfold flagPotentialMEV. cbn. apply Hgt.
  - clear H.
    assert (N : getFunctionSelector data = "0x38ed1739" ->
                String.eqb (slice (sliceFrom data 10) 64 128) "0" = false).
    { intros Hsel. apply String.eqb_neq. intros E.
      apply (f_equal String.length) in E. unfold slice in E.
      rewrite substring_length, sliceFrom_length in E.
      change (String.length "0") with 1%nat in E.
      change (128 - 64)%nat with 64%nat in E.
      unfold getFunctionSelector in Hsel.
      destruct (String.length data <? 10)%nat eqn:L; [discriminate Hsel|].
      apply Nat.ltb_ge in L. lia. }
    unfold flagPotentialMEV.
    match goal with
    | |- (if ?c then true else _) = _ =>
        assert (R : c = false); [|rewrite R; apply Hgt]
    end.
    by_selector Hin; subst signature;
      first
        [ reflexivity
        | match goal with
          | |- context [arg ?c "amountOutMin"] =>
              rewrite (proj2 (proj2 (generic_call_reads_nothing
                                       (call_to c) (call_function c)
                                       (call_type c) (sliceFrom data 10)))
                       : arg c "amountOutMin" = None)
          end;
          apply andb_false_r
        | idtac ].
    (* swapExactTokensForTokens: the stored minimum is 0x followed by a
       slice that is one character long only for 75 characters of data *)
    unfold arg.
    replace (assoc "amountOutMin" _)
      with (Some (hexSlice (sliceFrom data 10) 64 128)) by reflexivity.
    unfold hexSlice. cbn. apply N. now symmetry.
Qed.

Lemma mev_flag_on_decoded_call_witness :
  exists call,
    decodeCalldata "0x3333"
      ("0x38ed1739" ++ ArbitrageExecutor.zeros 128) = Ok (Some call)
    /\ call_function call = "swapExactTokensForTokens"
    /\ flagPotentialMEV call (ofZ 69) = false.
Proof.
  eexists. split; [reflexivity|]. split; [reflexivity|].
  rewrite (mev_flag_on_decoded_call "0x3333"
             ("0x38ed1739" ++ ArbitrageExecutor.zeros 128) _ (ofZ 69)
             eq_refl ltac:(cbn; discriminate)).
  reflexivity.
Defined.

(** ** [estimateGasImpact] *)



(** X15.  For a selector without a layout of its own, the decoder stores
    one argument per started 64-character word of the parameters, and at
    most ten. *)
Theorem generic_parameters_count p :
  List.length (genericParams 10 0 p)
  = Nat.min 10 ((String.length p + 63) / 64).
Proof.
  assert (H : forall fuel i,
             (fuel + i = 10)%nat ->
             List.length (genericParams fuel i p)
             = Nat.min fuel ((String.length p + 63) / 64 - i)).
  { induction fuel as [|fuel IH]; intros i Hi; [reflexivity|].
    cbn [genericParams].
    assert (Hi10 : (i <? 10)%nat = true) by (apply Nat.ltb_lt; lia).
    rewrite Hi10, andb_true_r.
    pose proof (Nat.div_mod_eq (String.length p + 63) 64) as D.
    pose proof (Nat.mod_upper_bound (String.length p + 63) 64) as M.
    destruct (i * 64 <? String.length p)%nat eqn:E.
    - apply Nat.ltb_lt in E. cbn [List.length].
      rewrite IH by lia. lia.
    - apply Nat.ltb_ge in E. cbn [List.length]. lia. }
  rewrite (H 10%nat 0%nat eq_refl). now rewrite Nat.sub_0_r.
Qed.

End DecoderMore.

(* ================================================================== *)
(** * Further properties of the pool analyzer *)
(* ================================================================== *)

Module PoolMore.
Import PoolAnalyzer PoolVocabulary NumberFacts DetectorFacts PoolStore JsMore.

(** ** The margin test *)

Lemma above_margin d m b :
  gt d (add m (ofZ b)) = true -> gt (sub d (ofZ b)) m = true.
Proof.
  unfold gt, sub, ofZ.
  destruct d as [| | |d], m as [| | |m]; cbn [add neg lt];
    try discriminate; try reflexivity.
  rewrite !Qltb_lt. intros H. lra.
Qed.

(** ** The loop body *)

Lemma detectPair_some minProfitBPS stamp l o :
  detectPair minProfitBPS stamp l = Some o ->
  (2 <= List.length l)%nat
  /\ opp_type o = CrossDexArbitrage
  /\ flashloanRequired o = false
  /\ flashloanAmount o = 0
  /\ gasEstimate o = 150000
  /\ simulation o = None
  /\ triggeringTx o = None.
Proof.
  unfold detectPair. destruct (List.length l <? 2)%nat eqn:E; [discriminate|].
  apply Nat.ltb_ge in E.
  destruct (sortByPrice _) as [|low rest]; [discriminate|].
  destruct (gt _ _); [|discriminate].
  intros H. inversion H; subst o; clear H. cbn. auto 10.
Qed.


(** ** The loop over the pairs *)


Lemma cross_fold_inv (P : ArbitrageOpportunity -> Prop) stampOf m groups :
  forall acc,
    Forall P acc ->
    (forall entry stamp o,
        In entry groups -> detectPair m stamp (snd entry) = Some o -> P o) ->
    Forall P (fold_left (crossStep stampOf m) groups acc).
Proof.
  induction groups as [|g groups IH]; intros acc Hacc Hg; [exact Hacc|].
  cbn [fold_left]. apply IH.
  - unfold crossStep.
    destruct (detectPair m (stampOf (List.length acc)) (snd g)) as [o|] eqn:E;
      [|exact Hacc].
    apply Forall_app. split; [exact Hacc|].
    constructor; [|constructor].
    apply (Hg g _ o (or_introl eq_refl) E).
  - intros entry stamp o Hin. apply Hg. now right.
Qed.


(** ** Grouping *)








(** ** A drained pool *)

Lemma drained_price p :
  constantProduct p -> reserve0 p = 0 -> calculateSpotPrice p = ofZ 0.
Proof.
  unfold constantProduct, calculateSpotPrice. intros -> ->. reflexivity.
Qed.

Lemma infinite_divergence lo hi :
  le (ofZ 0) (calculateSpotPrice lo) = true ->
  le (calculateSpotPrice lo) (ofZ 0) = true ->
  lt (ofZ 0) (calculateSpotPrice hi) = true ->
  divergenceBPS lo hi = PInf.
Proof.
  unfold divergenceBPS.
  destruct (calculateSpotPrice_finite lo) as (l & ->).
  destruct (calculateSpotPrice_finite hi) as (h & ->).
  unfold ofZ. rewrite !le_fin, lt_fin. change (inject_Z 0) with 0%Q.
  intros H1 H2 H3. unfold sub. cbn [neg add div].
  assert (El : Qeqb l 0 = true) by (apply Qeqb_eq; lra).
  rewrite El. unfold signedInf.
  assert (E1 : Qeqb (h + - l) 0 = false) by (apply Qeqb_neq; lra).
  assert (E2 : Qltb (h + - l) 0 = false) by (apply Qltb_ge; lra).
  rewrite E1, E2. reflexivity.
Qed.

(** X17.  When the cached pools of one token pair include a
    constant-product pool whose [reserve0] is zero and a pool with a
    positive price, the raw divergence is a division by the zero price
    of the drained pool: the detector emits one opportunity whatever
    finite minimum is requested, and its expected profit is infinite. *)
Theorem drained_pool_infinite_profit stampOf cached key (m : Q) dead live :
  (forall e, In e cached ->
             pairKey (snd e) = key /\ unsignedReserves (snd e)) ->
  In dead (map snd cached) -> constantProduct dead -> reserve0 dead = 0 ->
  In live (map snd cached) -> lt (ofZ 0) (calculateSpotPrice live) = true ->
  exists o,
    detectCrossArbitrage stampOf cached (Fin m) = [o]
    /\ expectedProfitBPS o = PInf.
Proof.
  intros Hall Hdead Hcp Hr0 Hlive Hpos.
  pose proof (drained_price dead Hcp Hr0) as Pdead.
  assert (Hlen : (2 <= List.length (map snd cached))%nat).
  { destruct (map snd cached) as [|a [|b r]]; [destruct Hdead| |cbn; lia].
    destruct Hdead as [<-|[]], Hlive as [<-|[]].
    rewrite Pdead in Hpos. discriminate Hpos. }
  assert (Hne : cached <> []).
  { intros ->. cbn in Hlen. lia. }
  destruct (detectPair_extremes (Fin m) (stampOf 0%nat) (map snd cached) Hlen)
    as (lo & hi & Hlo & Hhi & Hext & Hemit & _).
  assert (Hdiv : divergenceBPS lo hi = PInf).
  { apply (infinite_divergence lo hi).
    - apply in_map_iff in Hlo as (e & <- & He).
      apply price_nonneg. now apply Hall.
    - rewrite <- Pdead. apply (Hext dead Hdead).
    - destruct (Hext live Hlive) as (_ & Hle).
      destruct (calculateSpotPrice_finite live) as (x & Ex).
      destruct (calculateSpotPrice_finite hi) as (h & Eh).
      rewrite Ex, Eh in *. unfold ofZ in *.
      apply lt_fin in Hpos. apply le_fin in Hle. apply lt_fin. lra. }
  rewrite Hdiv in Hemit.
  destruct (Hemit eq_refl) as (o & Ho & _ & He).
  exists o. split; [|exact He].
  unfold detectCrossArbitrage.
  rewrite (groupByPair_one_pair key cached Hne (fun e He => proj1 (Hall e He))).
  cbn [fold_left snd List.length]. now rewrite Ho.
Qed.

Lemma drained_pool_infinite_profit_witness :
  exists o,
    detectCrossArbitrage (fun _ => mkStamp "arb-0" (ofZ 0))
      [("0xd0", Samples.pool "0xd0" 0 0); ("0xa1", Samples.venueA)]
      (Fin 1000000)
    = [o]
    /\ expectedProfitBPS o = PInf.
Proof.
  apply (drained_pool_infinite_profit _ _ "0xaa-0xbb" 1000000
           (Samples.pool "0xd0" 0 0) Samples.venueA).
  - intros e [<-|[<-|[]]]; (split; [reflexivity|split; cbn; lia]).
  - now left.
  - reflexivity.
  - reflexivity.
  - right. now left.
  - reflexivity.
Defined.

(** ** Slippage of a concentrated-liquidity pool *)





(** ** The pool cache *)

Lemma cacheSet_keys a p cache :
  forall k, In k (map fst (cacheSet a p cache))
            <-> k = a \/ In k (map fst cache).
Proof.
  induction cache as [|[k0 p0] rest IH]; intros k; cbn [cacheSet].
  - cbn. intuition congruence.
  - destruct (String.eqb k0 a) eqn:E; cbn [map fst In].
    + apply String.eqb_eq in E. intuition congruence.
    + rewrite IH. intuition congruence.
Qed.

Lemma cacheSet_nodup a p cache :
  NoDup (map fst cache) -> NoDup (map fst (cacheSet a p cache)).
Proof.
  induction cache as [|[k0 p0] rest IH]; intros H; cbn [cacheSet].
  - cbn. constructor; [intros []|constructor].
  - inversion H as [|? ? Hk Hrest]; subst.
    destruct (String.eqb k0 a) eqn:E; cbn [map fst].
    + constructor; assumption.
    + constructor; [|now apply IH].
      rewrite cacheSet_keys. intros [->|Hin]; [|contradiction].
      rewrite String.eqb_refl in E. discriminate.
Qed.

Lemma getCachedPool_set a p cache :
  getCachedPool (cacheSet a p cache) a = Some p.
Proof.
  induction cache as [|[k0 p0] rest IH]; cbn [cacheSet getCachedPool].
  - now rewrite String.eqb_refl.
  - destruct (String.eqb k0 a) eqn:E; cbn [getCachedPool]; now rewrite E.
Qed.

Lemma getCachedPool_set_other a b p cache :
  b <> a -> getCachedPool (cacheSet a p cache) b = getCachedPool cache b.
Proof.
  intros Hne.
  induction cache as [|[k0 p0] rest IH]; cbn [cacheSet getCachedPool].
  - destruct (String.eqb a b) eqn:E; [|reflexivity].
    apply String.eqb_eq in E. congruence.
  - destruct (String.eqb k0 a) eqn:E; cbn [getCachedPool].
    + apply String.eqb_eq in E. subst k0.
      destruct (String.eqb a b) eqn:E'; [|reflexivity].
      apply String.eqb_eq in E'. congruence.
    + now rewrite IH.
Qed.

Lemma getCachedPool_key cache b q :
  getCachedPool cache b = Some q -> In b (map fst cache).
Proof.
  induction cache as [|[k0 p0] rest IH]; cbn [getCachedPool]; [discriminate|].
  destruct (String.eqb k0 b) eqn:E.
  - apply String.eqb_eq in E. intros _. now left.
  - intros H. right. now apply IH.
Qed.

Lemma clearOldCache_keys now maxAge cache k :
  In k (map fst (clearOldCache now maxAge cache)) -> In k (map fst cache).
Proof.
  unfold clearOldCache. rewrite !in_map_iff.
  intros (e & He & Hin). apply filter_In in Hin. exists e. tauto.
Qed.

Lemma clearOldCache_nodup now maxAge cache :
  NoDup (map fst cache) -> NoDup (map fst (clearOldCache now maxAge cache)).
Proof.
  induction cache as [|[k0 p0] rest IH]; intros H; [constructor|].
  inversion H as [|? ? Hk Hrest]; subst.
  unfold clearOldCache in *. cbn [filter snd].
  destruct (negb (expired now maxAge p0)); [|now apply IH].
  cbn [map fst]. constructor; [|now apply IH].
  intros Hin. apply Hk. apply (clearOldCache_keys now maxAge rest k0 Hin).
Qed.

Lemma getCachedPool_cleared now maxAge cache b q :
  NoDup (map fst cache) ->
  (getCachedPool (clearOldCache now maxAge cache) b = Some q
   <-> getCachedPool cache b = Some q /\ expired now maxAge q = false).
Proof.
  induction cache as [|[k0 p0] rest IH]; intros H.
  - cbn. split; [discriminate|intros (E & _); discriminate].
  - inversion H as [|? ? Hk Hrest]; subst. specialize (IH Hrest).
    unfold clearOldCache in *. cbn [filter snd getCachedPool].
    destruct (String.eqb k0 b) eqn:E.
    + apply String.eqb_eq in E. subst k0.
      destruct (expired now maxAge p0) eqn:Ex; cbn [negb getCachedPool].
      * split.
        -- intros Hq. apply getCachedPool_key in Hq.
           apply (clearOldCache_keys now maxAge rest b) in Hq. contradiction.
        -- intros (Ep & Eq). inversion Ep; subst. congruence.
      * rewrite String.eqb_refl. split.
        -- intros Ep. inversion Ep; subst. auto.
        -- intros (Ep & _). exact Ep.
    + destruct (expired now maxAge p0); cbn [negb getCachedPool];
        [|rewrite E]; exact IH.
Qed.

(** X19.  The pool cache behaves as a map with one entry per address:
    storing a pool makes it the pool read back for its address and
    changes no other address, and evicting keeps, for every address,
    exactly the pool that was there unless it has expired; neither
    operation duplicates an address. *)
Theorem pool_cache_laws cache a p :
  NoDup (map fst cache) ->
  NoDup (map fst (cacheSet a p cache))
  /\ getCachedPool (cacheSet a p cache) a = Some p
  /\ (forall b, b <> a ->
        getCachedPool (cacheSet a p cache) b = getCachedPool cache b)
  /\ (forall now maxAge,
        NoDup (map fst (clearOldCache now maxAge cache))
        /\ forall b q,
             getCachedPool (clearOldCache now maxAge cache) b = Some q
             <-> getCachedPool cache b = Some q
                 /\ expired now maxAge q = false).
Proof.
  intros H. split; [now apply cacheSet_nodup|].
  split; [apply getCachedPool_set|].
  split; [intros b Hb; now apply getCachedPool_set_other|].
  intros now maxAge. split; [now apply clearOldCache_nodup|].
  intros b q. now apply getCachedPool_cleared.
Qed.

Lemma pool_cache_laws_witness :
  getCachedPool (cacheSet "0xb2" Samples.venueB [("0xa1", Samples.venueA)])
    "0xa1"
  = Some Samples.venueA.
Proof.
  refine (eq_trans
            (proj1 (proj2 (proj2 (pool_cache_laws [("0xa1", Samples.venueA)]
                                    "0xb2" Samples.venueB _)))
               "0xa1" _)
            eq_refl).
  - repeat constructor. intros [].
  - discriminate.
Defined.

(** ** The concentrated-liquidity fetchers *)





(** ** The TWAP detector *)

Lemma detectTwap_some m stamp twapPrices pool o :
  detectTwap m stamp twapPrices pool = Some o ->
  pools o = [pool]
  /\ (exists twap, twapGet twapPrices (twapKey pool) = Some twap)
  /\ opp_type o = TWAPArbitrage
  /\ flashloanRequired o = true
  /\ flashloanAmount o = 0
  /\ emittedAbove m o.
Proof.
  unfold detectTwap.
  destruct (twapGet twapPrices (twapKey pool)) as [twap|]; [|discriminate].
  destruct (gt _ _) eqn:E; [|discriminate].
  intros H. inversion H; subst o; clear H. cbn.
  split; [reflexivity|]. split; [eauto|]. repeat (split; [reflexivity|]).
  unfold emittedAbove; cbn. split; [|auto].
  now apply above_margin.
Qed.

Lemma twap_fold (P : ArbitrageOpportunity -> Prop) stampOf m twapPrices
  spotPools : forall acc,
  Forall P acc ->
  (forall pool stamp o,
      In pool spotPools -> detectTwap m stamp twapPrices pool = Some o ->
      P o) ->
  let out :=
    fold_left
      (fun opportunities pool =>
         match detectTwap m (stampOf (List.length opportunities))
                 twapPrices pool with
         | Some opportunity => opportunities ++ [opportunity]
         | None => opportunities
         end)
      spotPools acc in
  Forall P out
  /\ (List.length out <= List.length acc + List.length spotPools)%nat.
Proof.
  induction spotPools as [|pool rest IH]; intros acc Hacc Hp.
  - cbn. split; [exact Hacc|lia].
  - cbn [fold_left List.length].
    destruct (detectTwap m (stampOf (List.length acc)) twapPrices pool)
      as [o|] eqn:E.
    + destruct (IH (acc ++ [o])) as (I1 & I2).
      * apply Forall_app. split; [exact Hacc|].
        constructor; [|constructor].
        apply (Hp pool _ o (or_introl eq_refl) E).
      * intros p stamp o' Hin. apply Hp. now right.
      * split; [exact I1|]. rewrite length_app in I2. cbn in I2. lia.
    + destruct (IH acc Hacc) as (I1 & I2).
      * intros p stamp o' Hin. apply Hp. now right.
      * split; [exact I1|]. lia.
Qed.


End PoolMore.

(* ================================================================== *)
(** * The deviation test of the simulation engine *)
(* ================================================================== *)

Module DeviationMore.
Import JsMore DeviationTest.

Lemma withinThreshold_true threshold ds :
  withinThreshold threshold ds = Ok true <-> Forall (tolerated threshold) ds.
Proof.
  induction ds as [|d ds IH]; cbn [withinThreshold].
  - split; [constructor|reflexivity].
  - unfold tolerated at 1.
    destruct (bigIntOfNumber (deviationBPS d)) as [bps|e] eqn:E; cbn [bind].
    + destruct (bps >? threshold) eqn:G.
      * split; [discriminate|].
        intros H. inversion H as [|? ? (z & Hz & Hle) _]; subst.
        rewrite E in Hz. inversion Hz; subst z. lia.
      * rewrite IH. split.
        -- intros H. constructor; [|exact H].
           exists bps. split; [exact E|lia].
        -- intros H. now inversion H.
    + split; [discriminate|].
      intros H. inversion H as [|? ? (z & Hz & _) _]; subst.
      rewrite E in Hz. discriminate Hz.
Qed.

(** X22.  [testRevertOnDeviation] answers [true] exactly when both
    [REVERT_ON_DEVIATION_SLIPPAGE_BPS] (default '50') and
    [MAX_SLIPPAGE_BPS] (default '100') are texts that [BigInt] accepts,
    the opportunity carries a simulation, and every recorded deviation
    is a whole number of BPS not above the first of the two.  The value
    of the second is never compared with anything, but a text [BigInt]
    rejects there still makes the test answer [false]. *)
Theorem deviation_test_characterised env maxSlippageBps opp :
  testRevertOnDeviation env maxSlippageBps opp = true
  <-> exists threshold sim,
        BigInt (orElse (REVERT_ON_DEVIATION_SLIPPAGE_BPS env) "50")
        = Ok threshold
        /\ (exists m, BigInt (orElse maxSlippageBps "100") = Ok m)
        /\ simulation opp = Some sim
        /\ Forall (tolerated threshold) (deviations sim).
Proof.
  unfold testRevertOnDeviation, testBody.
  destruct (BigInt (orElse (REVERT_ON_DEVIATION_SLIPPAGE_BPS env) "50"))
    as [threshold|e1]; cbn [bind].
  - destruct (BigInt (orElse maxSlippageBps "100")) as [m|e2]; cbn [bind].
    + destruct (simulation opp) as [sim|].
      * split.
        -- intros H. exists threshold, sim. split; [reflexivity|].
           split; [eauto|]. split; [reflexivity|].
           apply withinThreshold_true.
           destruct (withinThreshold threshold (deviations sim)) as [b|];
             [now subst b|discriminate].
        -- intros (t & sim' & Et & _ & Es & Hall).
           inversion Et; subst t. inversion Es; subst sim'.
           apply withinThreshold_true in Hall. now rewrite Hall.
      * split; [discriminate|].
        intros (t & sim' & _ & _ & Es & _). discriminate Es.
    + split; [discriminate|].
      intros (t & sim' & _ & (m & Em) & _). discriminate Em.
  - split; [discriminate|].
    intros (t & sim' & Et & _). discriminate Et.
Qed.

End DeviationMore.

(* ================================================================== *)
(** * Further properties of the executor *)
(* ================================================================== *)

Module ExecutorMore.
Import ArbitrageExecutor PoolAnalyzer PoolStore.

(** ** Building *)

Lemma first_ok {A} (l : list A) x : first l = Ok x -> l <> [].
Proof. destruct l; [discriminate|]. intros _. discriminate. Qed.

Lemma bind_ok {A B} (m : Exc A) (k : A -> Exc B) b :
  bind m k = Ok b -> exists a, m = Ok a /\ k a = Ok b.
Proof. destruct m as [a|e]; [eauto|discriminate]. Qed.

Lemma buildFlashloanTransaction_ok env encode packed ex opp tx :
  buildFlashloanTransaction env encode packed ex opp = Ok tx ->
  pools opp <> []
  /\ req_to tx = fl_address (flashloanConfig ex)
  /\ req_value tx = "0"
  /\ req_gasLimit tx = gasEstimate opp
  /\ req_chainId tx = 137.
Proof.
  unfold buildFlashloanTransaction. intros H.
  apply bind_ok in H as (p & Hp & H).
  apply bind_ok in H as (data & _ & H).
  inversion H; subst tx; clear H. cbn.
  split; [now apply (first_ok _ p)|]. auto.
Qed.

Lemma buildTransaction_ok env encode packed ex opp tx :
  buildTransaction env encode packed ex opp = Ok tx ->
  pools opp <> [] /\ req_value tx = "0" /\ req_chainId tx = 137.
Proof.
  unfold buildTransaction. destruct (opp_type opp).
  - unfold buildCrossArbitrageTransaction.
    destruct (pools opp) as [|cheap [|dear rest]]; try discriminate.
    intros H. apply bind_ok in H as (data & _ & H).
    inversion H; subst tx. cbn. repeat split. discriminate.
  - unfold buildJitLiquidityTransaction. intros H.
    apply bind_ok in H as (p & Hp & H). inversion H; subst tx. cbn.
    split; [now apply (first_ok _ p)|]. auto.
  - unfold buildTWAPArbitrageTransaction.
    destruct (negb (flashloanRequired opp)); [discriminate|].
    intros H. apply buildFlashloanTransaction_ok in H. tauto.
  - unfold buildTriangleCycleTransaction. intros H.
    apply bind_ok in H as (p & Hp & H). inversion H; subst tx. cbn.
    split; [now apply (first_ok _ p)|]. auto.
  - discriminate.
Qed.

(** X23.  When the live executor reports [submitted], the opportunity
    carried a simulation whose net profit is not below 50 BPS, it names
    at least one pool, a transaction for chain 137 with value '0' was
    built for it, and the hash reported is the one the wallet returned
    for that transaction with its gas limit raised by one fifth. *)
Theorem live_submission_is_validated env encode packed ex w opp r :
  dryRunMode ex = false ->
  execute env encode packed ex w opp = Ok r ->
  status r = Submitted ->
  exists sim tx,
    wallet ex = true
    /\ simulation opp = Some sim
    /\ lt (netProfitBPS sim) (ofZ 50) = false
    /\ pools opp <> []
    /\ buildTransaction env encode packed ex opp = Ok tx
    /\ req_chainId tx = 137 /\ req_value tx = "0"
    /\ sendTransaction w
         {| req_to := req_to tx;
            req_value := req_value tx;
            req_gasLimit := Z.quot (req_gasLimit tx * 120) 100;
            req_data := req_data tx;
            req_chainId := req_chainId tx |}
       = Ok (bundleHash r).
Proof.
  unfold execute. intros -> H Hs.
  destruct (wallet ex); [|discriminate H]. cbn [negb] in H.
  destruct (executeBody env encode packed ex w opp) as [r'|e] eqn:E;
    cbn [catch] in H; inversion H; subst r; clear H;
    [|discriminate Hs].
  unfold executeBody in E.
  apply bind_ok in E as ([] & Hv & E).
  apply bind_ok in E as (tx & Htx & E).
  apply bind_ok in E as (hash & Hsend & E).
  inversion E; subst r'; clear E. cbn [bundleHash].
  destruct (simulation opp) as [sim|]; [|discriminate Hv].
  destruct (lt (netProfitBPS sim) (ofZ 50)) eqn:L; [discriminate Hv|].
  destruct (buildTransaction_ok _ _ _ _ _ _ Htx) as (Hp & Hval & Hch).
  exists sim, tx. repeat (split; [assumption || reflexivity|]).
  exact Hsend.
Qed.

Lemma live_submission_is_validated_witness :
  exists sim tx,
    simulation (Samples.crossDex None (Some (Samples.goodSimulation 100)))
    = Some sim
    /\ lt (netProfitBPS sim) (ofZ 50) = false
    /\ buildTransaction (Samples.env None (Some Samples.executorAddr))
         (fun _ _ => Ok "0x") (fun s => Ok s)
         (construct Samples.flashloan false (Some Samples.privateKey))
         (Samples.crossDex None (Some (Samples.goodSimulation 100)))
       = Ok tx
    /\ req_chainId tx = 137.
Proof.
  destruct (live_submission_is_validated
              (Samples.env None (Some Samples.executorAddr))
              (fun _ _ => Ok "0x") (fun s => Ok s)
              (construct Samples.flashloan false (Some Samples.privateKey))
              (mkWorld (ofZ 0) "1f" (fun _ => Ok "0xhash"))
              (Samples.crossDex None (Some (Samples.goodSimulation 100)))
              _ eq_refl eq_refl eq_refl)
    as (sim & tx & _ & Hs & Hl & _ & Hb & Hc & _).
  exists sim, tx. repeat (split; [assumption|]). assumption.
Defined.

(** ** Opportunities fresh from the detectors *)

Lemma unsimulated_is_not_sent env encode packed ex w opp :
  simulation opp = None ->
  dryRunMode ex = false -> wallet ex = true ->
  execute env encode packed ex w opp
  = Ok (failed w (ErrorObj msgNotProfitable)).
Proof.
  intros Hs Hd Hw. unfold execute, executeBody. now rewrite Hd, Hw, Hs.
Qed.

Lemma cross_member stampOf cached m o :
  In o (detectCrossArbitrage stampOf cached m) ->
  exists stamp l, detectPair m stamp l = Some o.
Proof.
  intros H.
  assert (F : Forall (fun o => exists stamp l, detectPair m stamp l = Some o)
                (detectCrossArbitrage stampOf cached m)).
  { apply (PoolMore.cross_fold_inv _ stampOf m (groupByPair cached) []);
      [constructor|]. intros entry stamp o' _ Ho. eauto. }
  rewrite Forall_forall in F. now apply F.
Qed.

Lemma twap_member stampOf spotPools twapPrices m o :
  In o (detectTWAPArbitrage stampOf spotPools twapPrices m) ->
  exists stamp pool, detectTwap m stamp twapPrices pool = Some o.
Proof.
  intros H.
  destruct (PoolMore.twap_fold
              (fun o => exists stamp pool,
                          detectTwap m stamp twapPrices pool = Some o)
              stampOf m twapPrices spotPools [] (Forall_nil _)) as (F & _).
  { intros pool stamp o' _ Ho. eauto. }
  rewrite Forall_forall in F. now apply F.
Qed.

(** X24.  An opportunity taken straight from either detector is never
    sent by the live executor: it carries no simulation, so [execute]
    answers [failed] with "Opportunity no longer profitable" whatever
    the encoders and the wallet would do. *)
Theorem detected_opportunity_is_not_sent env encode packed ex w
  stampOf cached spotPools twapPrices m o :
  In o (detectCrossArbitrage stampOf cached m)
  \/ In o (detectTWAPArbitrage stampOf spotPools twapPrices m) ->
  dryRunMode ex = false -> wallet ex = true ->
  execute env encode packed ex w o
  = Ok (failed w (ErrorObj msgNotProfitable)).
Proof.
  intros [H|H] Hd Hw; apply unsimulated_is_not_sent; try assumption.
  - apply cross_member in H as (stamp & l & Ho).
    apply PoolMore.detectPair_some in Ho. tauto.
  - apply twap_member in H as (stamp & pool & Ho).
    apply PoolMore.detectTwap_some in Ho as (_ & _ & _ & _ & _ & _ & Hs & _).
    exact Hs.
Qed.

Lemma detected_opportunity_is_not_sent_witness :
  exists o,
    detectCrossArbitrage (fun _ => mkStamp "arb-0" (ofZ 0))
      PoolVocabulary.twoVenues (ofZ 80) = [o]
    /\ execute (Samples.env None (Some Samples.executorAddr))
         (fun _ _ => Ok "0x") (fun s => Ok s)
         (construct Samples.flashloan false (Some Samples.privateKey))
         (mkWorld (ofZ 0) "1f" (fun _ => Ok "0xhash")) o
       = Ok (failed (mkWorld (ofZ 0) "1f" (fun _ => Ok "0xhash"))
               (ErrorObj msgNotProfitable)).
Proof.
  eexists. split; [reflexivity|].
  apply (detected_opportunity_is_not_sent _ _ _ _ _
           (fun _ => mkStamp "arb-0" (ofZ 0)) PoolVocabulary.twoVenues
           [] [] (ofZ 80)).
  - left. left. reflexivity.
  - reflexivity.
  - reflexivity.
Defined.



End ExecutorMore.

(* ================================================================== *)
(** * Further properties of the stream listener *)
(* ================================================================== *)

Module ListenerMore.
Import TransactionListener ListenerVocabulary ListenerFacts ListenerTrace.

Lemma attemptReconnect_bounds st :
  0 <= reconnectAttempts st <= 5 ->
  0 <= reconnectAttempts (fst (attemptReconnect st)) <= 5
  /\ Forall (fun d => In d schedule) (delays (snd (attemptReconnect st)))
  /\ emitted (snd (attemptReconnect st)) = [].
Proof.
  intros H. unfold attemptReconnect, maxReconnectAttempts, reconnectDelay.
  destruct (reconnectAttempts st >=? 5) eqn:E; cbn [fst snd].
  - repeat split; try lia. constructor.
  - assert (Hlt : reconnectAttempts st < 5) by lia.
    cbn [reconnectAttempts delays flat_map scheduled app emitted emittedTx].
    split; [lia|]. split; [|reflexivity].
    constructor; [|constructor].
    assert (C : reconnectAttempts st = 0 \/ reconnectAttempts st = 1
                \/ reconnectAttempts st = 2 \/ reconnectAttempts st = 3
                \/ reconnectAttempts st = 4) by lia.
    destruct C as [-> | [-> | [-> | [-> | ->]]]]; cbn; auto 10.
Qed.

Lemma step_bounds st ev :
  0 <= reconnectAttempts st <= 5 ->
  0 <= reconnectAttempts (fst (step st ev)) <= 5
  /\ Forall (fun d => In d schedule) (delays (snd (step st ev)))
  /\ emitted (snd (step st ev)) = parsedTx ev.
Proof.
  intros H. pose proof (attemptReconnect_bounds st H) as (A1 & A2 & A3).
  destruct ev as [[|]| |[tx|]| | |]; cbn [step].
  - destruct (attemptReconnect st) as [st' acts]. cbn [fst snd] in *.
    repeat split; try lia; assumption.
  - cbn. repeat split; try lia. constructor.
  - cbn. repeat split; try lia. constructor.
  - cbn. repeat split; try lia. constructor.
  - cbn. repeat split; try lia. constructor.
  - cbn. repeat split; try lia. constructor.
  - repeat split; try lia; assumption.
  - destruct (ws st); cbn; repeat split; try lia; constructor.
Qed.

Lemma emitted_app a b : emitted (a ++ b) = emitted a ++ emitted b.
Proof. unfold emitted. apply flat_map_app. Qed.

(** X26.  Whatever happens to a listener, in whatever order, its
    attempt counter stays between 0 and 5, every reconnection it
    schedules uses one of the delays 1000, 2000, 4000, 8000 or
    16000 ms, and what it emits is exactly the transactions parsed from
    the messages it received, each once and in the order received. *)
Theorem listener_invariants evs : forall st,
  0 <= reconnectAttempts st <= 5 ->
  0 <= reconnectAttempts (fst (run st evs)) <= 5
  /\ Forall (fun d => In d [1000; 2000; 4000; 8000; 16000])
            (delays (snd (run st evs)))
  /\ emitted (snd (run st evs)) = parsedMessages evs.
Proof.
  induction evs as [|ev evs IH]; intros st H.
  - cbn. repeat split; try lia. constructor.
  - rewrite run_cons. cbn [fst snd].
    destruct (step_bounds st ev H) as (S1 & S2 & S3).
    destruct (IH (fst (step st ev)) S1) as (I1 & I2 & I3).
    rewrite delays_app, emitted_app, S3, I3.
    split; [exact I1|]. split; [|reflexivity].
    apply Forall_app. split; assumption.
Qed.

Lemma listener_invariants_witness :
  Forall (fun d => In d [1000; 2000; 4000; 8000; 16000])
         (delays (snd (run initial
                         [WsClose; Start false; WsOpen;
                          WsMessage (Some (Samples.tx Samples.userAddr));
                          Stop; WsClose])))
  /\ emitted (snd (run initial
                     [WsClose; Start false; WsOpen;
                      WsMessage (Some (Samples.tx Samples.userAddr));
                      Stop; WsClose]))
     = [Samples.tx Samples.userAddr].
Proof.
  destruct (listener_invariants
              [WsClose; Start false; WsOpen;
               WsMessage (Some (Samples.tx Samples.userAddr));
               Stop; WsClose]
              initial ltac:(cbn; lia)) as (_ & H2 & H3).
  split; [exact H2 | exact H3].
Defined.

(** ** [stop()] and the socket flag *)

Lemma attemptReconnect_flag st1 st2 :
  reconnectAttempts st1 = reconnectAttempts st2 ->
  reconnectAttempts (fst (attemptReconnect st1))
  = reconnectAttempts (fst (attemptReconnect st2))
  /\ delays (snd (attemptReconnect st1)) = delays (snd (attemptReconnect st2)).
Proof.
  intros H. unfold attemptReconnect. rewrite H.
  destruct (reconnectAttempts st2 >=? maxReconnectAttempts); cbn; auto.
Qed.

Lemma step_flag st1 st2 ev :
  reconnectAttempts st1 = reconnectAttempts st2 ->
  reconnectAttempts (fst (step st1 ev)) = reconnectAttempts (fst (step st2 ev))
  /\ delays (snd (step st1 ev)) = delays (snd (step st2 ev)).
Proof.
  intros H. pose proof (attemptReconnect_flag st1 st2 H) as (A1 & A2).
  destruct ev as [[|]| |[tx|]| | |]; cbn [step];
    try (split; assumption); try (cbn; now auto).
  - destruct (attemptReconnect st1) as [a1 t1].
    destruct (attemptReconnect st2) as [a2 t2]. cbn [fst snd] in *.
    split; [exact A1|exact A2].
  - destruct (ws st1), (ws st2); cbn; auto.
Qed.

Lemma run_flag evs : forall st1 st2,
  reconnectAttempts st1 = reconnectAttempts st2 ->
  reconnectAttempts (fst (run st1 evs)) = reconnectAttempts (fst (run st2 evs))
  /\ delays (snd (run st1 evs)) = delays (snd (run st2 evs)).
Proof.
  induction evs as [|ev evs IH]; intros st1 st2 H; [cbn; auto|].
  rewrite !run_cons. cbn [fst snd].
  destruct (step_flag st1 st2 ev H) as (S1 & S2).
  destruct (IH _ _ S1) as (I1 & I2).
  split; [exact I1|]. now rewrite !delays_app, S2, I2.
Qed.

Lemma step_stop st :
  reconnectAttempts (fst (step st Stop)) = reconnectAttempts st
  /\ delays (snd (step st Stop)) = [].
Proof. cbn. destruct (ws st); cbn; auto. Qed.

Lemma run_app st evs1 evs2 :
  run st (evs1 ++ evs2)
  = (fst (run (fst (run st evs1)) evs2),
     snd (run st evs1) ++ snd (run (fst (run st evs1)) evs2)).
Proof.
  revert st. induction evs1 as [|ev evs1 IH]; intros st.
  - cbn [app run fst snd]. now destruct (run st evs2).
  - cbn [app]. rewrite !run_cons, IH. cbn [fst snd].
    now rewrite app_assoc.
Qed.

(** X27.  [stop()] does not stop the reconnection logic: deleting every
    call of [stop()] from a history changes neither the attempt counter
    nor the reconnections scheduled, so the close event that follows a
    [stop()] schedules a reconnect like any other.  Only a successful
    opening resets the schedule: after it, the failures of an offline
    period are answered from the first delay on. *)
Theorem stop_does_not_cancel_reconnect st evs offlineEvs :
  forallb offline offlineEvs = true ->
  reconnectAttempts (fst (run st (filter notStop evs)))
  = reconnectAttempts (fst (run st evs))
  /\ delays (snd (run st (filter notStop evs))) = delays (snd (run st evs))
  /\ delays (snd (run st (evs ++ WsOpen :: offlineEvs)))
     = delays (snd (run st evs))
       ++ firstn (failures offlineEvs) [1000; 2000; 4000; 8000; 16000].
Proof.
  intros Hoff.
  assert (Hfilter : forall evs st,
             reconnectAttempts (fst (run st (filter notStop evs)))
             = reconnectAttempts (fst (run st evs))
             /\ delays (snd (run st (filter notStop evs)))
                = delays (snd (run st evs))).
  { clear. induction evs as [|ev evs IH]; intros st; [cbn; auto|].
    cbn [filter]. destruct (notStop ev) eqn:E.
    - rewrite !run_cons. cbn [fst snd].
      destruct (IH (fst (step st ev))) as (I1 & I2).
      split; [exact I1|]. now rewrite !delays_app, I2.
    - destruct ev; try discriminate E.
      rewrite run_cons. cbn [fst snd].
      destruct (step_stop st) as (S1 & S2).
      destruct (IH st) as (I1 & I2).
      destruct (run_flag evs (fst (step st Stop)) st S1) as (F1 & F2).
      rewrite delays_app, S2. cbn [app].
      split; congruence. }
  destruct (Hfilter evs st) as (H1 & H2).
  split; [exact H1|]. split; [exact H2|].
  rewrite run_app. cbn [snd]. rewrite delays_app. f_equal.
  rewrite run_cons. cbn [step fst snd]. rewrite delays_app.
  cbn [delays flat_map scheduled app].
  destruct (offline_run offlineEvs 0%nat
              {| reconnectAttempts := 0; ws := ws (fst (run st evs)) |}
              eq_refl (Nat.le_0_l 5) Hoff) as (D & _).
  exact D.
Qed.

Lemma stop_does_not_cancel_reconnect_witness :
  delays (snd (run initial ([Start false; WsOpen; Stop]
                            ++ WsOpen :: [WsClose])))
  = delays (snd (run initial [Start false; WsOpen; Stop])) ++ [1000].
Proof.
  exact (proj2 (proj2 (stop_does_not_cancel_reconnect initial
                         [Start false; WsOpen; Stop] [WsClose] eq_refl))).
Defined.

End ListenerMore.

(* ================================================================== *)
(** * Properties of the two entry points *)
(* ================================================================== *)

Module OrchestratorMore.
Import SafetyChecker CalldataDecoder DecodedCalls Orchestrator.

(** ** The arbitrage monitor *)

Lemma passed_profitable env w st opp sim :
  simulation opp = Some sim ->
  passed (fst (checkOpportunitySafety env w st opp)) = true ->
  checkSimulationProfitable env sim = true.
Proof.
  intros Hsim Hpass.
  destruct (checkSimulationProfitable env sim) eqn:C; [reflexivity|].
  exfalso. revert Hpass. unfold checkOpportunitySafety.
  rewrite Hsim, C. case_ifs; cbn; discriminate.
Qed.

Lemma profitable_above_minimum env sim :
  checkSimulationProfitable env sim = true ->
  lt (netProfitBPS sim) (parseInt (orElse (MIN_PROFIT_BPS env) "80")) = false.
Proof.
  unfold checkSimulationProfitable.
  destruct (negb (success sim)); [discriminate|].
  destruct (lt (netProfitBPS sim) _); [discriminate|reflexivity].
Qed.

(** X28.  In [processOpportunity] of the arbitrage monitor the third
    step never rejects anything: an opportunity that passed the safety
    check already meets the same profit floor.  The executor is reached
    only with execution enabled, after a successful simulation and a
    passed safety check; and whenever it returns a result, whatever the
    status of that result, the run counts one execution and adds the
    simulated net profit to the total. *)
Theorem monitor_pipeline env settings BigInt encode packed cfg engine
  simWorld checkerWorld execWorld stats checker opp :
  let run :=
    monitorProcessOpportunity env settings BigInt encode packed cfg engine
      simWorld checkerWorld execWorld stats checker opp in
  snd run <> NotProfitableEnough
  /\ (forall r, snd run = Executed r ->
        exists sim,
          SimulationEngine.simulate BigInt engine simWorld opp = Ok sim
          /\ success sim = true
          /\ passed (fst (checkOpportunitySafety env checkerWorld checker
                            (withSimulation opp sim))) = true
          /\ executionEnabled settings = true
          /\ ArbitrageExecutor.execute env encode packed
               (executorOf cfg settings) execWorld (withSimulation opp sim)
             = Ok r
          /\ fst (fst run)
             = addProfit (netProfit sim)
                 (countExecuted (countSimulated stats))).
Proof.
  cbv zeta. unfold monitorProcessOpportunity.
  destruct (SimulationEngine.simulate BigInt engine simWorld opp)
    as [sim|e]; [|split; [discriminate|intros r H; discriminate H]].
  destruct (success sim) eqn:Hs; cbn [negb];
    [|split; [discriminate|intros r H; discriminate H]].
  destruct (checkOpportunitySafety env checkerWorld checker
              (withSimulation opp sim)) as [safetyResult checker'] eqn:Hc.
  assert (Hfst : fst (checkOpportunitySafety env checkerWorld checker
                        (withSimulation opp sim)) = safetyResult)
    by now rewrite Hc.
  destruct (passed safetyResult) eqn:Hp; cbn [negb];
    [|split; [discriminate|intros r H; discriminate H]].
  assert (Hlt : lt (netProfitBPS sim)
                   (parseInt (orElse (MIN_PROFIT_BPS env) "80")) = false).
  { apply profitable_above_minimum.
    apply (passed_profitable env checkerWorld checker
             (withSimulation opp sim) sim eq_refl).
    now rewrite Hfst. }
  rewrite Hlt.
  destruct (executionEnabled settings) eqn:He;
    [|split; [discriminate|intros r H; discriminate H]].
  destruct (ArbitrageExecutor.execute env encode packed
              (executorOf cfg settings) execWorld (withSimulation opp sim))
    as [result|e] eqn:Hx;
    [|split; [discriminate|intros r H; discriminate H]].
  split; [discriminate|].
  intros r H. cbn [snd] in H. inversion H; subst r.
  exists sim. rewrite Hfst. cbn [fst]. auto 10.
Qed.

Lemma monitor_pipeline_witness :
  exists r,
    snd (monitorProcessOpportunity
           (Samples.env None (Some Samples.executorAddr))
           (mkSettings (Some "true") (Some Samples.privateKey))
           JsMore.BigInt (fun _ _ => Ok "0x") (fun s => Ok s)
           Samples.flashloan
           (SimulationEngine.mkEngine false true)
           (SimulationEngine.mkWorld
              (SimulationEngine.PostThrows NotAnError)
              (SimulationEngine.mkAnvilReply (Ok "2000") (Ok 1) (Ok 1)))
           Samples.checkerWorld
           (ArbitrageExecutor.mkWorld (ofZ 0) "1f"
              (fun _ => Throw (ErrorObj "nonce too low")))
           (mkMonitorStats 0 0 0 0 0) Samples.checkerState
           (Samples.crossDex None None))
    = Executed r
    /\ status r = Failed
    /\ totalProfit
         (fst (fst (monitorProcessOpportunity
                      (Samples.env None (Some Samples.executorAddr))
                      (mkSettings (Some "true") (Some Samples.privateKey))
                      JsMore.BigInt (fun _ _ => Ok "0x") (fun s => Ok s)
                      Samples.flashloan
                      (SimulationEngine.mkEngine false true)
                      (SimulationEngine.mkWorld
                         (SimulationEngine.PostThrows NotAnError)
                         (SimulationEngine.mkAnvilReply
                            (Ok "2000") (Ok 1) (Ok 1)))
                      Samples.checkerWorld
                      (ArbitrageExecutor.mkWorld (ofZ 0) "1f"
                         (fun _ => Throw (ErrorObj "nonce too low")))
                      (mkMonitorStats 0 0 0 0 0) Samples.checkerState
                      (Samples.crossDex None None))))
       = 999.
Proof.
  eexists. split; [reflexivity|]. split; [reflexivity|].
  match goal with
  | |- totalProfit (fst (fst (monitorProcessOpportunity
                                ?env ?settings ?BigInt ?encode ?packed ?cfg
                                ?engine ?sw ?cw ?ew ?stats ?checker ?opp)))
       = _ =>
      destruct (proj2 (monitor_pipeline env settings BigInt encode packed cfg
                         engine sw cw ew stats checker opp) _ eq_refl)
        as (sim & Hsim & _ & _ & _ & _ & Hstats)
  end.
  rewrite Hstats. inversion Hsim; subst sim. reflexivity.
Defined.

(** ** The copy-trading bot *)

Lemma detected_copy stamp tx call o :
  In o (detectOpportunities stamp tx call) ->
  detectOpportunities stamp tx call = [o]
  /\ simulation o = None
  /\ isSwap call = true.
Proof.
  unfold detectOpportunities.
  destruct (isSwap call); cbn [negb]; [|intros []].
  destruct (extractSwapAmount call) as [[swapAmountIn minOut]|]; [|intros []].
  destruct (extractTokenPair call) as [[tokenIn tokenOut]|]; [|intros []].
  destruct (JsMore.BigInt swapAmountIn) as [amountIn|e]; [|intros []].
  destruct (amountIn <? minSwapSize); [intros []|].
  intros [<-|[]]. repeat split.
Qed.

Lemma bot_process_unsimulated env settings encode packed cfg w stats o :
  simulation o = None ->
  botProcessOpportunity env settings encode packed cfg w stats o
  = if lt (expectedProfitBPS o) (parseInt (orElse (MIN_PROFIT_BPS env) "10"))
    then stats
    else if executionEnabled settings
            && truthy (EXECUTOR_PRIVATE_KEY settings)
         then countExecuted (addFound 1 stats)
         else addFound 1 stats.
Proof.
  intros Hs. unfold botProcessOpportunity.
  destruct (lt _ _); [reflexivity|].
  destruct (executionEnabled settings) eqn:He; [|reflexivity].
  unfold ArbitrageExecutor.execute, executorOf, ArbitrageExecutor.construct.
  cbn [ArbitrageExecutor.dryRunMode ArbitrageExecutor.wallet].
  rewrite He. cbn [negb andb].
  rewrite andb_true_r.
  destruct (truthy (EXECUTOR_PRIVATE_KEY settings)); cbn [negb];
    [|reflexivity].
  unfold ArbitrageExecutor.executeBody. rewrite Hs. reflexivity.
Qed.

(** What handling one transaction comes to, for every answer of the
    wallet. *)
Lemma bot_handle_closed env settings encode packed cfg stamp stats tx :
  exists after,
    (forall w,
        botHandleIncomingTransaction env settings encode packed cfg stamp w
          stats tx = after)
    /\ (after = countTx stats
        \/ exists call o,
             decodeCalldata
               (match tx_to tx with Some a => a | None => "" end)
               (tx_data tx) = Ok (Some call)
             /\ detectOpportunities stamp tx call = [o]
             /\ after
                = if lt (expectedProfitBPS o)
                        (parseInt (orElse (MIN_PROFIT_BPS env) "10"))
                  then addFound 1 (countTx stats)
                  else if executionEnabled settings
                          && truthy (EXECUTOR_PRIVATE_KEY settings)
                       then countExecuted
                              (addFound 1 (addFound 1 (countTx stats)))
                       else addFound 1 (addFound 1 (countTx stats))).
Proof.
  unfold botHandleIncomingTransaction.
  destruct (decodeCalldata _ (tx_data tx)) as [[call|]|e] eqn:D;
    try (eexists; split; [intros w; reflexivity|now left]).
  destruct (dropped (Some call));
    [eexists; split; [intros w; reflexivity|now left]|].
  destruct (detectOpportunities stamp tx call) as [|o rest] eqn:E;
    [eexists; split; [intros w; reflexivity|now left]|].
  destruct (detected_copy stamp tx call o) as (E1 & Hs & _).
  { rewrite E. now left. }
  rewrite E in E1. inversion E1; subst rest.
  eexists. split.
  - intros w. cbn [fold_left List.length].
    change (Z.of_nat 1) with 1.
    apply (bot_process_unsimulated _ _ _ _ _ _ _ _ Hs).
  - right. exists call, o. repeat split; assumption.
Qed.

(** X29.  The copy-trading bot never gets a transaction out.  Whatever
    transaction it is shown and whatever the configuration, handling it
    leaves [totalProfit] as it was and counts at most one execution, and
    the resulting statistics do not depend on what the wallet would
    answer: the opportunities it builds carry no simulation, which the
    live executor insists on. *)
Theorem copy_bot_never_submits env settings encode packed cfg stamp w
  stats tx :
  let after :=
    botHandleIncomingTransaction env settings encode packed cfg stamp w
      stats tx in
  totalProfit after = totalProfit stats
  /\ txsProcessed after = txsProcessed stats + 1
  /\ opportunitiesExecuted stats <= opportunitiesExecuted after
     <= opportunitiesExecuted stats + 1
  /\ forall w',
       botHandleIncomingTransaction env settings encode packed cfg stamp w'
         stats tx
       = after.
Proof.
  cbv zeta.
  destruct (bot_handle_closed env settings encode packed cfg stamp stats tx)
    as (after & Hw & Hcase).
  rewrite (Hw w).
  split; [|split; [|split; [|exact Hw]]];
    destruct Hcase as [->|(call & o & _ & _ & ->)];
    try (case_ifs; cbn; lia); cbn; lia.
Qed.

(** ** Which transactions the bot copies *)

Lemma token_pair_elsewhere to data call :
  decodeCalldata to data = Ok (Some call) ->
  getFunctionSelector data <> "0x1f00ca16" ->
  getFunctionSelector data <> "0xc04b8d59" ->
  extractTokenPair call = None.
Proof.
  intros H N1 N2.
  destruct (DecoderMore.decodeCalldata_inv _ _ _ H)
    as [(E & ->)|(signature & Hin & ->)]; [reflexivity|].
  clear H. DecoderMore.by_selector Hin; subst signature;
    try congruence; try reflexivity;
    apply DecoderMore.generic_call_reads_nothing.
Qed.

(** X30.  The bot builds a copy opportunity for two selectors only,
    [0x1f00ca16] and [0xc04b8d59]: any other transaction, the router
    swap [swapExactTokensForTokens] included, is only counted as
    processed.  When it does build one, and the quick profit check lets
    it through, the opportunity is counted twice in
    [opportunitiesFound]. *)
Theorem copy_bot_selectors env settings encode packed cfg stamp w stats tx :
  (getFunctionSelector (tx_data tx) <> "0x1f00ca16" ->
   getFunctionSelector (tx_data tx) <> "0xc04b8d59" ->
   botHandleIncomingTransaction env settings encode packed cfg stamp w
     stats tx
   = countTx stats)
  /\ (forall call o,
        decodeCalldata (match tx_to tx with Some a => a | None => "" end)
          (tx_data tx) = Ok (Some call) ->
        detectOpportunities stamp tx call = [o] ->
        lt (ofZ 50) (parseInt (orElse (MIN_PROFIT_BPS env) "10")) = false ->
        opportunitiesFound
          (botHandleIncomingTransaction env settings encode packed cfg stamp
             w stats tx)
        = opportunitiesFound stats + 2).
Proof.
  destruct (bot_handle_closed env settings encode packed cfg stamp stats tx)
    as (after & Hw & Hcase).
  rewrite (Hw w). split.
  - intros N1 N2.
    destruct Hcase as [E|(call & o & D & E & _)]; [exact E|].
    exfalso.
    pose proof (token_pair_elsewhere _ _ _ D N1 N2) as Hp.
    unfold detectOpportunities in E. rewrite Hp in E.
    destruct (isSwap call); cbn [negb] in E; [|discriminate E].
    destruct (extractSwapAmount call) as [[a b]|]; discriminate E.
  - intros call o D E Hlt.
    assert (Hprofit : expectedProfitBPS o = ofZ 50).
    { unfold detectOpportunities in E.
      destruct (isSwap call); cbn [negb] in E; [|discriminate E].
      destruct (extractSwapAmount call) as [[a b]|]; [|discriminate E].
      destruct (extractTokenPair call) as [[c d]|]; [|discriminate E].
      destruct (JsMore.BigInt a); [|discriminate E].
      destruct (_ <? _); [discriminate E|]. now inversion E. }
    destruct Hcase as [->|(call' & o' & D' & E' & ->)].
    + exfalso. specialize (Hw w).
      unfold botHandleIncomingTransaction in Hw. rewrite D in Hw.
      destruct (detected_copy stamp tx call o) as (_ & Hs & Hsw).
      { rewrite E. now left. }
      unfold dropped, isSwap in *.
      destruct (call_type call); try discriminate Hsw.
      rewrite E in Hw. cbn [fold_left List.length] in Hw.
      rewrite (bot_process_unsimulated _ _ _ _ _ _ _ _ Hs) in Hw.
      rewrite Hprofit, Hlt in Hw.
      apply (f_equal opportunitiesFound) in Hw. revert Hw.
      case_ifs; cbn; lia.
    + rewrite D in D'. inversion D'; subst call'.
      rewrite E in E'. inversion E'; subst o'.
      rewrite Hprofit, Hlt. case_ifs; cbn; lia.
Qed.

Lemma copy_bot_selectors_witness :
  botHandleIncomingTransaction (Samples.env None (Some Samples.executorAddr))
    (mkSettings (Some "true") (Some Samples.privateKey))
    (fun _ _ => Ok "0x") (fun s => Ok s) Samples.flashloan
    (PoolAnalyzer.mkStamp "copy-0" (ofZ 0))
    (ArbitrageExecutor.mkWorld (ofZ 0) "1f" (fun _ => Ok "0xhash"))
    (mkMonitorStats 0 0 0 0 0) (Samples.tx Samples.userAddr)
  = mkMonitorStats 1 0 0 0 0
  /\ opportunitiesFound
       (botHandleIncomingTransaction
          (Samples.env None (Some Samples.executorAddr))
          (mkSettings (Some "true") (Some Samples.privateKey))
          (fun _ _ => Ok "0x") (fun s => Ok s) Samples.flashloan
          (PoolAnalyzer.mkStamp "copy-0" (ofZ 0))
          (ArbitrageExecutor.mkWorld (ofZ 0) "1f" (fun _ => Ok "0xhash"))
          (mkMonitorStats 0 0 0 0 0) largeSwap)
     = 2.
Proof.
  split.
  - apply (proj1 (copy_bot_selectors
                    (Samples.env None (Some Samples.executorAddr))
                    (mkSettings (Some "true") (Some Samples.privateKey))
                    (fun _ _ => Ok "0x") (fun s => Ok s) Samples.flashloan
                    (PoolAnalyzer.mkStamp "copy-0" (ofZ 0))
                    (ArbitrageExecutor.mkWorld (ofZ 0) "1f"
                       (fun _ => Ok "0xhash"))
                    (mkMonitorStats 0 0 0 0 0) (Samples.tx Samples.userAddr)));
      discriminate.
  - refine (eq_trans
              (proj2 (copy_bot_selectors
                        (Samples.env None (Some Samples.executorAddr))
                        (mkSettings (Some "true") (Some Samples.privateKey))
                        (fun _ _ => Ok "0x") (fun s => Ok s)
                        Samples.flashloan
                        (PoolAnalyzer.mkStamp "copy-0" (ofZ 0))
                        (ArbitrageExecutor.mkWorld (ofZ 0) "1f"
                           (fun _ => Ok "0xhash"))
                        (mkMonitorStats 0 0 0 0 0) largeSwap)
                 _ _ eq_refl eq_refl eq_refl)
              eq_refl).
Defined.

End OrchestratorMore.

(* ================================================================== *)
(** * The models on small inputs *)
(* ================================================================== *)

Module Scenarios.
Import Samples.

Example parseInt_decimal : parseInt "600" = ofZ 600.
Proof. reflexivity. Qed.

Example parseInt_hexadecimal : parseInt " 0x258" = ofZ 600.
Proof. reflexivity. Qed.

Example parseInt_prefix : parseInt "50bps" = ofZ 50.
Proof. reflexivity. Qed.

Example parseInt_not_a_number : parseInt "bps" = NaN.
Proof. reflexivity. Qed.

Example pairKey_sorted :
  PoolAnalyzer.pairKey venueA = "0xaa-0xbb".
Proof. reflexivity. Qed.

Example spot_price_zero_reserve :
  PoolAnalyzer.calculateSpotPrice (pool "0x01" 0 2000) = ofZ 0.
Proof. reflexivity. Qed.

Example slippage_half :
  eqv (PoolAnalyzer.estimateSwapSlippage venueA 1000)
      (ofZ 5000).
Proof. vm_compute. reflexivity. Qed.

(** Scenario 2: a simulation that did not succeed is rejected with the
    profitability failure. *)
Example failed_simulation_is_rejected :
  let r := fst (SafetyChecker.checkOpportunitySafety (env (Some "50") None)
                  checkerWorld checkerState
                  (crossDex None
                     (Some (SimulationEngine.failure "Unknown revert")))) in
  SafetyChecker.passed r = false
  /\ SafetyChecker.failures r = [SafetyChecker.failNotProfitable].
Proof. split; reflexivity. Qed.

(** Scenario 3: the profitability floor is inclusive. *)
Example profit_at_the_floor_passes :
  SafetyChecker.checkSimulationProfitable (env None None) (goodSimulation 80)
  = true
  /\ SafetyChecker.checkSimulationProfitable (env None None)
       (goodSimulation 79) = false.
Proof. split; reflexivity. Qed.

(** Scenario 5: a dry-run executor reports a submitted result whose hash
    is 0x followed by 64 characters. *)
Example dry_run_is_submitted :
  let r := ArbitrageExecutor.simulateExecute
             (ArbitrageExecutor.mkWorld (ofZ 0) "8f3a"
                (fun _ => Throw NotAnError))
             (crossDex None (Some (goodSimulation 100))) in
  status r = Submitted /\ String.length (bundleHash r) = 66%nat.
Proof. split; reflexivity. Qed.

Example known_selector_is_decoded :
  option_map CalldataDecoder.call_function
    (match CalldataDecoder.decodeCalldata "0x01" "0x2e1a7d4d00" with
     | Ok c => c
     | Throw _ => None
     end)
  = Some "withdraw".
Proof. reflexivity. Qed.

End Scenarios.
